(** * go-secret: the secure-session controller

    A shallow embedding of the terminal application's controller
    ([internal/ui/model.go]) and of its audit journal
    ([internal/audit/audit.go]), with the properties the specification
    states about them.

    Conventions.
    - Go [string]s are byte sequences: they are Rocq [string]s.
    - A [[]byte] is a reference into a store of byte buffers, so that
      zeroing a buffer in place is visible through every alias.
    - Go [int] is a 64-bit integer, modelled in [Z]; the places where the
      source multiplies a configured number by a duration have the
      wrap-around written out.
    - Everything outside the process (clock, clipboard, files) is reached
      through numbered calls; the environment's replies are arbitrary. *)

From Stdlib Require Import ZArith String Ascii List Lia Bool.
From Stdlib.Strings Require Import Byte.
From stdpp Require Import base option list gmap strings sorting pretty.

Set Default Proof Using "Type".

(** ** The Go standard library, as far as the program uses it *)

Module GoStrings.

(** The one-character string ["\n"]. *)
Definition newline : string := String (ascii_of_nat 10) EmptyString.

(** [strings.HasPrefix s p]. *)
Definition HasPrefix (s p : string) : bool := String.prefix p s.

(** [strings.Contains s substr]. *)
Fixpoint Contains (s substr : string) : bool :=
  HasPrefix s substr ||
  match s with
  | EmptyString => false
  | String _ s' => Contains s' substr
  end.

(** [strings.ToLower] on the ASCII letters; other bytes are kept (Go also
    maps the upper-case letters outside ASCII). *)
Definition lower_ascii (c : ascii) : ascii :=
  let n := nat_of_ascii c in
  if (65 <=? n)%nat && (n <=? 90)%nat then ascii_of_nat (n + 32) else c.

Fixpoint ToLower (s : string) : string :=
  match s with
  | EmptyString => EmptyString
  | String c s' => String (lower_ascii c) (ToLower s')
  end.

(** [strings.Join elems sep]. *)
Fixpoint Join (elems : list string) (sep : string) : string :=
  match elems with
  | [] => EmptyString
  | [x] => x
  | x :: rest => (x +:+ sep +:+ Join rest sep)%string
  end.

(** The scan of [strings.Split] for a non-empty separator: [cur] is the
    piece being collected, [skip] counts the bytes of a separator that
    was just matched and are still to be passed over. *)
Fixpoint splitScan (sep : string) (skip : nat) (cur : string) (s : string)
  : list string :=
  match s with
  | EmptyString => [cur]
  | String c s' =>
      match skip with
      | S k => splitScan sep k cur s'
      | O =>
          if HasPrefix s sep
          then cur :: splitScan sep (String.length sep - 1) EmptyString s'
          else splitScan sep 0 (cur +:+ String c EmptyString)%string s'
      end
  end.

(** The pieces [strings.Split] returns for the empty separator: one per
    character (one per byte here; Go cuts after each UTF-8 sequence). *)
Fixpoint explode (s : string) : list string :=
  match s with
  | EmptyString => []
  | String c s' => String c EmptyString :: explode s'
  end.

(** [strings.Split s sep]. *)
Definition Split (s sep : string) : list string :=
  match sep with
  | EmptyString => explode s
  | String _ _ => splitScan sep 0 EmptyString s
  end.

End GoStrings.

(** [time.Time] readings and [time.Duration]s, in nanoseconds. *)
Module GoTime.

Definition Time := Z.
Definition Duration := Z.

Definition minInt64 : Z := - 2 ^ 63.
Definition maxInt64 : Z := 2 ^ 63 - 1.

(** Two's-complement wrap-around of an [int64] result. *)
Definition wrap64 (z : Z) : Z := ((z + 2 ^ 63) mod 2 ^ 64 - 2 ^ 63)%Z.

Definition Second : Duration := 1000000000%Z.
Definition Minute : Duration := (60 * Second)%Z.

(** [time.Duration(n) * unit]: an [int64] product. *)
Definition mulDuration (n : Z) (unit : Duration) : Duration :=
  wrap64 (n * unit).

(** [t.Sub(u)]: the difference, saturated to the [int64] range. *)
Definition Sub (t u : Time) : Duration :=
  Z.max minInt64 (Z.min maxInt64 (t - u)).

(** [t.Add(d)]. *)
Definition Add (t : Time) (d : Duration) : Time := (t + d)%Z.

(** [int(d.Seconds())]: whole seconds, truncated toward zero (the source
    goes through a [float64], exact for the durations of a countdown). *)
Definition wholeSeconds (d : Duration) : Z := Z.quot d Second.

End GoTime.

Import GoTime.

(** [fmt.Sprintf("%d", n)]. *)
Definition itoa (n : Z) : string := pretty n.

(** A Go [error]: [None] is [nil], [Some s] an error whose text is [s]. *)
Definition error := option string.

(** [fmt.Sprintf("...%v", err)] for a non-nil error. *)
Definition errText (e : error) : string := default "<nil>"%string e.

(** ** Data of the packages [gcp], [config] and [audit] *)

(** [gcp.Secret]. *)
Record gcp_Secret := {
  Secret_Name : string;
  Secret_FullName : string;
  Secret_CreateTime : string;
  Secret_Labels : gmap string string;
  Secret_Replication : string;
}.

(** [gcp.SecretVersion]. *)
Record gcp_SecretVersion := {
  Version_Name : string;
  Version_State : string;
  Version_CreateTime : string;
}.

(** [config.Template]. *)
Record Template := { Title : string; Code : string }.

(** [config.ClipboardConfig]. *)
Record ClipboardConfig := { AutoClear : bool; TimeoutSeconds : Z }.

(** [config.AuditConfig]. *)
Record AuditConfig := {
  Audit_Enabled : bool;
  Audit_FilePath : string;
  Audit_MaxSizeMB : Z;
  Audit_MaxAgeDays : Z;
}.

(** [config.SessionConfig]; the timeout is in minutes, 0 disables it. *)
Record SessionConfig := { InactivityTimeout : Z; LockOnTimeout : bool }.

(** [config.Config].  [SecretLocations] is read by the list view. *)
Record Config := {
  ProjectID : string;
  FolderSeparator : string;
  Templates : list Template;
  RecentProjects : list string;
  SecretLocations : list string;
  Clipboard : ClipboardConfig;
  Audit : AuditConfig;
  Session : SessionConfig;
}.

(** [audit.EventType] and [audit.EventResult] are strings. *)
Definition EventType := string.
Definition EventResult := string.

Definition EventSecretList : EventType := "SECRET_LIST".
Definition EventSecretAccess : EventType := "SECRET_ACCESS".
Definition EventSecretReveal : EventType := "SECRET_REVEAL".
Definition EventSecretCopy : EventType := "SECRET_COPY".
Definition EventSecretCreate : EventType := "SECRET_CREATE".
Definition EventSecretDelete : EventType := "SECRET_DELETE".
Definition EventVersionAdd : EventType := "VERSION_ADD".
Definition EventConfigChange : EventType := "CONFIG_CHANGE".
Definition EventProjectSwitch : EventType := "PROJECT_SWITCH".
Definition EventSessionStart : EventType := "SESSION_START".
Definition EventSessionEnd : EventType := "SESSION_END".
Definition EventClipboardClear : EventType := "CLIPBOARD_CLEAR".

Definition ResultSuccess : EventResult := "SUCCESS".
Definition ResultFailure : EventResult := "FAILURE".

(** [audit.Event]. *)
Record Event := {
  Timestamp : string;
  Event_Type : EventType;
  Result : EventResult;
  User : string;
  Event_ProjectID : string;
  SecretName : string;
  Version : string;
  Details : gmap string string;
  Error : string;
}.

(** The composite literal [Event{...}] with every field at its zero value
    but the named ones. *)
Definition mkEvent (ty : EventType) (res : EventResult) (project secret version : string)
    (details : gmap string string) (err : string) : Event :=
  {| Timestamp := ""; Event_Type := ty; Result := res; User := "";
     Event_ProjectID := project; SecretName := secret; Version := version;
     Details := details; Error := err |}.

Definition set_Timestamp (ts : string) (e : Event) : Event :=
  {| Timestamp := ts; Event_Type := Event_Type e; Result := Result e; User := User e;
     Event_ProjectID := Event_ProjectID e; SecretName := SecretName e;
     Version := Version e; Details := Details e; Error := Error e |}.

Definition set_User (u : string) (e : Event) : Event :=
  {| Timestamp := Timestamp e; Event_Type := Event_Type e; Result := Result e; User := u;
     Event_ProjectID := Event_ProjectID e; SecretName := SecretName e;
     Version := Version e; Details := Details e; Error := Error e |}.

(** An open [*os.File]. *)
Definition File := positive.

(** [audit.Logger]; the mutex is left out, the controller being the only
    caller.  [file = None] is the nil handle. *)
Record Logger := {
  file : option File;
  enabled : bool;
  filePath : string;
  maxSizeMB : Z;
  maxAgeDays : Z;
  userEmail : string;
}.

Definition set_file (f : option File) (l : Logger) : Logger :=
  {| file := f; enabled := enabled l; filePath := filePath l;
     maxSizeMB := maxSizeMB l; maxAgeDays := maxAgeDays l; userEmail := userEmail l |}.

Definition set_userEmail (u : string) (l : Logger) : Logger :=
  {| file := file l; enabled := enabled l; filePath := filePath l;
     maxSizeMB := maxSizeMB l; maxAgeDays := maxAgeDays l; userEmail := u |}.

(** ** The world outside the controller *)

(** A byte buffer is addressed by its location; [[]byte] values are
    references, [None] being the nil slice. *)
Definition loc := positive.
Definition slice := option loc.

(** The calls that leave the process, with their arguments. *)
Inductive Call :=
| time_Now
| File_Write (f : File) (b : string)
| File_Sync (f : File)
| File_Stat (f : File)
| File_Close (f : File)
| os_Rename (oldpath newpath : string)
| os_OpenFile (name : string)
| go_cleanupOldLogs (path : string) (days : Z)
| Fprintf_Stderr (s : string)
| clipboard_WriteText (s : string)
| clipboard_Clear
| config_Save (c : Config).

(** What the environment answers: an error or not, and the value the call
    asked for (a clock reading, a file size, a fresh handle). *)
Record Reply := {
  r_err : error;
  r_time : Time;
  r_size : Z;
  r_file : File;
}.

(** The store of byte buffers, the environment's replies (indexed by the
    number of the call) and the calls made so far. *)
Record World := {
  w_heap : gmap loc (list byte);
  w_env : nat → Reply;
  w_trace : list Call;
}.

Definition set_heap (h : gmap loc (list byte)) (w : World) : World :=
  {| w_heap := h; w_env := w_env w; w_trace := w_trace w |}.

(** Computations of the controller: they read and change the world and
    may panic ([None]), as Go does on an index out of range or a nil
    dereference. *)
Definition M (A : Type) : Type := World → option (A * World).

Definition ret {A} (a : A) : M A := λ w, Some (a, w).

Definition bind {A B} (c : M A) (k : A → M B) : M B :=
  λ w, match c w with
       | Some (a, w') => k a w'
       | None => None
       end.

Definition panic {A} : M A := λ _, None.

Declare Scope go_scope.
Delimit Scope go_scope with go.
Notation "'let*' x ':=' c 'in' k" := (bind c (λ x, k))
  (at level 10, x name, c at level 100, k at level 200) : go_scope.
Notation "'let*' ' pat ':=' c 'in' k" := (bind c (λ x, match x with pat => k end))
  (at level 10, pat pattern, c at level 100, k at level 200) : go_scope.
Notation "c ';;' k" := (bind c (λ _, k))
  (at level 100, k at level 200, right associativity) : go_scope.
Local Open Scope go_scope.

(** One call out of the process: recorded, and answered by the
    environment. *)
Definition call (c : Call) : M Reply :=
  λ w, Some (w_env w (length (w_trace w)),
             {| w_heap := w_heap w; w_env := w_env w; w_trace := w_trace w ++ [c] |}).

Definition getHeap : M (gmap loc (list byte)) := λ w, Some (w_heap w, w).
Definition putHeap (h : gmap loc (list byte)) : M unit := λ w, Some (tt, set_heap h w).

(** ** The audit journal ([internal/audit/audit.go]) *)

(** The parts of the Go runtime the journal relies on. *)
Class GoRuntime := {
  (** [json.Marshal(event)]: the encoding and an error.  The encoding is
      compact: line breaks inside strings are escaped, none is added. *)
  json_Marshal : Event → string * error;
  json_Marshal_one_line :
    ∀ e data, json_Marshal e = (data, None) → ascii_of_nat 10 ∉ list_ascii_of_string data;
  (** [t.UTC().Format(time.RFC3339)]. *)
  format_RFC3339 : Time → string;
  (** [t.UTC().Format("20060102-150405")]. *)
  format_stamp : Time → string;
}.

Section Audit.
Context `{GoRuntime}.

(** [Logger.rotate]. *)
Definition rotate (l : Logger) : M (Logger * error) :=
  match file l with
  | None => ret (l, Some "invalid argument")
  | Some f =>
      let* r := call (File_Close f) in
      match r_err r with
      | Some e => ret (l, Some e)
      | None =>
          let* now := call time_Now in
          let timestamp := format_stamp (r_time now) in
          let rotatedPath := (filePath l +:+ "." +:+ timestamp)%string in
          let* r := call (os_Rename (filePath l) rotatedPath) in
          match r_err r with
          | Some e => ret (l, Some e)
          | None =>
              let* r := call (os_OpenFile (filePath l)) in
              match r_err r with
              | Some e => ret (l, Some e)
              | None =>
                  let l := set_file (Some (r_file r)) l in
                  call (go_cleanupOldLogs (filePath l) (maxAgeDays l));;
                  ret (l, None)
              end
          end
      end
  end.

(** [Logger.rotateIfNeeded]. *)
Definition rotateIfNeeded (l : Logger) : M (Logger * error) :=
  match file l with
  | None => ret (l, None)
  | Some f =>
      let* info := call (File_Stat f) in
      match r_err info with
      | Some e => ret (l, Some e)
      | None =>
          let maxBytes := wrap64 (wrap64 (maxSizeMB l * 1024) * 1024) in
          if (r_size info <? maxBytes)%Z then ret (l, None)
          else rotate l
      end
  end.

(** [Logger.Log]. *)
Definition Log (l : Logger) (event : Event) : M (Logger * error) :=
  if negb (enabled l) || bool_decide (file l = None) then ret (l, None)
  else
    match file l with
    | None => ret (l, None)
    | Some f =>
        let* event :=
          (if bool_decide (Timestamp event = "")
           then let* now := call time_Now in
                ret (set_Timestamp (format_RFC3339 (r_time now)) event)
           else ret event) in
        let event :=
          if bool_decide (User event = "") && negb (bool_decide (userEmail l = ""))
          then set_User (userEmail l) event else event in
        let '(data, err) := json_Marshal event in
        match err with
        | Some e => ret (l, Some ("failed to marshal audit event: " +:+ e)%string)
        | None =>
            let* r := call (File_Write f (data +:+ GoStrings.newline)%string) in
            match r_err r with
            | Some e => ret (l, Some ("failed to write audit event: " +:+ e)%string)
            | None =>
                let* r := call (File_Sync f) in
                match r_err r with
                | Some e => ret (l, Some ("failed to sync audit log: " +:+ e)%string)
                | None =>
                    let* '(l, err) := rotateIfNeeded l in
                    match err with
                    | Some e =>
                        call (Fprintf_Stderr
                                ("audit: rotation failed: " +:+ e +:+ GoStrings.newline)%string);;
                        ret (l, None)
                    | None => ret (l, None)
                    end
                end
            end
        end
    end.

(** The wrappers discard the error of [Log]: [_ = l.Log(...)]. *)
Definition logEvent (l : Logger) (e : Event) : M Logger :=
  let* '(l, _) := Log l e in ret l.

Definition LogSecretReveal (l : Logger) (projectID secretName version : string)
    (result : EventResult) (errMsg : string) : M Logger :=
  logEvent l (mkEvent EventSecretReveal result projectID secretName version ∅ errMsg).

Definition LogSecretCopy (l : Logger) (projectID secretName version : string)
    (result : EventResult) (errMsg : string) : M Logger :=
  logEvent l (mkEvent EventSecretCopy result projectID secretName version ∅ errMsg).

Definition LogSecretCreate (l : Logger) (projectID secretName : string)
    (result : EventResult) (errMsg : string) : M Logger :=
  logEvent l (mkEvent EventSecretCreate result projectID secretName "" ∅ errMsg).

Definition LogSecretDelete (l : Logger) (projectID secretName : string)
    (result : EventResult) (errMsg : string) : M Logger :=
  logEvent l (mkEvent EventSecretDelete result projectID secretName "" ∅ errMsg).

Definition LogVersionAdd (l : Logger) (projectID secretName version : string)
    (result : EventResult) (errMsg : string) : M Logger :=
  logEvent l (mkEvent EventVersionAdd result projectID secretName version ∅ errMsg).

Definition LogSecretList (l : Logger) (projectID : string) (count : Z)
    (result : EventResult) (errMsg : string) : M Logger :=
  logEvent l (mkEvent EventSecretList result projectID "" ""
                {[ "count"%string := itoa count ]} errMsg).

Definition LogSessionStart (l : Logger) (projectID : string) : M Logger :=
  logEvent l (mkEvent EventSessionStart ResultSuccess projectID "" "" ∅ "").

Definition LogClipboardClear (l : Logger) : M Logger :=
  logEvent l (mkEvent EventClipboardClear ResultSuccess "" "" "" ∅ "").

(** [Logger.SetUser]. *)
Definition SetUser (l : Logger) (email : string) : Logger := set_userEmail email l.

End Audit.

(** Modelled from the spec: the wrappers [LogSessionLock] and
    [LogSessionUnlock] of the journal, which the controller calls and whose
    definitions are not in the audit package at hand.  The spec has the lock
    recorded as a [SESSION_LOCK] event carrying a reason and the unlock as a
    [SESSION_UNLOCK] event, both funnelled through [Log]. *)
Definition EventSessionLock : EventType := "SESSION_LOCK".
Definition EventSessionUnlock : EventType := "SESSION_UNLOCK".

Definition LogSessionLock `{GoRuntime} (l : Logger) (projectID reason : string) : M Logger :=
  logEvent l (mkEvent EventSessionLock ResultSuccess projectID "" ""
                {[ "reason"%string := reason ]} "").

Definition LogSessionUnlock `{GoRuntime} (l : Logger) (projectID : string) : M Logger :=
  logEvent l (mkEvent EventSessionUnlock ResultSuccess projectID "" "" ∅ "").

(** ** The controller ([internal/ui/model.go]) *)

(** [View]: the screen that is active. *)
Inductive View :=
| ViewProjectPrompt
| ViewList
| ViewDetail
| ViewCreate
| ViewAddVersion
| ViewDelete
| ViewGenerate
| ViewConfig
| ViewConfigMenu
| ViewConfigBasic
| ViewConfigTemplates
| ViewConfigTemplateEdit
| ViewConfigRecentProjects
| ViewConfigSecurity
| ViewAuditLog
| ViewFilter
| ViewReveal
| ViewProjectSwitch
| ViewLocked.

#[global] Instance View_eq_dec : EqDecision View.
Proof. solve_decision. Defined.

(** [FolderItem]: a folder or a secret of the tree view.  [Children] is
    the map from the next path segment to the node below. *)
#[local] Unset Elimination Schemes.
Inductive FolderItem := mkFolderItem {
  Name : string;
  FullPath : string;
  IsFolder : bool;
  Secret : option gcp_Secret;
  Children : gmap string FolderItem;
  Depth : Z;
}.
#[local] Set Elimination Schemes.

Definition set_Children (c : gmap string FolderItem) (it : FolderItem) : FolderItem :=
  {| Name := Name it; FullPath := FullPath it; IsFolder := IsFolder it;
     Secret := Secret it; Children := c; Depth := Depth it |}.

(** The libraries around the controller: the terminal toolkit's messages
    and widgets, the template engine and the secret-store client.  Their
    values are opaque to the controller, which only calls them. *)
Class Widgets := {
  (** [tea.KeyMsg] and its rendering [msg.String()]. *)
  KeyMsg : Type;
  KeyMsg_String : KeyMsg → string;
  (** [tea.MouseMsg], and the messages of other types. *)
  MouseMsg : Type;
  OtherMsg : Type;
  (** A command returned by a widget. *)
  WidgetCmd : Type;
  (** [textinput.Model]. *)
  textinput_Model : Type;
  textinput_Value : textinput_Model → string;
  textinput_SetValue : string → textinput_Model → textinput_Model;
  textinput_Focus : textinput_Model → textinput_Model;
  textinput_Blur : textinput_Model → textinput_Model;
  textinput_Update : textinput_Model → KeyMsg → textinput_Model * WidgetCmd;
  (** [textarea.Model]. *)
  textarea_Model : Type;
  textarea_SetValue : string → textarea_Model → textarea_Model;
  (** [viewport.Model] and [viewport.New]. *)
  viewport_Model : Type;
  viewport_New : Z → Z → viewport_Model;
  (** [*Styles], [KeyMap], [context.Context]. *)
  Styles : Type;
  KeyMap : Type;
  Context : Type;
  (** [*gcp.Client] and its [UserEmail]. *)
  Client : Type;
  Client_UserEmail : Client → string;
  (** [template.New("code").Parse(code)] and [t.Execute(&buf, data)]: a
      result or the text of an error. *)
  ParsedTemplate : Type;
  template_Parse : string → ParsedTemplate + string;
  template_Execute : ParsedTemplate → gmap string string → string + string;
}.

Section Controller.
Context `{GoRuntime} `{Widgets}.

(** [tea.Cmd]: the tasks a handler hands back to the event loop.  Each
    constructor stands for the function of the same name, which returns
    the task; a task delivers one message when it completes. *)
#[local] Unset Elimination Schemes.
Inductive Cmd :=
| CmdNil
| tea_Quit
| textinput_Blink
| CmdWidget (c : WidgetCmd)
| tea_Batch (cmds : list Cmd)
| initializeClient
| loadSecrets
| loadVersions (secretName : string)
| accessSecretVersion (secretName version : string)
| createSecret (name value location : string)
| deleteSecret (name : string)
| addVersion (secretName value : string)
| copySecretValue (secretName version : string)
| clipboardTickCmd
| clearClipboardCmd
| sessionTimeoutTickCmd.
#[local] Set Elimination Schemes.

(** [tea.Msg]: key and pointer input, a resize, the completions of the
    tasks above and the two timers. *)
Inductive Msg :=
| tea_KeyMsg (msg : KeyMsg)
| tea_MouseMsg (msg : MouseMsg)
| tea_WindowSizeMsg (Width Height : Z)
| clientInitializedMsg (client : option Client) (err : error)
| secretsLoadedMsg (secrets : list gcp_Secret) (err : error)
| versionsLoadedMsg (versions : list gcp_SecretVersion) (err : error)
| secretCreatedMsg (name : string) (err : error)
| secretDeletedMsg (name : string) (err : error)
| versionAddedMsg (version : option gcp_SecretVersion) (err : error)
| secretValueMsg (secretName : string) (value : slice) (version : string) (err : error)
| secretCopiedMsg (secretName version : string) (err : error)
| clipboardClearMsg
| clipboardTickMsg (t : Time)
| sessionTimeoutMsg (t : Time)
| tea_OtherMsg (msg : OtherMsg).

(** [Model]: the controller's state.  [config] and [auditLogger] hold the
    objects the Go fields point to, the model being their only owner. *)
Record Model := {
  config : Config;
  client : option Client;
  ctx : Context;
  view : View;
  previousView : View;
  width : Z;
  height : Z;
  styles : Styles;
  keys : KeyMap;
  secrets : list gcp_Secret;
  folderTree : FolderItem;
  currentPath : list string;
  displayItems : list FolderItem;
  cursor : Z;
  listOffset : Z;
  filterText : string;
  filterInput : textinput_Model;
  selectedSecret : option gcp_Secret;
  versions : list gcp_SecretVersion;
  versionCursor : Z;
  revealedValue : slice;
  revealVersion : string;
  createInputs : list textinput_Model;
  createFocus : Z;
  createLocationIdx : Z;
  createAddingLoc : bool;
  createLocInput : textinput_Model;
  createValueArea : textarea_Model;
  createEditorMode : bool;
  versionInput : textinput_Model;
  templateCursor : Z;
  generatedCode : string;
  configInputs : list textinput_Model;
  configFocus : Z;
  configMenuCursor : Z;
  configMenuItems : list string;
  templateListCursor : Z;
  editingTemplateIdx : Z;
  templateTitleInput : textinput_Model;
  templateCodeArea : textarea_Model;
  templateFocus : Z;
  isNewTemplate : bool;
  recentProjectsCursor : Z;
  securityCursor : Z;
  auditLogLines : list string;
  auditLogOffset : Z;
  projectSwitchCursor : Z;
  projectSwitchInput : textinput_Model;
  projectSwitchPrevView : View;
  deleteConfirm : bool;
  statusMsg : string;
  statusErr : bool;
  viewport : viewport_Model;
  loading : bool;
  loadingMsg : string;
  clipboardClearAt : Time;
  clipboardActive : bool;
  auditLogger : option Logger;
  lastActivity : Time;
  sessionLocked : bool;
  lockedPrevView : View;
}.

(** Assignments [m.field = v]. *)
Definition set_config (v : Config) (m : Model) : Model :=
  Build_Model
    v (client m) (ctx m) (view m) (previousView m) (width m) (height m) (styles m)
    (keys m) (secrets m) (folderTree m) (currentPath m) (displayItems m) (cursor m)
    (listOffset m) (filterText m) (filterInput m) (selectedSecret m) (versions m)
    (versionCursor m) (revealedValue m) (revealVersion m) (createInputs m)
    (createFocus m) (createLocationIdx m) (createAddingLoc m) (createLocInput m)
    (createValueArea m) (createEditorMode m) (versionInput m) (templateCursor m)
    (generatedCode m) (configInputs m) (configFocus m) (configMenuCursor m)
    (configMenuItems m) (templateListCursor m) (editingTemplateIdx m)
    (templateTitleInput m) (templateCodeArea m) (templateFocus m) (isNewTemplate m)
    (recentProjectsCursor m) (securityCursor m) (auditLogLines m) (auditLogOffset m)
    (projectSwitchCursor m) (projectSwitchInput m) (projectSwitchPrevView m)
    (deleteConfirm m) (statusMsg m) (statusErr m) (viewport m) (loading m) (loadingMsg m)
    (clipboardClearAt m) (clipboardActive m) (auditLogger m) (lastActivity m)
    (sessionLocked m) (lockedPrevView m).
Definition set_client (v : option Client) (m : Model) : Model :=
  Build_Model
    (config m) v (ctx m) (view m) (previousView m) (width m) (height m) (styles m)
    (keys m) (secrets m) (folderTree m) (currentPath m) (displayItems m) (cursor m)
    (listOffset m) (filterText m) (filterInput m) (selectedSecret m) (versions m)
    (versionCursor m) (revealedValue m) (revealVersion m) (createInputs m)
    (createFocus m) (createLocationIdx m) (createAddingLoc m) (createLocInput m)
    (createValueArea m) (createEditorMode m) (versionInput m) (templateCursor m)
    (generatedCode m) (configInputs m) (configFocus m) (configMenuCursor m)
    (configMenuItems m) (templateListCursor m) (editingTemplateIdx m)
    (templateTitleInput m) (templateCodeArea m) (templateFocus m) (isNewTemplate m)
    (recentProjectsCursor m) (securityCursor m) (auditLogLines m) (auditLogOffset m)
    (projectSwitchCursor m) (projectSwitchInput m) (projectSwitchPrevView m)
    (deleteConfirm m) (statusMsg m) (statusErr m) (viewport m) (loading m) (loadingMsg m)
    (clipboardClearAt m) (clipboardActive m) (auditLogger m) (lastActivity m)
    (sessionLocked m) (lockedPrevView m).
Definition set_view (v : View) (m : Model) : Model :=
  Build_Model
    (config m) (client m) (ctx m) v (previousView m) (width m) (height m) (styles m)
    (keys m) (secrets m) (folderTree m) (currentPath m) (displayItems m) (cursor m)
    (listOffset m) (filterText m) (filterInput m) (selectedSecret m) (versions m)
    (versionCursor m) (revealedValue m) (revealVersion m) (createInputs m)
    (createFocus m) (createLocationIdx m) (createAddingLoc m) (createLocInput m)
    (createValueArea m) (createEditorMode m) (versionInput m) (templateCursor m)
    (generatedCode m) (configInputs m) (configFocus m) (configMenuCursor m)
    (configMenuItems m) (templateListCursor m) (editingTemplateIdx m)
    (templateTitleInput m) (templateCodeArea m) (templateFocus m) (isNewTemplate m)
    (recentProjectsCursor m) (securityCursor m) (auditLogLines m) (auditLogOffset m)
    (projectSwitchCursor m) (projectSwitchInput m) (projectSwitchPrevView m)
    (deleteConfirm m) (statusMsg m) (statusErr m) (viewport m) (loading m) (loadingMsg m)
    (clipboardClearAt m) (clipboardActive m) (auditLogger m) (lastActivity m)
    (sessionLocked m) (lockedPrevView m).
Definition set_width (v : Z) (m : Model) : Model :=
  Build_Model
    (config m) (client m) (ctx m) (view m) (previousView m) v (height m) (styles m)
    (keys m) (secrets m) (folderTree m) (currentPath m) (displayItems m) (cursor m)
    (listOffset m) (filterText m) (filterInput m) (selectedSecret m) (versions m)
    (versionCursor m) (revealedValue m) (revealVersion m) (createInputs m)
    (createFocus m) (createLocationIdx m) (createAddingLoc m) (createLocInput m)
    (createValueArea m) (createEditorMode m) (versionInput m) (templateCursor m)
    (generatedCode m) (configInputs m) (configFocus m) (configMenuCursor m)
    (configMenuItems m) (templateListCursor m) (editingTemplateIdx m)
    (templateTitleInput m) (templateCodeArea m) (templateFocus m) (isNewTemplate m)
    (recentProjectsCursor m) (securityCursor m) (auditLogLines m) (auditLogOffset m)
    (projectSwitchCursor m) (projectSwitchInput m) (projectSwitchPrevView m)
    (deleteConfirm m) (statusMsg m) (statusErr m) (viewport m) (loading m) (loadingMsg m)
    (clipboardClearAt m) (clipboardActive m) (auditLogger m) (lastActivity m)
    (sessionLocked m) (lockedPrevView m).
Definition set_height (v : Z) (m : Model) : Model :=
  Build_Model
    (config m) (client m) (ctx m) (view m) (previousView m) (width m) v (styles m)
    (keys m) (secrets m) (folderTree m) (currentPath m) (displayItems m) (cursor m)
    (listOffset m) (filterText m) (filterInput m) (selectedSecret m) (versions m)
    (versionCursor m) (revealedValue m) (revealVersion m) (createInputs m)
    (createFocus m) (createLocationIdx m) (createAddingLoc m) (createLocInput m)
    (createValueArea m) (createEditorMode m) (versionInput m) (templateCursor m)
    (generatedCode m) (configInputs m) (configFocus m) (configMenuCursor m)
    (configMenuItems m) (templateListCursor m) (editingTemplateIdx m)
    (templateTitleInput m) (templateCodeArea m) (templateFocus m) (isNewTemplate m)
    (recentProjectsCursor m) (securityCursor m) (auditLogLines m) (auditLogOffset m)
    (projectSwitchCursor m) (projectSwitchInput m) (projectSwitchPrevView m)
    (deleteConfirm m) (statusMsg m) (statusErr m) (viewport m) (loading m) (loadingMsg m)
    (clipboardClearAt m) (clipboardActive m) (auditLogger m) (lastActivity m)
    (sessionLocked m) (lockedPrevView m).
Definition set_secrets (v : list gcp_Secret) (m : Model) : Model :=
  Build_Model
    (config m) (client m) (ctx m) (view m) (previousView m) (width m) (height m)
    (styles m) (keys m) v (folderTree m) (currentPath m) (displayItems m) (cursor m)
    (listOffset m) (filterText m) (filterInput m) (selectedSecret m) (versions m)
    (versionCursor m) (revealedValue m) (revealVersion m) (createInputs m)
    (createFocus m) (createLocationIdx m) (createAddingLoc m) (createLocInput m)
    (createValueArea m) (createEditorMode m) (versionInput m) (templateCursor m)
    (generatedCode m) (configInputs m) (configFocus m) (configMenuCursor m)
    (configMenuItems m) (templateListCursor m) (editingTemplateIdx m)
    (templateTitleInput m) (templateCodeArea m) (templateFocus m) (isNewTemplate m)
    (recentProjectsCursor m) (securityCursor m) (auditLogLines m) (auditLogOffset m)
    (projectSwitchCursor m) (projectSwitchInput m) (projectSwitchPrevView m)
    (deleteConfirm m) (statusMsg m) (statusErr m) (viewport m) (loading m) (loadingMsg m)
    (clipboardClearAt m) (clipboardActive m) (auditLogger m) (lastActivity m)
    (sessionLocked m) (lockedPrevView m).
Definition set_folderTree (v : FolderItem) (m : Model) : Model :=
  Build_Model
    (config m) (client m) (ctx m) (view m) (previousView m) (width m) (height m)
    (styles m) (keys m) (secrets m) v (currentPath m) (displayItems m) (cursor m)
    (listOffset m) (filterText m) (filterInput m) (selectedSecret m) (versions m)
    (versionCursor m) (revealedValue m) (revealVersion m) (createInputs m)
    (createFocus m) (createLocationIdx m) (createAddingLoc m) (createLocInput m)
    (createValueArea m) (createEditorMode m) (versionInput m) (templateCursor m)
    (generatedCode m) (configInputs m) (configFocus m) (configMenuCursor m)
    (configMenuItems m) (templateListCursor m) (editingTemplateIdx m)
    (templateTitleInput m) (templateCodeArea m) (templateFocus m) (isNewTemplate m)
    (recentProjectsCursor m) (securityCursor m) (auditLogLines m) (auditLogOffset m)
    (projectSwitchCursor m) (projectSwitchInput m) (projectSwitchPrevView m)
    (deleteConfirm m) (statusMsg m) (statusErr m) (viewport m) (loading m) (loadingMsg m)
    (clipboardClearAt m) (clipboardActive m) (auditLogger m) (lastActivity m)
    (sessionLocked m) (lockedPrevView m).
Definition set_currentPath (v : list string) (m : Model) : Model :=
  Build_Model
    (config m) (client m) (ctx m) (view m) (previousView m) (width m) (height m)
    (styles m) (keys m) (secrets m) (folderTree m) v (displayItems m) (cursor m)
    (listOffset m) (filterText m) (filterInput m) (selectedSecret m) (versions m)
    (versionCursor m) (revealedValue m) (revealVersion m) (createInputs m)
    (createFocus m) (createLocationIdx m) (createAddingLoc m) (createLocInput m)
    (createValueArea m) (createEditorMode m) (versionInput m) (templateCursor m)
    (generatedCode m) (configInputs m) (configFocus m) (configMenuCursor m)
    (configMenuItems m) (templateListCursor m) (editingTemplateIdx m)
    (templateTitleInput m) (templateCodeArea m) (templateFocus m) (isNewTemplate m)
    (recentProjectsCursor m) (securityCursor m) (auditLogLines m) (auditLogOffset m)
    (projectSwitchCursor m) (projectSwitchInput m) (projectSwitchPrevView m)
    (deleteConfirm m) (statusMsg m) (statusErr m) (viewport m) (loading m) (loadingMsg m)
    (clipboardClearAt m) (clipboardActive m) (auditLogger m) (lastActivity m)
    (sessionLocked m) (lockedPrevView m).
Definition set_displayItems (v : list FolderItem) (m : Model) : Model :=
  Build_Model
    (config m) (client m) (ctx m) (view m) (previousView m) (width m) (height m)
    (styles m) (keys m) (secrets m) (folderTree m) (currentPath m) v (cursor m)
    (listOffset m) (filterText m) (filterInput m) (selectedSecret m) (versions m)
    (versionCursor m) (revealedValue m) (revealVersion m) (createInputs m)
    (createFocus m) (createLocationIdx m) (createAddingLoc m) (createLocInput m)
    (createValueArea m) (createEditorMode m) (versionInput m) (templateCursor m)
    (generatedCode m) (configInputs m) (configFocus m) (configMenuCursor m)
    (configMenuItems m) (templateListCursor m) (editingTemplateIdx m)
    (templateTitleInput m) (templateCodeArea m) (templateFocus m) (isNewTemplate m)
    (recentProjectsCursor m) (securityCursor m) (auditLogLines m) (auditLogOffset m)
    (projectSwitchCursor m) (projectSwitchInput m) (projectSwitchPrevView m)
    (deleteConfirm m) (statusMsg m) (statusErr m) (viewport m) (loading m) (loadingMsg m)
    (clipboardClearAt m) (clipboardActive m) (auditLogger m) (lastActivity m)
    (sessionLocked m) (lockedPrevView m).
Definition set_cursor (v : Z) (m : Model) : Model :=
  Build_Model
    (config m) (client m) (ctx m) (view m) (previousView m) (width m) (height m)
    (styles m) (keys m) (secrets m) (folderTree m) (currentPath m) (displayItems m) v
    (listOffset m) (filterText m) (filterInput m) (selectedSecret m) (versions m)
    (versionCursor m) (revealedValue m) (revealVersion m) (createInputs m)
    (createFocus m) (createLocationIdx m) (createAddingLoc m) (createLocInput m)
    (createValueArea m) (createEditorMode m) (versionInput m) (templateCursor m)
    (generatedCode m) (configInputs m) (configFocus m) (configMenuCursor m)
    (configMenuItems m) (templateListCursor m) (editingTemplateIdx m)
    (templateTitleInput m) (templateCodeArea m) (templateFocus m) (isNewTemplate m)
    (recentProjectsCursor m) (securityCursor m) (auditLogLines m) (auditLogOffset m)
    (projectSwitchCursor m) (projectSwitchInput m) (projectSwitchPrevView m)
    (deleteConfirm m) (statusMsg m) (statusErr m) (viewport m) (loading m) (loadingMsg m)
    (clipboardClearAt m) (clipboardActive m) (auditLogger m) (lastActivity m)
    (sessionLocked m) (lockedPrevView m).
Definition set_listOffset (v : Z) (m : Model) : Model :=
  Build_Model
    (config m) (client m) (ctx m) (view m) (previousView m) (width m) (height m)
    (styles m) (keys m) (secrets m) (folderTree m) (currentPath m) (displayItems m)
    (cursor m) v (filterText m) (filterInput m) (selectedSecret m) (versions m)
    (versionCursor m) (revealedValue m) (revealVersion m) (createInputs m)
    (createFocus m) (createLocationIdx m) (createAddingLoc m) (createLocInput m)
    (createValueArea m) (createEditorMode m) (versionInput m) (templateCursor m)
    (generatedCode m) (configInputs m) (configFocus m) (configMenuCursor m)
    (configMenuItems m) (templateListCursor m) (editingTemplateIdx m)
    (templateTitleInput m) (templateCodeArea m) (templateFocus m) (isNewTemplate m)
    (recentProjectsCursor m) (securityCursor m) (auditLogLines m) (auditLogOffset m)
    (projectSwitchCursor m) (projectSwitchInput m) (projectSwitchPrevView m)
    (deleteConfirm m) (statusMsg m) (statusErr m) (viewport m) (loading m) (loadingMsg m)
    (clipboardClearAt m) (clipboardActive m) (auditLogger m) (lastActivity m)
    (sessionLocked m) (lockedPrevView m).
Definition set_filterText (v : string) (m : Model) : Model :=
  Build_Model
    (config m) (client m) (ctx m) (view m) (previousView m) (width m) (height m)
    (styles m) (keys m) (secrets m) (folderTree m) (currentPath m) (displayItems m)
    (cursor m) (listOffset m) v (filterInput m) (selectedSecret m) (versions m)
    (versionCursor m) (revealedValue m) (revealVersion m) (createInputs m)
    (createFocus m) (createLocationIdx m) (createAddingLoc m) (createLocInput m)
    (createValueArea m) (createEditorMode m) (versionInput m) (templateCursor m)
    (generatedCode m) (configInputs m) (configFocus m) (configMenuCursor m)
    (configMenuItems m) (templateListCursor m) (editingTemplateIdx m)
    (templateTitleInput m) (templateCodeArea m) (templateFocus m) (isNewTemplate m)
    (recentProjectsCursor m) (securityCursor m) (auditLogLines m) (auditLogOffset m)
    (projectSwitchCursor m) (projectSwitchInput m) (projectSwitchPrevView m)
    (deleteConfirm m) (statusMsg m) (statusErr m) (viewport m) (loading m) (loadingMsg m)
    (clipboardClearAt m) (clipboardActive m) (auditLogger m) (lastActivity m)
    (sessionLocked m) (lockedPrevView m).
Definition set_filterInput (v : textinput_Model) (m : Model) : Model :=
  Build_Model
    (config m) (client m) (ctx m) (view m) (previousView m) (width m) (height m)
    (styles m) (keys m) (secrets m) (folderTree m) (currentPath m) (displayItems m)
    (cursor m) (listOffset m) (filterText m) v (selectedSecret m) (versions m)
    (versionCursor m) (revealedValue m) (revealVersion m) (createInputs m)
    (createFocus m) (createLocationIdx m) (createAddingLoc m) (createLocInput m)
    (createValueArea m) (createEditorMode m) (versionInput m) (templateCursor m)
    (generatedCode m) (configInputs m) (configFocus m) (configMenuCursor m)
    (configMenuItems m) (templateListCursor m) (editingTemplateIdx m)
    (templateTitleInput m) (templateCodeArea m) (templateFocus m) (isNewTemplate m)
    (recentProjectsCursor m) (securityCursor m) (auditLogLines m) (auditLogOffset m)
    (projectSwitchCursor m) (projectSwitchInput m) (projectSwitchPrevView m)
    (deleteConfirm m) (statusMsg m) (statusErr m) (viewport m) (loading m) (loadingMsg m)
    (clipboardClearAt m) (clipboardActive m) (auditLogger m) (lastActivity m)
    (sessionLocked m) (lockedPrevView m).
Definition set_selectedSecret (v : option gcp_Secret) (m : Model) : Model :=
  Build_Model
    (config m) (client m) (ctx m) (view m) (previousView m) (width m) (height m)
    (styles m) (keys m) (secrets m) (folderTree m) (currentPath m) (displayItems m)
    (cursor m) (listOffset m) (filterText m) (filterInput m) v (versions m)
    (versionCursor m) (revealedValue m) (revealVersion m) (createInputs m)
    (createFocus m) (createLocationIdx m) (createAddingLoc m) (createLocInput m)
    (createValueArea m) (createEditorMode m) (versionInput m) (templateCursor m)
    (generatedCode m) (configInputs m) (configFocus m) (configMenuCursor m)
    (configMenuItems m) (templateListCursor m) (editingTemplateIdx m)
    (templateTitleInput m) (templateCodeArea m) (templateFocus m) (isNewTemplate m)
    (recentProjectsCursor m) (securityCursor m) (auditLogLines m) (auditLogOffset m)
    (projectSwitchCursor m) (projectSwitchInput m) (projectSwitchPrevView m)
    (deleteConfirm m) (statusMsg m) (statusErr m) (viewport m) (loading m) (loadingMsg m)
    (clipboardClearAt m) (clipboardActive m) (auditLogger m) (lastActivity m)
    (sessionLocked m) (lockedPrevView m).
Definition set_versions (v : list gcp_SecretVersion) (m : Model) : Model :=
  Build_Model
    (config m) (client m) (ctx m) (view m) (previousView m) (width m) (height m)
    (styles m) (keys m) (secrets m) (folderTree m) (currentPath m) (displayItems m)
    (cursor m) (listOffset m) (filterText m) (filterInput m) (selectedSecret m) v
    (versionCursor m) (revealedValue m) (revealVersion m) (createInputs m)
    (createFocus m) (createLocationIdx m) (createAddingLoc m) (createLocInput m)
    (createValueArea m) (createEditorMode m) (versionInput m) (templateCursor m)
    (generatedCode m) (configInputs m) (configFocus m) (configMenuCursor m)
    (configMenuItems m) (templateListCursor m) (editingTemplateIdx m)
    (templateTitleInput m) (templateCodeArea m) (templateFocus m) (isNewTemplate m)
    (recentProjectsCursor m) (securityCursor m) (auditLogLines m) (auditLogOffset m)
    (projectSwitchCursor m) (projectSwitchInput m) (projectSwitchPrevView m)
    (deleteConfirm m) (statusMsg m) (statusErr m) (viewport m) (loading m) (loadingMsg m)
    (clipboardClearAt m) (clipboardActive m) (auditLogger m) (lastActivity m)
    (sessionLocked m) (lockedPrevView m).
Definition set_versionCursor (v : Z) (m : Model) : Model :=
  Build_Model
    (config m) (client m) (ctx m) (view m) (previousView m) (width m) (height m)
    (styles m) (keys m) (secrets m) (folderTree m) (currentPath m) (displayItems m)
    (cursor m) (listOffset m) (filterText m) (filterInput m) (selectedSecret m)
    (versions m) v (revealedValue m) (revealVersion m) (createInputs m) (createFocus m)
    (createLocationIdx m) (createAddingLoc m) (createLocInput m) (createValueArea m)
    (createEditorMode m) (versionInput m) (templateCursor m) (generatedCode m)
    (configInputs m) (configFocus m) (configMenuCursor m) (configMenuItems m)
    (templateListCursor m) (editingTemplateIdx m) (templateTitleInput m)
    (templateCodeArea m) (templateFocus m) (isNewTemplate m) (recentProjectsCursor m)
    (securityCursor m) (auditLogLines m) (auditLogOffset m) (projectSwitchCursor m)
    (projectSwitchInput m) (projectSwitchPrevView m) (deleteConfirm m) (statusMsg m)
    (statusErr m) (viewport m) (loading m) (loadingMsg m) (clipboardClearAt m)
    (clipboardActive m) (auditLogger m) (lastActivity m) (sessionLocked m)
    (lockedPrevView m).
Definition set_revealedValue (v : slice) (m : Model) : Model :=
  Build_Model
    (config m) (client m) (ctx m) (view m) (previousView m) (width m) (height m)
    (styles m) (keys m) (secrets m) (folderTree m) (currentPath m) (displayItems m)
    (cursor m) (listOffset m) (filterText m) (filterInput m) (selectedSecret m)
    (versions m) (versionCursor m) v (revealVersion m) (createInputs m) (createFocus m)
    (createLocationIdx m) (createAddingLoc m) (createLocInput m) (createValueArea m)
    (createEditorMode m) (versionInput m) (templateCursor m) (generatedCode m)
    (configInputs m) (configFocus m) (configMenuCursor m) (configMenuItems m)
    (templateListCursor m) (editingTemplateIdx m) (templateTitleInput m)
    (templateCodeArea m) (templateFocus m) (isNewTemplate m) (recentProjectsCursor m)
    (securityCursor m) (auditLogLines m) (auditLogOffset m) (projectSwitchCursor m)
    (projectSwitchInput m) (projectSwitchPrevView m) (deleteConfirm m) (statusMsg m)
    (statusErr m) (viewport m) (loading m) (loadingMsg m) (clipboardClearAt m)
    (clipboardActive m) (auditLogger m) (lastActivity m) (sessionLocked m)
    (lockedPrevView m).
Definition set_revealVersion (v : string) (m : Model) : Model :=
  Build_Model
    (config m) (client m) (ctx m) (view m) (previousView m) (width m) (height m)
    (styles m) (keys m) (secrets m) (folderTree m) (currentPath m) (displayItems m)
    (cursor m) (listOffset m) (filterText m) (filterInput m) (selectedSecret m)
    (versions m) (versionCursor m) (revealedValue m) v (createInputs m) (createFocus m)
    (createLocationIdx m) (createAddingLoc m) (createLocInput m) (createValueArea m)
    (createEditorMode m) (versionInput m) (templateCursor m) (generatedCode m)
    (configInputs m) (configFocus m) (configMenuCursor m) (configMenuItems m)
    (templateListCursor m) (editingTemplateIdx m) (templateTitleInput m)
    (templateCodeArea m) (templateFocus m) (isNewTemplate m) (recentProjectsCursor m)
    (securityCursor m) (auditLogLines m) (auditLogOffset m) (projectSwitchCursor m)
    (projectSwitchInput m) (projectSwitchPrevView m) (deleteConfirm m) (statusMsg m)
    (statusErr m) (viewport m) (loading m) (loadingMsg m) (clipboardClearAt m)
    (clipboardActive m) (auditLogger m) (lastActivity m) (sessionLocked m)
    (lockedPrevView m).
Definition set_createInputs (v : list textinput_Model) (m : Model) : Model :=
  Build_Model
    (config m) (client m) (ctx m) (view m) (previousView m) (width m) (height m)
    (styles m) (keys m) (secrets m) (folderTree m) (currentPath m) (displayItems m)
    (cursor m) (listOffset m) (filterText m) (filterInput m) (selectedSecret m)
    (versions m) (versionCursor m) (revealedValue m) (revealVersion m) v (createFocus m)
    (createLocationIdx m) (createAddingLoc m) (createLocInput m) (createValueArea m)
    (createEditorMode m) (versionInput m) (templateCursor m) (generatedCode m)
    (configInputs m) (configFocus m) (configMenuCursor m) (configMenuItems m)
    (templateListCursor m) (editingTemplateIdx m) (templateTitleInput m)
    (templateCodeArea m) (templateFocus m) (isNewTemplate m) (recentProjectsCursor m)
    (securityCursor m) (auditLogLines m) (auditLogOffset m) (projectSwitchCursor m)
    (projectSwitchInput m) (projectSwitchPrevView m) (deleteConfirm m) (statusMsg m)
    (statusErr m) (viewport m) (loading m) (loadingMsg m) (clipboardClearAt m)
    (clipboardActive m) (auditLogger m) (lastActivity m) (sessionLocked m)
    (lockedPrevView m).
Definition set_createFocus (v : Z) (m : Model) : Model :=
  Build_Model
    (config m) (client m) (ctx m) (view m) (previousView m) (width m) (height m)
    (styles m) (keys m) (secrets m) (folderTree m) (currentPath m) (displayItems m)
    (cursor m) (listOffset m) (filterText m) (filterInput m) (selectedSecret m)
    (versions m) (versionCursor m) (revealedValue m) (revealVersion m) (createInputs m) v
    (createLocationIdx m) (createAddingLoc m) (createLocInput m) (createValueArea m)
    (createEditorMode m) (versionInput m) (templateCursor m) (generatedCode m)
    (configInputs m) (configFocus m) (configMenuCursor m) (configMenuItems m)
    (templateListCursor m) (editingTemplateIdx m) (templateTitleInput m)
    (templateCodeArea m) (templateFocus m) (isNewTemplate m) (recentProjectsCursor m)
    (securityCursor m) (auditLogLines m) (auditLogOffset m) (projectSwitchCursor m)
    (projectSwitchInput m) (projectSwitchPrevView m) (deleteConfirm m) (statusMsg m)
    (statusErr m) (viewport m) (loading m) (loadingMsg m) (clipboardClearAt m)
    (clipboardActive m) (auditLogger m) (lastActivity m) (sessionLocked m)
    (lockedPrevView m).
Definition set_createLocationIdx (v : Z) (m : Model) : Model :=
  Build_Model
    (config m) (client m) (ctx m) (view m) (previousView m) (width m) (height m)
    (styles m) (keys m) (secrets m) (folderTree m) (currentPath m) (displayItems m)
    (cursor m) (listOffset m) (filterText m) (filterInput m) (selectedSecret m)
    (versions m) (versionCursor m) (revealedValue m) (revealVersion m) (createInputs m)
    (createFocus m) v (createAddingLoc m) (createLocInput m) (createValueArea m)
    (createEditorMode m) (versionInput m) (templateCursor m) (generatedCode m)
    (configInputs m) (configFocus m) (configMenuCursor m) (configMenuItems m)
    (templateListCursor m) (editingTemplateIdx m) (templateTitleInput m)
    (templateCodeArea m) (templateFocus m) (isNewTemplate m) (recentProjectsCursor m)
    (securityCursor m) (auditLogLines m) (auditLogOffset m) (projectSwitchCursor m)
    (projectSwitchInput m) (projectSwitchPrevView m) (deleteConfirm m) (statusMsg m)
    (statusErr m) (viewport m) (loading m) (loadingMsg m) (clipboardClearAt m)
    (clipboardActive m) (auditLogger m) (lastActivity m) (sessionLocked m)
    (lockedPrevView m).
Definition set_createAddingLoc (v : bool) (m : Model) : Model :=
  Build_Model
    (config m) (client m) (ctx m) (view m) (previousView m) (width m) (height m)
    (styles m) (keys m) (secrets m) (folderTree m) (currentPath m) (displayItems m)
    (cursor m) (listOffset m) (filterText m) (filterInput m) (selectedSecret m)
    (versions m) (versionCursor m) (revealedValue m) (revealVersion m) (createInputs m)
    (createFocus m) (createLocationIdx m) v (createLocInput m) (createValueArea m)
    (createEditorMode m) (versionInput m) (templateCursor m) (generatedCode m)
    (configInputs m) (configFocus m) (configMenuCursor m) (configMenuItems m)
    (templateListCursor m) (editingTemplateIdx m) (templateTitleInput m)
    (templateCodeArea m) (templateFocus m) (isNewTemplate m) (recentProjectsCursor m)
    (securityCursor m) (auditLogLines m) (auditLogOffset m) (projectSwitchCursor m)
    (projectSwitchInput m) (projectSwitchPrevView m) (deleteConfirm m) (statusMsg m)
    (statusErr m) (viewport m) (loading m) (loadingMsg m) (clipboardClearAt m)
    (clipboardActive m) (auditLogger m) (lastActivity m) (sessionLocked m)
    (lockedPrevView m).
Definition set_createValueArea (v : textarea_Model) (m : Model) : Model :=
  Build_Model
    (config m) (client m) (ctx m) (view m) (previousView m) (width m) (height m)
    (styles m) (keys m) (secrets m) (folderTree m) (currentPath m) (displayItems m)
    (cursor m) (listOffset m) (filterText m) (filterInput m) (selectedSecret m)
    (versions m) (versionCursor m) (revealedValue m) (revealVersion m) (createInputs m)
    (createFocus m) (createLocationIdx m) (createAddingLoc m) (createLocInput m) v
    (createEditorMode m) (versionInput m) (templateCursor m) (generatedCode m)
    (configInputs m) (configFocus m) (configMenuCursor m) (configMenuItems m)
    (templateListCursor m) (editingTemplateIdx m) (templateTitleInput m)
    (templateCodeArea m) (templateFocus m) (isNewTemplate m) (recentProjectsCursor m)
    (securityCursor m) (auditLogLines m) (auditLogOffset m) (projectSwitchCursor m)
    (projectSwitchInput m) (projectSwitchPrevView m) (deleteConfirm m) (statusMsg m)
    (statusErr m) (viewport m) (loading m) (loadingMsg m) (clipboardClearAt m)
    (clipboardActive m) (auditLogger m) (lastActivity m) (sessionLocked m)
    (lockedPrevView m).
Definition set_createEditorMode (v : bool) (m : Model) : Model :=
  Build_Model
    (config m) (client m) (ctx m) (view m) (previousView m) (width m) (height m)
    (styles m) (keys m) (secrets m) (folderTree m) (currentPath m) (displayItems m)
    (cursor m) (listOffset m) (filterText m) (filterInput m) (selectedSecret m)
    (versions m) (versionCursor m) (revealedValue m) (revealVersion m) (createInputs m)
    (createFocus m) (createLocationIdx m) (createAddingLoc m) (createLocInput m)
    (createValueArea m) v (versionInput m) (templateCursor m) (generatedCode m)
    (configInputs m) (configFocus m) (configMenuCursor m) (configMenuItems m)
    (templateListCursor m) (editingTemplateIdx m) (templateTitleInput m)
    (templateCodeArea m) (templateFocus m) (isNewTemplate m) (recentProjectsCursor m)
    (securityCursor m) (auditLogLines m) (auditLogOffset m) (projectSwitchCursor m)
    (projectSwitchInput m) (projectSwitchPrevView m) (deleteConfirm m) (statusMsg m)
    (statusErr m) (viewport m) (loading m) (loadingMsg m) (clipboardClearAt m)
    (clipboardActive m) (auditLogger m) (lastActivity m) (sessionLocked m)
    (lockedPrevView m).
Definition set_versionInput (v : textinput_Model) (m : Model) : Model :=
  Build_Model
    (config m) (client m) (ctx m) (view m) (previousView m) (width m) (height m)
    (styles m) (keys m) (secrets m) (folderTree m) (currentPath m) (displayItems m)
    (cursor m) (listOffset m) (filterText m) (filterInput m) (selectedSecret m)
    (versions m) (versionCursor m) (revealedValue m) (revealVersion m) (createInputs m)
    (createFocus m) (createLocationIdx m) (createAddingLoc m) (createLocInput m)
    (createValueArea m) (createEditorMode m) v (templateCursor m) (generatedCode m)
    (configInputs m) (configFocus m) (configMenuCursor m) (configMenuItems m)
    (templateListCursor m) (editingTemplateIdx m) (templateTitleInput m)
    (templateCodeArea m) (templateFocus m) (isNewTemplate m) (recentProjectsCursor m)
    (securityCursor m) (auditLogLines m) (auditLogOffset m) (projectSwitchCursor m)
    (projectSwitchInput m) (projectSwitchPrevView m) (deleteConfirm m) (statusMsg m)
    (statusErr m) (viewport m) (loading m) (loadingMsg m) (clipboardClearAt m)
    (clipboardActive m) (auditLogger m) (lastActivity m) (sessionLocked m)
    (lockedPrevView m).
Definition set_templateCursor (v : Z) (m : Model) : Model :=
  Build_Model
    (config m) (client m) (ctx m) (view m) (previousView m) (width m) (height m)
    (styles m) (keys m) (secrets m) (folderTree m) (currentPath m) (displayItems m)
    (cursor m) (listOffset m) (filterText m) (filterInput m) (selectedSecret m)
    (versions m) (versionCursor m) (revealedValue m) (revealVersion m) (createInputs m)
    (createFocus m) (createLocationIdx m) (createAddingLoc m) (createLocInput m)
    (createValueArea m) (createEditorMode m) (versionInput m) v (generatedCode m)
    (configInputs m) (configFocus m) (configMenuCursor m) (configMenuItems m)
    (templateListCursor m) (editingTemplateIdx m) (templateTitleInput m)
    (templateCodeArea m) (templateFocus m) (isNewTemplate m) (recentProjectsCursor m)
    (securityCursor m) (auditLogLines m) (auditLogOffset m) (projectSwitchCursor m)
    (projectSwitchInput m) (projectSwitchPrevView m) (deleteConfirm m) (statusMsg m)
    (statusErr m) (viewport m) (loading m) (loadingMsg m) (clipboardClearAt m)
    (clipboardActive m) (auditLogger m) (lastActivity m) (sessionLocked m)
    (lockedPrevView m).
Definition set_generatedCode (v : string) (m : Model) : Model :=
  Build_Model
    (config m) (client m) (ctx m) (view m) (previousView m) (width m) (height m)
    (styles m) (keys m) (secrets m) (folderTree m) (currentPath m) (displayItems m)
    (cursor m) (listOffset m) (filterText m) (filterInput m) (selectedSecret m)
    (versions m) (versionCursor m) (revealedValue m) (revealVersion m) (createInputs m)
    (createFocus m) (createLocationIdx m) (createAddingLoc m) (createLocInput m)
    (createValueArea m) (createEditorMode m) (versionInput m) (templateCursor m) v
    (configInputs m) (configFocus m) (configMenuCursor m) (configMenuItems m)
    (templateListCursor m) (editingTemplateIdx m) (templateTitleInput m)
    (templateCodeArea m) (templateFocus m) (isNewTemplate m) (recentProjectsCursor m)
    (securityCursor m) (auditLogLines m) (auditLogOffset m) (projectSwitchCursor m)
    (projectSwitchInput m) (projectSwitchPrevView m) (deleteConfirm m) (statusMsg m)
    (statusErr m) (viewport m) (loading m) (loadingMsg m) (clipboardClearAt m)
    (clipboardActive m) (auditLogger m) (lastActivity m) (sessionLocked m)
    (lockedPrevView m).
Definition set_configInputs (v : list textinput_Model) (m : Model) : Model :=
  Build_Model
    (config m) (client m) (ctx m) (view m) (previousView m) (width m) (height m)
    (styles m) (keys m) (secrets m) (folderTree m) (currentPath m) (displayItems m)
    (cursor m) (listOffset m) (filterText m) (filterInput m) (selectedSecret m)
    (versions m) (versionCursor m) (revealedValue m) (revealVersion m) (createInputs m)
    (createFocus m) (createLocationIdx m) (createAddingLoc m) (createLocInput m)
    (createValueArea m) (createEditorMode m) (versionInput m) (templateCursor m)
    (generatedCode m) v (configFocus m) (configMenuCursor m) (configMenuItems m)
    (templateListCursor m) (editingTemplateIdx m) (templateTitleInput m)
    (templateCodeArea m) (templateFocus m) (isNewTemplate m) (recentProjectsCursor m)
    (securityCursor m) (auditLogLines m) (auditLogOffset m) (projectSwitchCursor m)
    (projectSwitchInput m) (projectSwitchPrevView m) (deleteConfirm m) (statusMsg m)
    (statusErr m) (viewport m) (loading m) (loadingMsg m) (clipboardClearAt m)
    (clipboardActive m) (auditLogger m) (lastActivity m) (sessionLocked m)
    (lockedPrevView m).
Definition set_configFocus (v : Z) (m : Model) : Model :=
  Build_Model
    (config m) (client m) (ctx m) (view m) (previousView m) (width m) (height m)
    (styles m) (keys m) (secrets m) (folderTree m) (currentPath m) (displayItems m)
    (cursor m) (listOffset m) (filterText m) (filterInput m) (selectedSecret m)
    (versions m) (versionCursor m) (revealedValue m) (revealVersion m) (createInputs m)
    (createFocus m) (createLocationIdx m) (createAddingLoc m) (createLocInput m)
    (createValueArea m) (createEditorMode m) (versionInput m) (templateCursor m)
    (generatedCode m) (configInputs m) v (configMenuCursor m) (configMenuItems m)
    (templateListCursor m) (editingTemplateIdx m) (templateTitleInput m)
    (templateCodeArea m) (templateFocus m) (isNewTemplate m) (recentProjectsCursor m)
    (securityCursor m) (auditLogLines m) (auditLogOffset m) (projectSwitchCursor m)
    (projectSwitchInput m) (projectSwitchPrevView m) (deleteConfirm m) (statusMsg m)
    (statusErr m) (viewport m) (loading m) (loadingMsg m) (clipboardClearAt m)
    (clipboardActive m) (auditLogger m) (lastActivity m) (sessionLocked m)
    (lockedPrevView m).
Definition set_configMenuCursor (v : Z) (m : Model) : Model :=
  Build_Model
    (config m) (client m) (ctx m) (view m) (previousView m) (width m) (height m)
    (styles m) (keys m) (secrets m) (folderTree m) (currentPath m) (displayItems m)
    (cursor m) (listOffset m) (filterText m) (filterInput m) (selectedSecret m)
    (versions m) (versionCursor m) (revealedValue m) (revealVersion m) (createInputs m)
    (createFocus m) (createLocationIdx m) (createAddingLoc m) (createLocInput m)
    (createValueArea m) (createEditorMode m) (versionInput m) (templateCursor m)
    (generatedCode m) (configInputs m) (configFocus m) v (configMenuItems m)
    (templateListCursor m) (editingTemplateIdx m) (templateTitleInput m)
    (templateCodeArea m) (templateFocus m) (isNewTemplate m) (recentProjectsCursor m)
    (securityCursor m) (auditLogLines m) (auditLogOffset m) (projectSwitchCursor m)
    (projectSwitchInput m) (projectSwitchPrevView m) (deleteConfirm m) (statusMsg m)
    (statusErr m) (viewport m) (loading m) (loadingMsg m) (clipboardClearAt m)
    (clipboardActive m) (auditLogger m) (lastActivity m) (sessionLocked m)
    (lockedPrevView m).
Definition set_templateListCursor (v : Z) (m : Model) : Model :=
  Build_Model
    (config m) (client m) (ctx m) (view m) (previousView m) (width m) (height m)
    (styles m) (keys m) (secrets m) (folderTree m) (currentPath m) (displayItems m)
    (cursor m) (listOffset m) (filterText m) (filterInput m) (selectedSecret m)
    (versions m) (versionCursor m) (revealedValue m) (revealVersion m) (createInputs m)
    (createFocus m) (createLocationIdx m) (createAddingLoc m) (createLocInput m)
    (createValueArea m) (createEditorMode m) (versionInput m) (templateCursor m)
    (generatedCode m) (configInputs m) (configFocus m) (configMenuCursor m)
    (configMenuItems m) v (editingTemplateIdx m) (templateTitleInput m)
    (templateCodeArea m) (templateFocus m) (isNewTemplate m) (recentProjectsCursor m)
    (securityCursor m) (auditLogLines m) (auditLogOffset m) (projectSwitchCursor m)
    (projectSwitchInput m) (projectSwitchPrevView m) (deleteConfirm m) (statusMsg m)
    (statusErr m) (viewport m) (loading m) (loadingMsg m) (clipboardClearAt m)
    (clipboardActive m) (auditLogger m) (lastActivity m) (sessionLocked m)
    (lockedPrevView m).
Definition set_recentProjectsCursor (v : Z) (m : Model) : Model :=
  Build_Model
    (config m) (client m) (ctx m) (view m) (previousView m) (width m) (height m)
    (styles m) (keys m) (secrets m) (folderTree m) (currentPath m) (displayItems m)
    (cursor m) (listOffset m) (filterText m) (filterInput m) (selectedSecret m)
    (versions m) (versionCursor m) (revealedValue m) (revealVersion m) (createInputs m)
    (createFocus m) (createLocationIdx m) (createAddingLoc m) (createLocInput m)
    (createValueArea m) (createEditorMode m) (versionInput m) (templateCursor m)
    (generatedCode m) (configInputs m) (configFocus m) (configMenuCursor m)
    (configMenuItems m) (templateListCursor m) (editingTemplateIdx m)
    (templateTitleInput m) (templateCodeArea m) (templateFocus m) (isNewTemplate m) v
    (securityCursor m) (auditLogLines m) (auditLogOffset m) (projectSwitchCursor m)
    (projectSwitchInput m) (projectSwitchPrevView m) (deleteConfirm m) (statusMsg m)
    (statusErr m) (viewport m) (loading m) (loadingMsg m) (clipboardClearAt m)
    (clipboardActive m) (auditLogger m) (lastActivity m) (sessionLocked m)
    (lockedPrevView m).
Definition set_securityCursor (v : Z) (m : Model) : Model :=
  Build_Model
    (config m) (client m) (ctx m) (view m) (previousView m) (width m) (height m)
    (styles m) (keys m) (secrets m) (folderTree m) (currentPath m) (displayItems m)
    (cursor m) (listOffset m) (filterText m) (filterInput m) (selectedSecret m)
    (versions m) (versionCursor m) (revealedValue m) (revealVersion m) (createInputs m)
    (createFocus m) (createLocationIdx m) (createAddingLoc m) (createLocInput m)
    (createValueArea m) (createEditorMode m) (versionInput m) (templateCursor m)
    (generatedCode m) (configInputs m) (configFocus m) (configMenuCursor m)
    (configMenuItems m) (templateListCursor m) (editingTemplateIdx m)
    (templateTitleInput m) (templateCodeArea m) (templateFocus m) (isNewTemplate m)
    (recentProjectsCursor m) v (auditLogLines m) (auditLogOffset m)
    (projectSwitchCursor m) (projectSwitchInput m) (projectSwitchPrevView m)
    (deleteConfirm m) (statusMsg m) (statusErr m) (viewport m) (loading m) (loadingMsg m)
    (clipboardClearAt m) (clipboardActive m) (auditLogger m) (lastActivity m)
    (sessionLocked m) (lockedPrevView m).
Definition set_projectSwitchCursor (v : Z) (m : Model) : Model :=
  Build_Model
    (config m) (client m) (ctx m) (view m) (previousView m) (width m) (height m)
    (styles m) (keys m) (secrets m) (folderTree m) (currentPath m) (displayItems m)
    (cursor m) (listOffset m) (filterText m) (filterInput m) (selectedSecret m)
    (versions m) (versionCursor m) (revealedValue m) (revealVersion m) (createInputs m)
    (createFocus m) (createLocationIdx m) (createAddingLoc m) (createLocInput m)
    (createValueArea m) (createEditorMode m) (versionInput m) (templateCursor m)
    (generatedCode m) (configInputs m) (configFocus m) (configMenuCursor m)
    (configMenuItems m) (templateListCursor m) (editingTemplateIdx m)
    (templateTitleInput m) (templateCodeArea m) (templateFocus m) (isNewTemplate m)
    (recentProjectsCursor m) (securityCursor m) (auditLogLines m) (auditLogOffset m) v
    (projectSwitchInput m) (projectSwitchPrevView m) (deleteConfirm m) (statusMsg m)
    (statusErr m) (viewport m) (loading m) (loadingMsg m) (clipboardClearAt m)
    (clipboardActive m) (auditLogger m) (lastActivity m) (sessionLocked m)
    (lockedPrevView m).
Definition set_projectSwitchInput (v : textinput_Model) (m : Model) : Model :=
  Build_Model
    (config m) (client m) (ctx m) (view m) (previousView m) (width m) (height m)
    (styles m) (keys m) (secrets m) (folderTree m) (currentPath m) (displayItems m)
    (cursor m) (listOffset m) (filterText m) (filterInput m) (selectedSecret m)
    (versions m) (versionCursor m) (revealedValue m) (revealVersion m) (createInputs m)
    (createFocus m) (createLocationIdx m) (createAddingLoc m) (createLocInput m)
    (createValueArea m) (createEditorMode m) (versionInput m) (templateCursor m)
    (generatedCode m) (configInputs m) (configFocus m) (configMenuCursor m)
    (configMenuItems m) (templateListCursor m) (editingTemplateIdx m)
    (templateTitleInput m) (templateCodeArea m) (templateFocus m) (isNewTemplate m)
    (recentProjectsCursor m) (securityCursor m) (auditLogLines m) (auditLogOffset m)
    (projectSwitchCursor m) v (projectSwitchPrevView m) (deleteConfirm m) (statusMsg m)
    (statusErr m) (viewport m) (loading m) (loadingMsg m) (clipboardClearAt m)
    (clipboardActive m) (auditLogger m) (lastActivity m) (sessionLocked m)
    (lockedPrevView m).
Definition set_projectSwitchPrevView (v : View) (m : Model) : Model :=
  Build_Model
    (config m) (client m) (ctx m) (view m) (previousView m) (width m) (height m)
    (styles m) (keys m) (secrets m) (folderTree m) (currentPath m) (displayItems m)
    (cursor m) (listOffset m) (filterText m) (filterInput m) (selectedSecret m)
    (versions m) (versionCursor m) (revealedValue m) (revealVersion m) (createInputs m)
    (createFocus m) (createLocationIdx m) (createAddingLoc m) (createLocInput m)
    (createValueArea m) (createEditorMode m) (versionInput m) (templateCursor m)
    (generatedCode m) (configInputs m) (configFocus m) (configMenuCursor m)
    (configMenuItems m) (templateListCursor m) (editingTemplateIdx m)
    (templateTitleInput m) (templateCodeArea m) (templateFocus m) (isNewTemplate m)
    (recentProjectsCursor m) (securityCursor m) (auditLogLines m) (auditLogOffset m)
    (projectSwitchCursor m) (projectSwitchInput m) v (deleteConfirm m) (statusMsg m)
    (statusErr m) (viewport m) (loading m) (loadingMsg m) (clipboardClearAt m)
    (clipboardActive m) (auditLogger m) (lastActivity m) (sessionLocked m)
    (lockedPrevView m).
Definition set_deleteConfirm (v : bool) (m : Model) : Model :=
  Build_Model
    (config m) (client m) (ctx m) (view m) (previousView m) (width m) (height m)
    (styles m) (keys m) (secrets m) (folderTree m) (currentPath m) (displayItems m)
    (cursor m) (listOffset m) (filterText m) (filterInput m) (selectedSecret m)
    (versions m) (versionCursor m) (revealedValue m) (revealVersion m) (createInputs m)
    (createFocus m) (createLocationIdx m) (createAddingLoc m) (createLocInput m)
    (createValueArea m) (createEditorMode m) (versionInput m) (templateCursor m)
    (generatedCode m) (configInputs m) (configFocus m) (configMenuCursor m)
    (configMenuItems m) (templateListCursor m) (editingTemplateIdx m)
    (templateTitleInput m) (templateCodeArea m) (templateFocus m) (isNewTemplate m)
    (recentProjectsCursor m) (securityCursor m) (auditLogLines m) (auditLogOffset m)
    (projectSwitchCursor m) (projectSwitchInput m) (projectSwitchPrevView m) v
    (statusMsg m) (statusErr m) (viewport m) (loading m) (loadingMsg m)
    (clipboardClearAt m) (clipboardActive m) (auditLogger m) (lastActivity m)
    (sessionLocked m) (lockedPrevView m).
Definition set_statusMsg (v : string) (m : Model) : Model :=
  Build_Model
    (config m) (client m) (ctx m) (view m) (previousView m) (width m) (height m)
    (styles m) (keys m) (secrets m) (folderTree m) (currentPath m) (displayItems m)
    (cursor m) (listOffset m) (filterText m) (filterInput m) (selectedSecret m)
    (versions m) (versionCursor m) (revealedValue m) (revealVersion m) (createInputs m)
    (createFocus m) (createLocationIdx m) (createAddingLoc m) (createLocInput m)
    (createValueArea m) (createEditorMode m) (versionInput m) (templateCursor m)
    (generatedCode m) (configInputs m) (configFocus m) (configMenuCursor m)
    (configMenuItems m) (templateListCursor m) (editingTemplateIdx m)
    (templateTitleInput m) (templateCodeArea m) (templateFocus m) (isNewTemplate m)
    (recentProjectsCursor m) (securityCursor m) (auditLogLines m) (auditLogOffset m)
    (projectSwitchCursor m) (projectSwitchInput m) (projectSwitchPrevView m)
    (deleteConfirm m) v (statusErr m) (viewport m) (loading m) (loadingMsg m)
    (clipboardClearAt m) (clipboardActive m) (auditLogger m) (lastActivity m)
    (sessionLocked m) (lockedPrevView m).
Definition set_statusErr (v : bool) (m : Model) : Model :=
  Build_Model
    (config m) (client m) (ctx m) (view m) (previousView m) (width m) (height m)
    (styles m) (keys m) (secrets m) (folderTree m) (currentPath m) (displayItems m)
    (cursor m) (listOffset m) (filterText m) (filterInput m) (selectedSecret m)
    (versions m) (versionCursor m) (revealedValue m) (revealVersion m) (createInputs m)
    (createFocus m) (createLocationIdx m) (createAddingLoc m) (createLocInput m)
    (createValueArea m) (createEditorMode m) (versionInput m) (templateCursor m)
    (generatedCode m) (configInputs m) (configFocus m) (configMenuCursor m)
    (configMenuItems m) (templateListCursor m) (editingTemplateIdx m)
    (templateTitleInput m) (templateCodeArea m) (templateFocus m) (isNewTemplate m)
    (recentProjectsCursor m) (securityCursor m) (auditLogLines m) (auditLogOffset m)
    (projectSwitchCursor m) (projectSwitchInput m) (projectSwitchPrevView m)
    (deleteConfirm m) (statusMsg m) v (viewport m) (loading m) (loadingMsg m)
    (clipboardClearAt m) (clipboardActive m) (auditLogger m) (lastActivity m)
    (sessionLocked m) (lockedPrevView m).
Definition set_viewport (v : viewport_Model) (m : Model) : Model :=
  Build_Model
    (config m) (client m) (ctx m) (view m) (previousView m) (width m) (height m)
    (styles m) (keys m) (secrets m) (folderTree m) (currentPath m) (displayItems m)
    (cursor m) (listOffset m) (filterText m) (filterInput m) (selectedSecret m)
    (versions m) (versionCursor m) (revealedValue m) (revealVersion m) (createInputs m)
    (createFocus m) (createLocationIdx m) (createAddingLoc m) (createLocInput m)
    (createValueArea m) (createEditorMode m) (versionInput m) (templateCursor m)
    (generatedCode m) (configInputs m) (configFocus m) (configMenuCursor m)
    (configMenuItems m) (templateListCursor m) (editingTemplateIdx m)
    (templateTitleInput m) (templateCodeArea m) (templateFocus m) (isNewTemplate m)
    (recentProjectsCursor m) (securityCursor m) (auditLogLines m) (auditLogOffset m)
    (projectSwitchCursor m) (projectSwitchInput m) (projectSwitchPrevView m)
    (deleteConfirm m) (statusMsg m) (statusErr m) v (loading m) (loadingMsg m)
    (clipboardClearAt m) (clipboardActive m) (auditLogger m) (lastActivity m)
    (sessionLocked m) (lockedPrevView m).
Definition set_loading (v : bool) (m : Model) : Model :=
  Build_Model
    (config m) (client m) (ctx m) (view m) (previousView m) (width m) (height m)
    (styles m) (keys m) (secrets m) (folderTree m) (currentPath m) (displayItems m)
    (cursor m) (listOffset m) (filterText m) (filterInput m) (selectedSecret m)
    (versions m) (versionCursor m) (revealedValue m) (revealVersion m) (createInputs m)
    (createFocus m) (createLocationIdx m) (createAddingLoc m) (createLocInput m)
    (createValueArea m) (createEditorMode m) (versionInput m) (templateCursor m)
    (generatedCode m) (configInputs m) (configFocus m) (configMenuCursor m)
    (configMenuItems m) (templateListCursor m) (editingTemplateIdx m)
    (templateTitleInput m) (templateCodeArea m) (templateFocus m) (isNewTemplate m)
    (recentProjectsCursor m) (securityCursor m) (auditLogLines m) (auditLogOffset m)
    (projectSwitchCursor m) (projectSwitchInput m) (projectSwitchPrevView m)
    (deleteConfirm m) (statusMsg m) (statusErr m) (viewport m) v (loadingMsg m)
    (clipboardClearAt m) (clipboardActive m) (auditLogger m) (lastActivity m)
    (sessionLocked m) (lockedPrevView m).
Definition set_loadingMsg (v : string) (m : Model) : Model :=
  Build_Model
    (config m) (client m) (ctx m) (view m) (previousView m) (width m) (height m)
    (styles m) (keys m) (secrets m) (folderTree m) (currentPath m) (displayItems m)
    (cursor m) (listOffset m) (filterText m) (filterInput m) (selectedSecret m)
    (versions m) (versionCursor m) (revealedValue m) (revealVersion m) (createInputs m)
    (createFocus m) (createLocationIdx m) (createAddingLoc m) (createLocInput m)
    (createValueArea m) (createEditorMode m) (versionInput m) (templateCursor m)
    (generatedCode m) (configInputs m) (configFocus m) (configMenuCursor m)
    (configMenuItems m) (templateListCursor m) (editingTemplateIdx m)
    (templateTitleInput m) (templateCodeArea m) (templateFocus m) (isNewTemplate m)
    (recentProjectsCursor m) (securityCursor m) (auditLogLines m) (auditLogOffset m)
    (projectSwitchCursor m) (projectSwitchInput m) (projectSwitchPrevView m)
    (deleteConfirm m) (statusMsg m) (statusErr m) (viewport m) (loading m) v
    (clipboardClearAt m) (clipboardActive m) (auditLogger m) (lastActivity m)
    (sessionLocked m) (lockedPrevView m).
Definition set_clipboardClearAt (v : Time) (m : Model) : Model :=
  Build_Model
    (config m) (client m) (ctx m) (view m) (previousView m) (width m) (height m)
    (styles m) (keys m) (secrets m) (folderTree m) (currentPath m) (displayItems m)
    (cursor m) (listOffset m) (filterText m) (filterInput m) (selectedSecret m)
    (versions m) (versionCursor m) (revealedValue m) (revealVersion m) (createInputs m)
    (createFocus m) (createLocationIdx m) (createAddingLoc m) (createLocInput m)
    (createValueArea m) (createEditorMode m) (versionInput m) (templateCursor m)
    (generatedCode m) (configInputs m) (configFocus m) (configMenuCursor m)
    (configMenuItems m) (templateListCursor m) (editingTemplateIdx m)
    (templateTitleInput m) (templateCodeArea m) (templateFocus m) (isNewTemplate m)
    (recentProjectsCursor m) (securityCursor m) (auditLogLines m) (auditLogOffset m)
    (projectSwitchCursor m) (projectSwitchInput m) (projectSwitchPrevView m)
    (deleteConfirm m) (statusMsg m) (statusErr m) (viewport m) (loading m) (loadingMsg m)
    v (clipboardActive m) (auditLogger m) (lastActivity m) (sessionLocked m)
    (lockedPrevView m).
Definition set_clipboardActive (v : bool) (m : Model) : Model :=
  Build_Model
    (config m) (client m) (ctx m) (view m) (previousView m) (width m) (height m)
    (styles m) (keys m) (secrets m) (folderTree m) (currentPath m) (displayItems m)
    (cursor m) (listOffset m) (filterText m) (filterInput m) (selectedSecret m)
    (versions m) (versionCursor m) (revealedValue m) (revealVersion m) (createInputs m)
    (createFocus m) (createLocationIdx m) (createAddingLoc m) (createLocInput m)
    (createValueArea m) (createEditorMode m) (versionInput m) (templateCursor m)
    (generatedCode m) (configInputs m) (configFocus m) (configMenuCursor m)
    (configMenuItems m) (templateListCursor m) (editingTemplateIdx m)
    (templateTitleInput m) (templateCodeArea m) (templateFocus m) (isNewTemplate m)
    (recentProjectsCursor m) (securityCursor m) (auditLogLines m) (auditLogOffset m)
    (projectSwitchCursor m) (projectSwitchInput m) (projectSwitchPrevView m)
    (deleteConfirm m) (statusMsg m) (statusErr m) (viewport m) (loading m) (loadingMsg m)
    (clipboardClearAt m) v (auditLogger m) (lastActivity m) (sessionLocked m)
    (lockedPrevView m).
Definition set_auditLogger (v : option Logger) (m : Model) : Model :=
  Build_Model
    (config m) (client m) (ctx m) (view m) (previousView m) (width m) (height m)
    (styles m) (keys m) (secrets m) (folderTree m) (currentPath m) (displayItems m)
    (cursor m) (listOffset m) (filterText m) (filterInput m) (selectedSecret m)
    (versions m) (versionCursor m) (revealedValue m) (revealVersion m) (createInputs m)
    (createFocus m) (createLocationIdx m) (createAddingLoc m) (createLocInput m)
    (createValueArea m) (createEditorMode m) (versionInput m) (templateCursor m)
    (generatedCode m) (configInputs m) (configFocus m) (configMenuCursor m)
    (configMenuItems m) (templateListCursor m) (editingTemplateIdx m)
    (templateTitleInput m) (templateCodeArea m) (templateFocus m) (isNewTemplate m)
    (recentProjectsCursor m) (securityCursor m) (auditLogLines m) (auditLogOffset m)
    (projectSwitchCursor m) (projectSwitchInput m) (projectSwitchPrevView m)
    (deleteConfirm m) (statusMsg m) (statusErr m) (viewport m) (loading m) (loadingMsg m)
    (clipboardClearAt m) (clipboardActive m) v (lastActivity m) (sessionLocked m)
    (lockedPrevView m).
Definition set_lastActivity (v : Time) (m : Model) : Model :=
  Build_Model
    (config m) (client m) (ctx m) (view m) (previousView m) (width m) (height m)
    (styles m) (keys m) (secrets m) (folderTree m) (currentPath m) (displayItems m)
    (cursor m) (listOffset m) (filterText m) (filterInput m) (selectedSecret m)
    (versions m) (versionCursor m) (revealedValue m) (revealVersion m) (createInputs m)
    (createFocus m) (createLocationIdx m) (createAddingLoc m) (createLocInput m)
    (createValueArea m) (createEditorMode m) (versionInput m) (templateCursor m)
    (generatedCode m) (configInputs m) (configFocus m) (configMenuCursor m)
    (configMenuItems m) (templateListCursor m) (editingTemplateIdx m)
    (templateTitleInput m) (templateCodeArea m) (templateFocus m) (isNewTemplate m)
    (recentProjectsCursor m) (securityCursor m) (auditLogLines m) (auditLogOffset m)
    (projectSwitchCursor m) (projectSwitchInput m) (projectSwitchPrevView m)
    (deleteConfirm m) (statusMsg m) (statusErr m) (viewport m) (loading m) (loadingMsg m)
    (clipboardClearAt m) (clipboardActive m) (auditLogger m) v (sessionLocked m)
    (lockedPrevView m).
Definition set_sessionLocked (v : bool) (m : Model) : Model :=
  Build_Model
    (config m) (client m) (ctx m) (view m) (previousView m) (width m) (height m)
    (styles m) (keys m) (secrets m) (folderTree m) (currentPath m) (displayItems m)
    (cursor m) (listOffset m) (filterText m) (filterInput m) (selectedSecret m)
    (versions m) (versionCursor m) (revealedValue m) (revealVersion m) (createInputs m)
    (createFocus m) (createLocationIdx m) (createAddingLoc m) (createLocInput m)
    (createValueArea m) (createEditorMode m) (versionInput m) (templateCursor m)
    (generatedCode m) (configInputs m) (configFocus m) (configMenuCursor m)
    (configMenuItems m) (templateListCursor m) (editingTemplateIdx m)
    (templateTitleInput m) (templateCodeArea m) (templateFocus m) (isNewTemplate m)
    (recentProjectsCursor m) (securityCursor m) (auditLogLines m) (auditLogOffset m)
    (projectSwitchCursor m) (projectSwitchInput m) (projectSwitchPrevView m)
    (deleteConfirm m) (statusMsg m) (statusErr m) (viewport m) (loading m) (loadingMsg m)
    (clipboardClearAt m) (clipboardActive m) (auditLogger m) (lastActivity m) v
    (lockedPrevView m).
Definition set_lockedPrevView (v : View) (m : Model) : Model :=
  Build_Model
    (config m) (client m) (ctx m) (view m) (previousView m) (width m) (height m)
    (styles m) (keys m) (secrets m) (folderTree m) (currentPath m) (displayItems m)
    (cursor m) (listOffset m) (filterText m) (filterInput m) (selectedSecret m)
    (versions m) (versionCursor m) (revealedValue m) (revealVersion m) (createInputs m)
    (createFocus m) (createLocationIdx m) (createAddingLoc m) (createLocInput m)
    (createValueArea m) (createEditorMode m) (versionInput m) (templateCursor m)
    (generatedCode m) (configInputs m) (configFocus m) (configMenuCursor m)
    (configMenuItems m) (templateListCursor m) (editingTemplateIdx m)
    (templateTitleInput m) (templateCodeArea m) (templateFocus m) (isNewTemplate m)
    (recentProjectsCursor m) (securityCursor m) (auditLogLines m) (auditLogOffset m)
    (projectSwitchCursor m) (projectSwitchInput m) (projectSwitchPrevView m)
    (deleteConfirm m) (statusMsg m) (statusErr m) (viewport m) (loading m) (loadingMsg m)
    (clipboardClearAt m) (clipboardActive m) (auditLogger m) (lastActivity m)
    (sessionLocked m) v.

(** *** Small pieces of Go *)

Local Open Scope Z_scope.

(** [len(l)] as an [int]. *)
Definition len {A} (l : list A) : Z := Z.of_nat (length l).

(** [l[i]]: panics out of range. *)
Definition index {A} (l : list A) (i : Z) : M A :=
  if (i <? 0) || (len l <=? i) then panic
  else match l !! Z.to_nat i with
       | Some x => ret x
       | None => panic
       end.

(** [l[i] = f(l[i])], the update of one element in place: panics out of
    range. *)
Definition updateAt {A} (l : list A) (i : nat) (f : A → A) : M (list A) :=
  match l !! i with
  | Some x => ret (<[i := f x]> l)
  | None => panic
  end.

(** [p.field] through a pointer: panics on nil. *)
Definition deref {A} (p : option A) : M A :=
  match p with
  | Some x => ret x
  | None => panic
  end.

(** [case "a", "b":] of a [switch] over the key's text. *)
Definition keyIn (s : string) (cases : list string) : bool :=
  existsb (String.eqb s) cases.

(** [time.Now()]. *)
Definition Now : M Time := let* r := call time_Now in ret (r_time r).

(** [for i := range b { b[i] = 0 }]. *)
Definition zeroBytes (b : slice) : M unit :=
  match b with
  | None => ret tt
  | Some l =>
      let* h := getHeap in
      putHeap (alter (λ buf, replicate (length buf) x00) l h)
  end.

(** [len(b)] of a byte slice. *)
Definition lenBytes (b : slice) : M Z :=
  match b with
  | None => ret 0
  | Some l => let* h := getHeap in ret (len (default [] (h !! l)))
  end.

(** The bytes a slice refers to. *)
Definition readBytes (b : slice) : M (list byte) :=
  match b with
  | None => ret []
  | Some l => let* h := getHeap in ret (default [] (h !! l))
  end.

(** [copy(dst, src)] on the contents. *)
Definition copyBytes (dst src : list byte) : list byte :=
  take (length dst) src ++ drop (length src) dst.

(** [if m.auditLogger != nil { m.auditLogger.Log...(...) }]. *)
Definition audit (m : Model) (logIt : Logger → M Logger) : M Model :=
  match auditLogger m with
  | Some l => let* l := logIt l in ret (set_auditLogger (Some l) m)
  | None => ret m
  end.

(** *** The vault of the revealed secret *)

(** [clearRevealedValue]. *)
Definition clearRevealedValue (m : Model) : M Model :=
  match revealedValue m with
  | Some _ =>
      zeroBytes (revealedValue m);;
      ret (set_revealedValue None m)
  | None => ret m
  end.

(** [setRevealedValue]. *)
Definition setRevealedValue (value : slice) (m : Model) : M Model :=
  let* m := clearRevealedValue m in
  let* src := readBytes value in
  let* h := getHeap in
  let l := fresh (dom h) in
  let fresh_buf := replicate (length src) x00 in
  putHeap (<[l := copyBytes fresh_buf src]> h);;
  ret (set_revealedValue (Some l) m).

(** [getRevealedValueString]. *)
Definition getRevealedValueString (m : Model) : M string :=
  match revealedValue m with
  | None => ret ""%string
  | Some _ =>
      let* b := readBytes (revealedValue m) in
      ret (string_of_list_byte b)
  end.

(** *** The namespace tree *)

(** The node [buildFolderTree] creates for the part at index [j]. *)
Definition newItem (sep : string) (secret : gcp_Secret) (parts : list string)
    (j : nat) (part : string) : FolderItem :=
  let isFolder := Z.of_nat j <? len parts - 1 in
  {| Name := part;
     FullPath := GoStrings.Join (take (S j) parts) sep;
     IsFolder := isFolder;
     Secret := if isFolder then None else Some secret;
     Children := ∅;
     Depth := Z.of_nat j |}.

(** The inner loop of [buildFolderTree], [for j, part := range parts],
    from index [j] on, [rest] being the parts still to visit and [current]
    the node reached.  The source walks down through pointers and inserts
    into the map of the node it stands on; here the changed node is put
    back into its parent. *)
Fixpoint insertParts (sep : string) (secret : gcp_Secret) (parts : list string)
    (j : nat) (rest : list string) (current : FolderItem) : FolderItem :=
  match rest with
  | [] => current
  | part :: rest' =>
      if bool_decide (part = ""%string)
      then insertParts sep secret parts (S j) rest' current
      else
        let child :=
          match Children current !! part with
          | Some c => c
          | None => newItem sep secret parts j part
          end in
        set_Children
          (<[part := insertParts sep secret parts (S j) rest' child]> (Children current))
          current
  end.

(** One round of the outer loop: the secret's name is split and its
    parts are inserted from the root. *)
Definition insertSecret (sep : string) (tree : FolderItem) (secret : gcp_Secret)
  : FolderItem :=
  let parts := GoStrings.Split (Secret_Name secret) sep in
  insertParts sep secret parts 0 parts tree.

(** The root [buildFolderTree] starts from. *)
Definition emptyRoot : FolderItem :=
  {| Name := ""; FullPath := ""; IsFolder := false; Secret := None;
     Children := ∅; Depth := 0 |}.

(** [buildFolderTree]. *)
Definition buildFolderTree (m : Model) : Model :=
  set_folderTree
    (fold_left (insertSecret (FolderSeparator (config m))) (secrets m) emptyRoot) m.

(** The walk [for _, p := range m.currentPath] down the tree; [None] when
    a segment has no node. *)
Fixpoint walkPath (path : list string) (current : FolderItem) : option FolderItem :=
  match path with
  | [] => Some current
  | p :: path' =>
      match Children current !! p with
      | Some child => walkPath path' child
      | None => None
      end
  end.

(** The comparison given to [sort.Slice]: folders first, then by name. *)
Definition itemLess (a b : FolderItem) : bool :=
  if negb (Bool.eqb (IsFolder a) (IsFolder b)) then IsFolder a
  else String.ltb (Name a) (Name b).

(** [sort.Slice(items, less)].  The children of one node have distinct
    names, so [itemLess] orders them totally and the sorted slice does not
    depend on the sorting algorithm or on the order in which the map was
    read. *)
Definition sortSlice (less : FolderItem → FolderItem → bool) (items : list FolderItem)
  : list FolderItem :=
  merge_sort (λ a b, Is_true (less a b)) items.

(** The filter of [updateDisplayItems] on one child. *)
Definition passesFilter (filterText : string) (item : FolderItem) : bool :=
  if bool_decide (filterText ≠ ""%string)
  then GoStrings.Contains (GoStrings.ToLower (Name item)) (GoStrings.ToLower filterText)
  else true.

(** [updateDisplayItems]. *)
Definition updateDisplayItems (m : Model) : Model :=
  let m := set_displayItems [] m in
  match walkPath (currentPath m) (folderTree m) with
  | None => m
  | Some current =>
      let items :=
        filter (λ item, Is_true (passesFilter (filterText m) item))
               (snd <$> map_to_list (Children current)) in
      let items := sortSlice itemLess items in
      let m := set_displayItems items m in
      let m := if len (displayItems m) <=? cursor m
               then set_cursor (len (displayItems m) - 1) m else m in
      let m := if cursor m <? 0 then set_cursor 0 m else m in
      set_listOffset 0 m
  end.

(** *** Status texts *)

(** The pictographs that open some status texts, as the source file at
    hand spells them. *)
Definition iconClipboard : string := "ðŸ“‹".
Definition iconCheck : string := "âœ“".
Definition iconLock : string := "ðŸ”’".
Definition iconUnlock : string := "ðŸ”“".

Definition statusCopiedAutoClear (remaining : Z) : string :=
  (iconClipboard +:+ " Copied! Auto-clear in " +:+ itoa remaining +:+ "s")%string.
Definition statusCopied : string :=
  (iconCheck +:+ " Secret value copied to clipboard")%string.
Definition statusWillClear (seconds : Z) : string :=
  (iconClipboard +:+ " Clipboard will clear in " +:+ itoa seconds +:+ "s")%string.
Definition statusCleared : string := (iconLock +:+ " Clipboard cleared")%string.
Definition statusUnlocked : string := (iconUnlock +:+ " Session unlocked")%string.

(** *** Key handling, view by view *)

(** [return m, nil]. *)
Definition stay (m : Model) : M (Model * Cmd) := ret (m, CmdNil).

(** [updateList]. *)
Definition updateList (m : Model) (msg : KeyMsg) : M (Model * Cmd) :=
  if loading m then stay m
  else
    let visibleHeight := height m - 10 in
    let visibleHeight := if visibleHeight <? 5 then 5 else visibleHeight in
    let key := KeyMsg_String msg in
    if keyIn key ["up"; "k"]%string then
      if 0 <? cursor m then
        let m := set_cursor (cursor m - 1) m in
        let m := if cursor m <? listOffset m then set_listOffset (cursor m) m else m in
        stay m
      else stay m
    else if keyIn key ["down"; "j"]%string then
      if cursor m <? len (displayItems m) - 1 then
        let m := set_cursor (cursor m + 1) m in
        let m := if listOffset m + visibleHeight <=? cursor m
                 then set_listOffset (cursor m - visibleHeight + 1) m else m in
        stay m
      else stay m
    else if keyIn key ["g"]%string then
      let m := set_cursor 0 m in
      let m := set_listOffset 0 m in
      stay m
    else if keyIn key ["G"]%string then
      if 0 <? len (displayItems m) then
        let m := set_cursor (len (displayItems m) - 1) m in
        let m := if visibleHeight <=? cursor m
                 then set_listOffset (cursor m - visibleHeight + 1) m else m in
        stay m
      else stay m
    else if keyIn key ["enter"; "l"]%string then
      if 0 <? len (displayItems m) then
        let* item := index (displayItems m) (cursor m) in
        if IsFolder item then
          let m := set_currentPath (currentPath m ++ [Name item]) m in
          let m := updateDisplayItems m in
          let m := set_cursor 0 m in
          let m := set_listOffset 0 m in
          stay m
        else
          match Secret item with
          | Some secret =>
              let m := set_selectedSecret (Secret item) m in
              let m := set_view ViewDetail m in
              let m := set_versionCursor 0 m in
              let m := set_loading true m in
              let m := set_loadingMsg "Loading versions..." m in
              ret (m, loadVersions (Secret_Name secret))
          | None => stay m
          end
      else stay m
    else if keyIn key ["backspace"; "h"; "esc"]%string then
      if 0 <? len (currentPath m) then
        let m := set_currentPath (take (length (currentPath m) - 1)%nat (currentPath m)) m in
        let m := updateDisplayItems m in
        let m := set_cursor 0 m in
        let m := set_listOffset 0 m in
        stay m
      else if bool_decide (filterText m ≠ ""%string) then
        let m := set_filterText "" m in
        let m := set_filterInput (textinput_SetValue "" (filterInput m)) m in
        let m := updateDisplayItems m in
        stay m
      else stay m
    else if keyIn key ["/"]%string then
      let m := set_view ViewFilter m in
      let m := set_filterInput (textinput_Focus (filterInput m)) m in
      ret (m, textinput_Blink)
    else if keyIn key ["n"]%string then
      let m := set_view ViewCreate m in
      let sep := FolderSeparator (config m) in
      let* inputs := updateAt (createInputs m) 0
                       (textinput_SetValue (GoStrings.Join (currentPath m) sep)) in
      let m := set_createInputs inputs m in
      let* m :=
        (if 0 <? len (currentPath m) then
           let* input0 := index (createInputs m) 0 in
           let* inputs := updateAt (createInputs m) 0
                            (textinput_SetValue (textinput_Value input0 +:+ sep)%string) in
           ret (set_createInputs inputs m)
         else ret m) in
      let* inputs := updateAt (createInputs m) 0 textinput_Focus in
      let m := set_createInputs inputs m in
      let m := set_createFocus 0 m in
      let m := if 0 <? len (SecretLocations (config m))
               then set_createLocationIdx 1 m
               else set_createLocationIdx 0 m in
      let m := set_createAddingLoc false m in
      let m := set_createEditorMode false m in
      let m := set_createValueArea (textarea_SetValue "" (createValueArea m)) m in
      ret (m, textinput_Blink)
    else if keyIn key ["d"]%string then
      if 0 <? len (displayItems m) then
        let* item := index (displayItems m) (cursor m) in
        if negb (IsFolder item) then
          let* item := index (displayItems m) (cursor m) in
          let m := set_selectedSecret (Secret item) m in
          let m := set_view ViewDelete m in
          let m := set_deleteConfirm false m in
          stay m
        else stay m
      else stay m
    else if keyIn key ["ctrl+r"]%string then
      let m := set_loading true m in
      let m := set_loadingMsg "Refreshing..." m in
      ret (m, loadSecrets)
    else if keyIn key ["ctrl+s"]%string then
      let m := set_view ViewConfigMenu m in
      let m := set_configMenuCursor 0 m in
      stay m
    else if keyIn key ["q"]%string then
      ret (m, tea_Quit)
    else stay m.

(** [updateDetail]. *)
Definition updateDetail (m : Model) (msg : KeyMsg) : M (Model * Cmd) :=
  if loading m then stay m
  else
    let key := KeyMsg_String msg in
    if keyIn key ["up"; "k"]%string then
      if 0 <? versionCursor m then stay (set_versionCursor (versionCursor m - 1) m)
      else stay m
    else if keyIn key ["down"; "j"]%string then
      if versionCursor m <? len (versions m) - 1
      then stay (set_versionCursor (versionCursor m + 1) m)
      else stay m
    else if keyIn key ["esc"; "backspace"; "h"]%string then
      let m := set_view ViewList m in
      let m := set_selectedSecret None m in
      let m := set_versions [] m in
      zeroBytes (revealedValue m);;
      let m := set_revealedValue None m in
      stay m
    else if keyIn key ["r"]%string then
      if 0 <? len (versions m) then
        let* version := index (versions m) (versionCursor m) in
        let m := set_loading true m in
        let m := set_loadingMsg "Accessing secret..." m in
        let* secret := deref (selectedSecret m) in
        ret (m, accessSecretVersion (Secret_Name secret) (Version_Name version))
      else stay m
    else if keyIn key ["c"; "y"]%string then
      if 0 <? len (versions m) then
        let* version := index (versions m) (versionCursor m) in
        let m := set_loading true m in
        let m := set_loadingMsg "Copying to clipboard..." m in
        let* secret := deref (selectedSecret m) in
        ret (m, copySecretValue (Secret_Name secret) (Version_Name version))
      else stay m
    else if keyIn key ["a"]%string then
      let m := set_view ViewAddVersion m in
      let m := set_versionInput (textinput_SetValue "" (versionInput m)) m in
      let m := set_versionInput (textinput_Focus (versionInput m)) m in
      ret (m, textinput_Blink)
    else if keyIn key ["g"]%string then
      let m := set_view ViewGenerate m in
      let m := set_templateCursor 0 m in
      let m := set_generatedCode "" m in
      stay m
    else if keyIn key ["d"]%string then
      let m := set_view ViewDelete m in
      let m := set_deleteConfirm false m in
      stay m
    else if keyIn key ["q"]%string then
      ret (m, tea_Quit)
    else stay m.

(** [updateAddVersion]. *)
Definition updateAddVersion (m : Model) (msg : KeyMsg) : M (Model * Cmd) :=
  let key := KeyMsg_String msg in
  if keyIn key ["enter"]%string then
    let value := textinput_Value (versionInput m) in
    if bool_decide (value = ""%string) then
      let m := set_statusMsg "Value is required" m in
      let m := set_statusErr true m in
      stay m
    else
      let m := set_loading true m in
      let m := set_loadingMsg "Adding version..." m in
      let m := set_versionInput (textinput_SetValue "" (versionInput m)) m in
      let* secret := deref (selectedSecret m) in
      ret (m, addVersion (Secret_Name secret) value)
  else if keyIn key ["esc"]%string then
    let m := set_view ViewDetail m in
    let m := set_versionInput (textinput_SetValue "" (versionInput m)) m in
    stay m
  else
    let '(input, cmd) := textinput_Update (versionInput m) msg in
    let m := set_versionInput input m in
    ret (m, CmdWidget cmd).

(** [updateDelete]. *)
Definition updateDelete (m : Model) (msg : KeyMsg) : M (Model * Cmd) :=
  let key := KeyMsg_String msg in
  if keyIn key ["y"]%string then
    let m := set_loading true m in
    let m := set_loadingMsg "Deleting secret..." m in
    let* secret := deref (selectedSecret m) in
    ret (m, deleteSecret (Secret_Name secret))
  else if keyIn key ["n"; "esc"]%string then
    if bool_decide (previousView m = ViewDetail)
    then stay (set_view ViewDetail m)
    else stay (set_view ViewList m)
  else stay m.

(** [generateCode]. *)
Definition generateCode (m : Model) (templateIdx : Z) : M string :=
  if (len (Templates (config m)) <=? templateIdx) || bool_decide (selectedSecret m = None)
  then ret ""%string
  else
    let* tpl := index (Templates (config m)) templateIdx in
    let* secret := deref (selectedSecret m) in
    let parts := GoStrings.Split (Secret_Name secret) (FolderSeparator (config m)) in
    let* shortName := index parts (len parts - 1) in
    let data : gmap string string :=
      <["SecretName"%string := shortName]>
        (<["FullSecretName"%string := Secret_Name secret]>
           (<["ProjectID"%string := ProjectID (config m)]> ∅)) in
    match template_Parse (Code tpl) with
    | inr err => ret ("Template error: " +:+ err)%string
    | inl t =>
        match template_Execute t data with
        | inr err => ret ("Execution error: " +:+ err)%string
        | inl out => ret out
        end
    end.

(** [updateGenerate]. *)
Definition updateGenerate (m : Model) (msg : KeyMsg) : M (Model * Cmd) :=
  let key := KeyMsg_String msg in
  if keyIn key ["up"; "k"]%string then
    if 0 <? templateCursor m then stay (set_templateCursor (templateCursor m - 1) m)
    else stay m
  else if keyIn key ["down"; "j"]%string then
    if templateCursor m <? len (Templates (config m)) - 1
    then stay (set_templateCursor (templateCursor m + 1) m)
    else stay m
  else if keyIn key ["enter"]%string then
    let* code := generateCode m (templateCursor m) in
    stay (set_generatedCode code m)
  else if keyIn key ["c"; "y"]%string then
    if bool_decide (generatedCode m ≠ ""%string) then
      let* r := call (clipboard_WriteText (generatedCode m)) in
      match r_err r with
      | Some _ =>
          let m := set_statusMsg "Failed to copy to clipboard" m in
          let m := set_statusErr true m in
          stay m
      | None =>
          let m := set_statusMsg "Code copied to clipboard!" m in
          let m := set_statusErr false m in
          if AutoClear (Clipboard (config m)) then
            let* now := Now in
            let m := set_clipboardClearAt
                       (Add now (mulDuration (TimeoutSeconds (Clipboard (config m))) Second)) m in
            let m := set_clipboardActive true m in
            ret (m, clipboardTickCmd)
          else stay m
      end
    else stay m
  else if keyIn key ["esc"; "backspace"; "h"]%string then
    let m := set_view ViewDetail m in
    let m := set_generatedCode "" m in
    stay m
  else stay m.

(** [updateConfigMenu]. *)
Definition updateConfigMenu (m : Model) (msg : KeyMsg) : M (Model * Cmd) :=
  let key := KeyMsg_String msg in
  if keyIn key ["up"; "k"]%string then
    if 0 <? configMenuCursor m then stay (set_configMenuCursor (configMenuCursor m - 1) m)
    else stay m
  else if keyIn key ["down"; "j"]%string then
    if configMenuCursor m <? len (configMenuItems m) - 1
    then stay (set_configMenuCursor (configMenuCursor m + 1) m)
    else stay m
  else if keyIn key ["enter"; "l"]%string then
    if configMenuCursor m =? 0 then
      let m := set_view ViewConfigBasic m in
      let* inputs := updateAt (configInputs m) 0 (textinput_SetValue (ProjectID (config m))) in
      let m := set_configInputs inputs m in
      let* inputs := updateAt (configInputs m) 1
                       (textinput_SetValue (FolderSeparator (config m))) in
      let m := set_configInputs inputs m in
      let* inputs := updateAt (configInputs m) 0 textinput_Focus in
      let m := set_configInputs inputs m in
      let m := set_configFocus 0 m in
      ret (m, textinput_Blink)
    else if configMenuCursor m =? 1 then
      let m := set_view ViewConfigTemplates m in
      let m := set_templateListCursor 0 m in
      stay m
    else if configMenuCursor m =? 2 then
      let m := set_view ViewConfigRecentProjects m in
      let m := set_recentProjectsCursor 0 m in
      stay m
    else if configMenuCursor m =? 3 then
      let m := set_view ViewConfigSecurity m in
      let m := set_securityCursor 0 m in
      stay m
    else if configMenuCursor m =? 4 then
      call (config_Save (config m));;
      let m := set_statusMsg "Configuration saved" m in
      let m := set_statusErr false m in
      let m := set_view ViewList m in
      let m := buildFolderTree m in
      let m := updateDisplayItems m in
      stay m
    else stay m
  else if keyIn key ["esc"; "q"]%string then
    stay (set_view ViewList m)
  else stay m.

(** [updateLocked]. *)
Definition updateLocked (m : Model) (msg : KeyMsg) : M (Model * Cmd) :=
  let key := KeyMsg_String msg in
  if keyIn key ["enter"; " "]%string then
    let m := set_sessionLocked false m in
    let m := set_view (lockedPrevView m) m in
    let* now := Now in
    let m := set_lastActivity now m in
    let* m := audit m (λ l, LogSessionUnlock l (ProjectID (config m))) in
    let m := set_statusMsg statusUnlocked m in
    let m := set_statusErr false m in
    stay m
  else if keyIn key ["q"]%string then
    ret (m, tea_Quit)
  else stay m.

(** [updateFilter]. *)
Definition updateFilter (m : Model) (msg : KeyMsg) : M (Model * Cmd) :=
  let key := KeyMsg_String msg in
  if keyIn key ["enter"; "esc"]%string then
    let m := set_view ViewList m in
    let m := set_filterText (textinput_Value (filterInput m)) m in
    let m := updateDisplayItems m in
    let m := set_cursor 0 m in
    stay m
  else
    let '(input, cmd) := textinput_Update (filterInput m) msg in
    let m := set_filterInput input m in
    let m := set_filterText (textinput_Value (filterInput m)) m in
    let m := updateDisplayItems m in
    ret (m, CmdWidget cmd).

(** [updateReveal]. *)
Definition updateReveal (m : Model) (msg : KeyMsg) : M (Model * Cmd) :=
  let key := KeyMsg_String msg in
  if keyIn key ["esc"; "backspace"; "enter"; "r"]%string then
    let m := set_view ViewDetail m in
    zeroBytes (revealedValue m);;
    let m := set_revealedValue None m in
    let m := set_revealVersion "" m in
    stay m
  else if keyIn key ["c"; "y"]%string then
    let* n := lenBytes (revealedValue m) in
    if 0 <? n then
      let* value := readBytes (revealedValue m) in
      let* r := call (clipboard_WriteText (string_of_list_byte value)) in
      match r_err r with
      | Some err =>
          let m := set_statusMsg ("Error copying: " +:+ err)%string m in
          let m := set_statusErr true m in
          stay m
      | None =>
          if AutoClear (Clipboard (config m)) && (0 <? TimeoutSeconds (Clipboard (config m)))
          then
            let timeout := mulDuration (TimeoutSeconds (Clipboard (config m))) Second in
            let* now := Now in
            let m := set_clipboardClearAt (Add now timeout) m in
            let m := set_clipboardActive true m in
            let remaining := TimeoutSeconds (Clipboard (config m)) in
            let m := set_statusMsg (statusCopiedAutoClear remaining) m in
            let m := set_statusErr false m in
            ret (m, clipboardTickCmd)
          else
            let m := set_statusMsg statusCopied m in
            let m := set_statusErr false m in
            stay m
      end
    else stay m
  else stay m.

(** The key handlers of the project prompt, the creation form, the
    settings screens, the journal viewer and the project switcher.  No
    property below is about what they do: they are parameters, and every
    statement about [Update] holds whatever they are. *)
Record Screens := {
  updateProjectPrompt : Model → KeyMsg → M (Model * Cmd);
  updateCreate : Model → KeyMsg → M (Model * Cmd);
  updateConfigBasic : Model → KeyMsg → M (Model * Cmd);
  updateConfigTemplates : Model → KeyMsg → M (Model * Cmd);
  updateConfigTemplateEdit : Model → KeyMsg → M (Model * Cmd);
  updateConfigRecentProjects : Model → KeyMsg → M (Model * Cmd);
  updateConfigSecurity : Model → KeyMsg → M (Model * Cmd);
  updateAuditLog : Model → KeyMsg → M (Model * Cmd);
  updateProjectSwitch : Model → KeyMsg → M (Model * Cmd);
}.

Context (screens : Screens).

(** *** The message handler *)

(** The dispatch [switch m.view] of a key. *)
Definition updateView (m : Model) (msg : KeyMsg) : M (Model * Cmd) :=
  match view m with
  | ViewProjectPrompt => updateProjectPrompt screens m msg
  | ViewList => updateList m msg
  | ViewDetail => updateDetail m msg
  | ViewCreate => updateCreate screens m msg
  | ViewAddVersion => updateAddVersion m msg
  | ViewDelete => updateDelete m msg
  | ViewGenerate => updateGenerate m msg
  | ViewConfig | ViewConfigMenu => updateConfigMenu m msg
  | ViewConfigBasic => updateConfigBasic screens m msg
  | ViewConfigTemplates => updateConfigTemplates screens m msg
  | ViewConfigTemplateEdit => updateConfigTemplateEdit screens m msg
  | ViewConfigRecentProjects => updateConfigRecentProjects screens m msg
  | ViewConfigSecurity => updateConfigSecurity screens m msg
  | ViewAuditLog => updateAuditLog screens m msg
  | ViewFilter => updateFilter m msg
  | ViewReveal => updateReveal m msg
  | ViewProjectSwitch => updateProjectSwitch screens m msg
  | ViewLocked => updateLocked m msg
  end.

(** The first [switch] of [Update]: key and pointer input counts as
    activity. *)
Definition trackActivity (m : Model) (msg : Msg) : M Model :=
  match msg with
  | tea_KeyMsg _ | tea_MouseMsg _ =>
      let* now := Now in
      ret (set_lastActivity now m)
  | _ => ret m
  end.

(** [Update]. *)
Definition Update (m : Model) (msg : Msg) : M (Model * Cmd) :=
  let cmds : list Cmd := [] in
  let* m := trackActivity m msg in
  match msg with
  | tea_KeyMsg msg =>
      if bool_decide (KeyMsg_String msg = "ctrl+c"%string) then ret (m, tea_Quit)
      else if sessionLocked m then updateLocked m msg
      else if bool_decide (KeyMsg_String msg = "ctrl+p"%string)
              && bool_decide (view m ≠ ViewProjectPrompt)
              && bool_decide (view m ≠ ViewProjectSwitch)
              && bool_decide (view m ≠ ViewLocked)
      then
        let m := set_projectSwitchPrevView (view m) m in
        let m := set_view ViewProjectSwitch m in
        let m := set_projectSwitchCursor 0 m in
        let m := set_projectSwitchInput (textinput_SetValue "" (projectSwitchInput m)) m in
        let m := set_projectSwitchInput (textinput_Focus (projectSwitchInput m)) m in
        ret (m, textinput_Blink)
      else updateView m msg

  | tea_WindowSizeMsg Width Height =>
      let m := set_width Width m in
      let m := set_height Height m in
      let m := set_viewport (viewport_New Width (Height - 6)) m in
      ret (m, tea_Batch cmds)

  | clientInitializedMsg msg_client err =>
      match err with
      | Some e =>
          let m := set_statusMsg ("Error: " +:+ e)%string m in
          let m := set_statusErr true m in
          let m := set_loading false m in
          stay m
      | None =>
          let m := set_client msg_client m in
          let* m :=
            (match auditLogger m with
             | Some l =>
                 let* c := deref msg_client in
                 let l := SetUser l (Client_UserEmail c) in
                 let* l := LogSessionStart l (ProjectID (config m)) in
                 ret (set_auditLogger (Some l) m)
             | None => ret m
             end) in
          let m := set_loading true m in
          let m := set_loadingMsg "Loading secrets..." m in
          ret (m, loadSecrets)
      end

  | secretsLoadedMsg msg_secrets err =>
      let m := set_loading false m in
      match err with
      | Some e =>
          let m := set_statusMsg ("Error loading secrets: " +:+ e)%string m in
          let m := set_statusErr true m in
          let* m := audit m (λ l, LogSecretList l (ProjectID (config m)) 0 ResultFailure e) in
          stay m
      | None =>
          let m := set_secrets msg_secrets m in
          let m := buildFolderTree m in
          let m := updateDisplayItems m in
          let m := set_statusMsg
                     ("Loaded " +:+ itoa (len (secrets m)) +:+ " secrets")%string m in
          let m := set_statusErr false m in
          let* m := audit m (λ l, LogSecretList l (ProjectID (config m))
                                     (len (secrets m)) ResultSuccess "") in
          ret (m, tea_Batch cmds)
      end

  | versionsLoadedMsg msg_versions err =>
      let m := set_loading false m in
      match err with
      | Some e =>
          let m := set_statusMsg ("Error loading versions: " +:+ e)%string m in
          let m := set_statusErr true m in
          stay m
      | None =>
          let m := set_versions msg_versions m in
          ret (m, tea_Batch cmds)
      end

  | secretCreatedMsg name err =>
      let m := set_loading false m in
      match err with
      | Some e =>
          let m := set_statusMsg ("Error creating secret: " +:+ e)%string m in
          let m := set_statusErr true m in
          let* m := audit m (λ l, LogSecretCreate l (ProjectID (config m)) name
                                     ResultFailure e) in
          stay m
      | None =>
          let m := set_statusMsg "Secret created successfully" m in
          let m := set_statusErr false m in
          let* m := audit m (λ l, LogSecretCreate l (ProjectID (config m)) name
                                     ResultSuccess "") in
          let m := set_view ViewList m in
          ret (m, loadSecrets)
      end

  | secretDeletedMsg name err =>
      let m := set_loading false m in
      match err with
      | Some e =>
          let m := set_statusMsg ("Error deleting secret: " +:+ e)%string m in
          let m := set_statusErr true m in
          let* m := audit m (λ l, LogSecretDelete l (ProjectID (config m)) name
                                     ResultFailure e) in
          stay m
      | None =>
          let m := set_statusMsg "Secret deleted successfully" m in
          let m := set_statusErr false m in
          let* m := audit m (λ l, LogSecretDelete l (ProjectID (config m)) name
                                     ResultSuccess "") in
          let m := set_view ViewList m in
          let m := set_selectedSecret None m in
          ret (m, loadSecrets)
      end

  | versionAddedMsg version err =>
      let m := set_loading false m in
      match err with
      | Some e =>
          let m := set_statusMsg ("Error adding version: " +:+ e)%string m in
          let m := set_statusErr true m in
          let* m :=
            (match selectedSecret m with
             | Some secret =>
                 audit m (λ l, LogVersionAdd l (ProjectID (config m)) (Secret_Name secret)
                                 "" ResultFailure e)
             | None => ret m
             end) in
          stay m
      | None =>
          let* v := deref version in
          let m := set_statusMsg
                     ("Version " +:+ Version_Name v +:+ " added successfully")%string m in
          let m := set_statusErr false m in
          let* m :=
            (match selectedSecret m with
             | Some secret =>
                 audit m (λ l, LogVersionAdd l (ProjectID (config m)) (Secret_Name secret)
                                 (Version_Name v) ResultSuccess "")
             | None => ret m
             end) in
          let m := set_view ViewDetail m in
          let* secret := deref (selectedSecret m) in
          ret (m, loadVersions (Secret_Name secret))
      end

  | secretValueMsg secretName value version err =>
      let m := set_loading false m in
      match err with
      | Some e =>
          let m := set_statusMsg ("Error accessing secret: " +:+ e)%string m in
          let m := set_statusErr true m in
          let* m := audit m (λ l, LogSecretReveal l (ProjectID (config m)) secretName
                                     version ResultFailure e) in
          stay m
      | None =>
          let* m := setRevealedValue value m in
          zeroBytes value;;
          let m := set_revealVersion version m in
          let m := set_view ViewReveal m in
          let* m := audit m (λ l, LogSecretReveal l (ProjectID (config m)) secretName
                                     version ResultSuccess "") in
          ret (m, tea_Batch cmds)
      end

  | secretCopiedMsg secretName version err =>
      let m := set_loading false m in
      match err with
      | Some e =>
          let m := set_statusMsg ("Error copying: " +:+ e)%string m in
          let m := set_statusErr true m in
          let* m := audit m (λ l, LogSecretCopy l (ProjectID (config m)) secretName
                                     version ResultFailure e) in
          stay m
      | None =>
          let* m := audit m (λ l, LogSecretCopy l (ProjectID (config m)) secretName
                                     version ResultSuccess "") in
          if AutoClear (Clipboard (config m)) && (0 <? TimeoutSeconds (Clipboard (config m)))
          then
            let timeout := mulDuration (TimeoutSeconds (Clipboard (config m))) Second in
            let* now := Now in
            let m := set_clipboardClearAt (Add now timeout) m in
            let m := set_clipboardActive true m in
            let remaining := TimeoutSeconds (Clipboard (config m)) in
            let m := set_statusMsg (statusCopiedAutoClear remaining) m in
            let m := set_statusErr false m in
            ret (m, clipboardTickCmd)
          else
            let m := set_statusMsg statusCopied m in
            let m := set_statusErr false m in
            ret (m, tea_Batch cmds)
      end

  | clipboardTickMsg _ =>
      if negb (clipboardActive m) then stay m
      else
        let* now := Now in
        let remaining := Sub (clipboardClearAt m) now in
        if remaining <=? 0 then ret (m, clearClipboardCmd)
        else
          let m := set_statusMsg (statusWillClear (wholeSeconds remaining)) m in
          let m := set_statusErr false m in
          ret (m, clipboardTickCmd)

  | clipboardClearMsg =>
      let m := set_clipboardActive false m in
      let m := set_statusMsg statusCleared m in
      let m := set_statusErr false m in
      let* m := audit m LogClipboardClear in
      ret (m, tea_Batch cmds)

  | sessionTimeoutMsg _ =>
      let* m :=
        (if (0 <? InactivityTimeout (Session (config m))) && LockOnTimeout (Session (config m))
         then
           let timeout := mulDuration (InactivityTimeout (Session (config m))) Minute in
           let* now := Now in
           if (timeout <? Sub now (lastActivity m)) && negb (sessionLocked m) then
             let m := set_sessionLocked true m in
             let m := set_lockedPrevView (view m) m in
             let m := set_view ViewLocked m in
             let* m := clearRevealedValue m in
             let* m :=
               (if clipboardActive m then
                  call clipboard_Clear;;
                  ret (set_clipboardActive false m)
                else ret m) in
             audit m (λ l, LogSessionLock l (ProjectID (config m)) "inactivity_timeout")
           else ret m
         else ret m) in
      let cmds := cmds ++ [sessionTimeoutTickCmd] in
      ret (m, tea_Batch cmds)

  | tea_MouseMsg _ | tea_OtherMsg _ => ret (m, tea_Batch cmds)
  end.

(** The event loop as the controller sees it: the messages are handled one
    after the other, each on the state the previous one left; the tasks
    handed back are collected in order. *)
Fixpoint handleAll (m : Model) (msgs : list Msg) : M (Model * list Cmd) :=
  match msgs with
  | [] => ret (m, [])
  | msg :: rest =>
      let* '(m, cmd) := Update m msg in
      let* '(m, cmds) := handleAll m rest in
      ret (m, cmd :: cmds)
  end.

End Controller.

(** ** The list of recent projects *)

Definition set_RecentProjects (ps : list string) (c : Config) : Config :=
  {| ProjectID := ProjectID c; FolderSeparator := FolderSeparator c;
     Templates := Templates c; RecentProjects := ps;
     SecretLocations := SecretLocations c; Clipboard := Clipboard c;
     Audit := Audit c; Session := Session c |}.

(** [Config.AddRecentProject]: the project moves to the front of the
    list. *)
Definition AddRecentProject (c : Config) (projectID : string) : Config :=
  if bool_decide (projectID = ""%string) then c
  else
    let filtered := filter (λ p, p ≠ projectID) (RecentProjects c) in
    set_RecentProjects (projectID :: filtered) c.

(** [Config.RemoveProject]. *)
Definition RemoveProject (c : Config) (projectID : string) : Config :=
  let filtered := filter (λ p, p ≠ projectID) (RecentProjects c) in
  set_RecentProjects filtered c.

Section ProjectSwitch.
Context `{GoRuntime} `{Widgets}.


End ProjectSwitch.

(** ** Concrete collaborators

    A runtime, a widget kit and a set of screens small enough to run the
    controller on explicit inputs. *)

Local Open Scope Z_scope.

(** A stand-in for the JSON encoder: the fields between braces, each with
    its line breaks escaped. *)
Fixpoint escapeLineBreaks (s : string) : string :=
  match s with
  | EmptyString => EmptyString
  | String c s' =>
      if Ascii.eqb c (ascii_of_nat 10)
      then String "\"%char (String "n"%char (escapeLineBreaks s'))
      else String c (escapeLineBreaks s')
  end.

Definition sampleMarshal (e : Event) : string :=
  ("{" +:+ escapeLineBreaks (Timestamp e) +:+ "|" +:+ escapeLineBreaks (Event_Type e)
       +:+ "|" +:+ escapeLineBreaks (Result e) +:+ "|" +:+ escapeLineBreaks (User e)
       +:+ "|" +:+ escapeLineBreaks (SecretName e) +:+ "}")%string.

Lemma escapeLineBreaks_one_line (s : string) :
  ascii_of_nat 10 ∉ list_ascii_of_string (escapeLineBreaks s).
Proof.
  induction s as [|c s IH]; simpl; [apply not_elem_of_nil|].
  destruct (Ascii.eqb c (ascii_of_nat 10)) eqn:Hc; simpl.
  - rewrite !not_elem_of_cons. repeat split; [discriminate..|done].
  - rewrite not_elem_of_cons. split; [|done].
    intros Heq. subst c. by rewrite Ascii.eqb_refl in Hc.
Qed.

Lemma list_ascii_of_string_app (a b : string) :
  list_ascii_of_string (a +:+ b) = list_ascii_of_string a ++ list_ascii_of_string b.
Proof. induction a as [|c a IH]; simpl; [done | by rewrite IH]. Qed.

Lemma sampleMarshal_one_line (e : Event) :
  ascii_of_nat 10 ∉ list_ascii_of_string (sampleMarshal e).
Proof.
  unfold sampleMarshal. rewrite !list_ascii_of_string_app, !not_elem_of_app.
  repeat split; try apply escapeLineBreaks_one_line;
    simpl; rewrite not_elem_of_cons; (split; [discriminate | apply not_elem_of_nil]).
Qed.

#[global] Program Instance sampleRuntime : GoRuntime := {|
  json_Marshal e := (sampleMarshal e, None);
  format_RFC3339 t := pretty t;
  format_stamp t := pretty t |}.
Next Obligation.
  intros e data [= <-]. apply sampleMarshal_one_line.
Qed.

#[global] Instance sampleWidgets : Widgets := {|
  KeyMsg := string;
  KeyMsg_String k := k;
  MouseMsg := unit;
  OtherMsg := unit;
  WidgetCmd := unit;
  textinput_Model := string;
  textinput_Value v := v;
  textinput_SetValue s _ := s;
  textinput_Focus v := v;
  textinput_Blur v := v;
  textinput_Update v k := ((v +:+ k)%string, tt);
  textarea_Model := string;
  textarea_SetValue s _ := s;
  viewport_Model := (Z * Z)%type;
  viewport_New w h := (w, h);
  Styles := unit;
  KeyMap := unit;
  Context := unit;
  Client := string;
  Client_UserEmail c := c;
  ParsedTemplate := string;
  template_Parse c := inl c;
  template_Execute t _ := inl t |}.

(** Screens that ignore their keys. *)
Definition sampleScreens : Screens := {|
  updateProjectPrompt m _ := stay m;
  updateCreate m _ := stay m;
  updateConfigBasic m _ := stay m;
  updateConfigTemplates m _ := stay m;
  updateConfigTemplateEdit m _ := stay m;
  updateConfigRecentProjects m _ := stay m;
  updateConfigSecurity m _ := stay m;
  updateAuditLog m _ := stay m;
  updateProjectSwitch m _ := stay m |}.

(** The default configuration of the application. *)
Definition sampleConfig : Config := {|
  ProjectID := "demo-project";
  FolderSeparator := "/";
  Templates := [];
  RecentProjects := [];
  SecretLocations := [];
  Clipboard := {| AutoClear := true; TimeoutSeconds := 30 |};
  Audit := {| Audit_Enabled := true; Audit_FilePath := ""; Audit_MaxSizeMB := 10;
              Audit_MaxAgeDays := 90 |};
  Session := {| InactivityTimeout := 15; LockOnTimeout := true |} |}.

(** An enabled journal on an open file. *)
Definition sampleLogger : Logger := {|
  file := Some 3%positive; enabled := true; filePath := "/var/log/audit.log";
  maxSizeMB := 10; maxAgeDays := 90; userEmail := "dev@example.com" |}.

(** The state [NewModel] returns for a configured project, with the sample
    widgets: the list view, loading, an empty tree. *)
Definition sampleModel : Model := {|
  config := sampleConfig; client := None; ctx := tt;
  view := ViewList; previousView := ViewProjectPrompt;
  width := 0; height := 0; styles := tt; keys := tt;
  secrets := []; folderTree := emptyRoot; currentPath := []; displayItems := [];
  cursor := 0; listOffset := 0; filterText := ""; filterInput := "";
  selectedSecret := None; versions := []; versionCursor := 0;
  revealedValue := None; revealVersion := "";
  createInputs := [""; ""]%string; createFocus := 0; createLocationIdx := 0;
  createAddingLoc := false; createLocInput := ""; createValueArea := "";
  createEditorMode := false; versionInput := "";
  templateCursor := 0; generatedCode := "";
  configInputs := [""; "/"]%string; configFocus := 0; configMenuCursor := 0;
  configMenuItems := ["Basic Settings"; "Code Templates"; "Recent Projects";
                      "Security Settings"; "Save & Exit"]%string;
  templateListCursor := 0; editingTemplateIdx := 0; templateTitleInput := "";
  templateCodeArea := ""; templateFocus := 0; isNewTemplate := false;
  recentProjectsCursor := 0; securityCursor := 0;
  auditLogLines := []; auditLogOffset := 0;
  projectSwitchCursor := 0; projectSwitchInput := ""; projectSwitchPrevView := ViewProjectPrompt;
  deleteConfirm := false; statusMsg := ""; statusErr := false;
  viewport := (0, 0)%Z; loading := true; loadingMsg := "Loading secrets...";
  clipboardClearAt := 0; clipboardActive := false;
  auditLogger := Some sampleLogger;
  lastActivity := 0; sessionLocked := false; lockedPrevView := ViewProjectPrompt |}.

(** An environment in which every call succeeds, the clock reads
    [1000000000 * n] at the [n]-th call, files are small and a newly opened
    file gets the handle 4. *)
Definition calmEnv : nat → Reply :=
  λ n, {| r_err := None; r_time := 1000000000 * Z.of_nat n; r_size := 100;
          r_file := 4%positive |}.

Definition sampleWorld (h : gmap loc (list byte)) : World :=
  {| w_heap := h; w_env := calmEnv; w_trace := [] |}.

(** ** The vocabulary of the properties *)

Section Vocabulary.
Context `{GoRuntime} `{Widgets}.


(** The reply of the environment to the [n]-th call from now on. *)
Definition reply (w : World) (n : nat) : Reply := w_env w (length (w_trace w) + n).

(** What a computation may do to the world: make calls. *)
Definition extends (w w' : World) (calls : list Call) : Prop :=
  w_trace w' = w_trace w ++ calls ∧ w_heap w' = w_heap w ∧ w_env w' = w_env w.

(** The world after some more calls. *)
Definition after (w : World) (calls : list Call) : World :=
  {| w_heap := w_heap w; w_env := w_env w; w_trace := w_trace w ++ calls |}.

(** The path of a name through the tree: its non-empty parts. *)
Definition segments (parts : list string) : list string :=
  filter (λ p, p ≠ ""%string) parts.

(** The tree [buildFolderTree] builds from a list of secrets. *)
Definition treeOf (sep : string) (l : list gcp_Secret) : FolderItem :=
  fold_left (insertSecret sep) l emptyRoot.

(** Two nodes that agree on everything but their children. *)
Definition sameMarking (a b : FolderItem) : Prop :=
  Name a = Name b ∧ FullPath a = FullPath b ∧ IsFolder a = IsFolder b
  ∧ Secret a = Secret b ∧ Depth a = Depth b.

(** The error a completion message carries. *)
Definition completionError (msg : Msg) : error :=
  match msg with
  | secretsLoadedMsg _ err
  | versionsLoadedMsg _ err
  | secretCreatedMsg _ err
  | secretDeletedMsg _ err
  | versionAddedMsg _ err
  | secretValueMsg _ _ _ err
  | secretCopiedMsg _ _ err => err
  | _ => None
  end.

(** The store after the buffer of a slice has been overwritten with
    zeros. *)
Definition zeroedHeap (b : slice) (h : gmap loc (list byte)) : gmap loc (list byte) :=
  match b with
  | Some l => alter (λ buf, replicate (length buf) x00) l h
  | None => h
  end.

Definition withHeap (h : gmap loc (list byte)) (w : World) : World :=
  {| w_heap := h; w_env := w_env w; w_trace := w_trace w |}.

(** The session check finds the session due for its lock. *)
Definition lockDue (m : Model) (w : World) : bool :=
  (0 <? InactivityTimeout (Session (config m)))
  && LockOnTimeout (Session (config m))
  && (mulDuration (InactivityTimeout (Session (config m))) Minute
      <? Sub (r_time (reply w 0)) (lastActivity m))
  && negb (sessionLocked m).

(** The events that make the vault let go of its buffer: a new value
    arrives, the session locks, or the reveal or detail view is left by its
    own back keys. *)
Definition releases (m : Model) (msg : Msg) (w : World) : bool :=
  match msg with
  | secretValueMsg _ _ _ None => true
  | sessionTimeoutMsg _ => lockDue m w
  | tea_KeyMsg k =>
      negb (bool_decide (KeyMsg_String k = "ctrl+c"%string))
      && negb (sessionLocked m)
      && match view m with
         | ViewReveal => keyIn (KeyMsg_String k) ["esc"; "backspace"; "enter"; "r"]%string
         | ViewDetail =>
             negb (loading m) && keyIn (KeyMsg_String k) ["esc"; "backspace"; "h"]%string
         | _ => false
         end
  | _ => false
  end.

(** [t0] is the reading of the clock that a handler, run from [w] to
    [w'], took with its last call. *)
Definition lastReading (w w' : World) (t0 : Time) : Prop :=
  ∃ pre, w_trace w' = w_trace w ++ pre ++ [time_Now]
         ∧ t0 = r_time (w_env w (length (w_trace w ++ pre))).

(** The tick tasks among the tasks handed back, and the ticks among the
    messages delivered: a tick task is live from the moment it is handed
    back until its message is delivered. *)
Definition isTickCmd (c : Cmd) : bool :=
  match c with clipboardTickCmd => true | _ => false end.

Definition isTickMsg (msg : Msg) : bool :=
  match msg with clipboardTickMsg _ => true | _ => false end.

Definition liveTicks (delivered : list Msg) (handedBack : list Cmd) : Z :=
  len (filter (λ c, Is_true (isTickCmd c)) handedBack)
  - len (filter (λ msg, Is_true (isTickMsg msg)) delivered).

(** The completions of some copies, each given by the name and the
    version of its secret. *)
Definition copiesCompleted (copies : list (string * string)) : list Msg :=
  (λ c, secretCopiedMsg (fst c) (snd c) None) <$> copies.



End Vocabulary.

(** ** Sample states and runs *)

(** A vault holding the three bytes ["abc"] at location 1. *)
Definition vaultModel : Model := set_view ViewReveal (set_revealedValue (Some 1%positive) sampleModel).
Definition vaultWorld : World := sampleWorld {[ 1%positive := [x61; x62; x63] ]}.



(** A secret as [ListSecrets] returns it: the name is the last segment of
    the resource name. *)
Definition secretNamed (name : string) : gcp_Secret :=
  {| Secret_Name := name; Secret_FullName := ("projects/demo-project/secrets/" +:+ name)%string;
     Secret_CreateTime := "2024-01-01 00:00:00"; Secret_Labels := ∅;
     Secret_Replication := "automatic" |}.

(** The sample state of a user who has set the folder separator to a
    hyphen in the basic settings. *)
Definition hyphenConfig : Config := {|
  ProjectID := "demo-project";
  FolderSeparator := "-";
  Templates := [];
  RecentProjects := [];
  SecretLocations := [];
  Clipboard := {| AutoClear := true; TimeoutSeconds := 30 |};
  Audit := {| Audit_Enabled := true; Audit_FilePath := ""; Audit_MaxSizeMB := 10;
              Audit_MaxAgeDays := 90 |};
  Session := {| InactivityTimeout := 15; LockOnTimeout := true |} |}.

Definition hyphenModel : Model := set_config hyphenConfig sampleModel.



(** The back key of the reveal view, and the project-switch
    combination. *)
Definition escKey : Msg := tea_KeyMsg "esc"%string.
Definition ctrlP : Msg := tea_KeyMsg "ctrl+p"%string.

(** The sample state once the session is locked. *)
Definition lockedModel : Model :=
  set_lockedPrevView ViewList (set_view ViewLocked (set_sessionLocked true sampleModel)).

(** The sample state without a journal: the audit log could not be opened,
    or has been switched off in the security settings. *)
Definition silentModel : Model := set_auditLogger None sampleModel.

(** A world whose clock reads 1000 seconds at the first call, one second
    more at each later call. *)
Definition lateEnv : nat → Reply := λ n, calmEnv (n + 1000).

Definition lateWorld (h : gmap loc (list byte)) : World :=
  {| w_heap := h; w_env := lateEnv; w_trace := [] |}.

(** The revealed value is on the screen and a copy is pending, and the
    clock reads 1000 seconds while the last activity was at 0. *)
Definition idleVault : Model := set_clipboardActive true vaultModel.
Definition idleWorld : World := lateWorld {[ 1%positive := [x61; x62; x63] ]}.



(** Two copies complete one after the other, then the two ticks they
    started are delivered. *)
Definition twoCopies : list Msg :=
  [ secretCopiedMsg "db-password" "1" None;
    secretCopiedMsg "db-user" "1" None;
    clipboardTickMsg 0;
    clipboardTickMsg 0 ].

(** The quit combination, and the copy key. *)
Definition ctrlC : Msg := tea_KeyMsg "ctrl+c"%string.
Definition enterKey : Msg := tea_KeyMsg "enter"%string.
Definition copyKey : Msg := tea_KeyMsg "c"%string.

(** The inactivity timeout switched off: zero minutes. *)
Definition noTimeoutConfig : Config := {|
  ProjectID := "demo-project";
  FolderSeparator := "/";
  Templates := [];
  RecentProjects := [];
  SecretLocations := [];
  Clipboard := {| AutoClear := true; TimeoutSeconds := 30 |};
  Audit := {| Audit_Enabled := true; Audit_FilePath := ""; Audit_MaxSizeMB := 10;
              Audit_MaxAgeDays := 90 |};
  Session := {| InactivityTimeout := 0; LockOnTimeout := true |} |}.

Definition noTimeoutModel : Model := set_config noTimeoutConfig sampleModel.

(** A generated snippet on the screen of the generate view. *)
Definition generateModel : Model :=
  set_generatedCode "gcloud secrets versions access latest --secret=db-password"
    (set_view ViewGenerate sampleModel).

(** The list view showing the secrets ["db"] and ["db-password"] under the
    separator ["-"]: one leaf, with the cursor on it. *)
Definition twoSecrets : Model :=
  set_loading false
    (updateDisplayItems
       (buildFolderTree (set_secrets [secretNamed "db"; secretNamed "db-password"] hyphenModel))).

(** A value arrives in a buffer at location 7. *)
Definition valueWorld : World := sampleWorld {[ 7%positive := [x73; x33; x63] ]}.

(** The journal's file has reached ten megabytes. *)
Definition bigFileEnv : nat → Reply :=
  λ n, {| r_err := None; r_time := 1000000000 * Z.of_nat n; r_size := 10485760;
          r_file := 4%positive |}.

(** The same, and the rename of the rotation, the fourth call, fails. *)
Definition renameFailsEnv : nat → Reply :=
  λ n, {| r_err := if Nat.eqb n 3 then Some "permission denied"%string else None;
          r_time := 1000000000 * Z.of_nat n; r_size := 10485760; r_file := 4%positive |}.

(** A configuration with three recent projects. *)
Definition threeProjects : Config :=
  set_RecentProjects ["alpha"; "beta"; "gamma"]%string sampleConfig.

(** * Properties *)

(** Unfolding of the computations' plumbing. *)
Ltac unfold_M :=
  unfold stay, audit, Now, zeroBytes, lenBytes, readBytes, deref, index, updateAt,
    bind, ret, call, getHeap, putHeap, panic, set_heap in *.

(** Reading a field of a state after assignments. *)
Ltac fields :=
  cbn [
    config client ctx view previousView width height styles keys secrets folderTree
    currentPath displayItems cursor listOffset filterText filterInput selectedSecret
    versions versionCursor revealedValue revealVersion createInputs createFocus
    createLocationIdx createAddingLoc createLocInput createValueArea createEditorMode
    versionInput templateCursor generatedCode configInputs configFocus configMenuCursor
    configMenuItems templateListCursor editingTemplateIdx templateTitleInput
    templateCodeArea templateFocus isNewTemplate recentProjectsCursor securityCursor
    auditLogLines auditLogOffset projectSwitchCursor projectSwitchInput
    projectSwitchPrevView deleteConfirm statusMsg statusErr viewport loading loadingMsg
    clipboardClearAt clipboardActive auditLogger lastActivity sessionLocked lockedPrevView
    set_config set_client set_view set_width set_height set_secrets set_folderTree
    set_currentPath set_displayItems set_cursor set_listOffset set_filterText
    set_filterInput set_selectedSecret set_versions set_versionCursor set_revealedValue
    set_revealVersion set_createInputs set_createFocus set_createLocationIdx
    set_createAddingLoc set_createValueArea set_createEditorMode set_versionInput
    set_templateCursor set_generatedCode set_configInputs set_configFocus
    set_configMenuCursor set_templateListCursor set_recentProjectsCursor set_securityCursor
    set_projectSwitchCursor set_projectSwitchInput set_projectSwitchPrevView
    set_deleteConfirm set_statusMsg set_statusErr set_viewport set_loading set_loadingMsg
    set_clipboardClearAt set_clipboardActive set_auditLogger set_lastActivity
    set_sessionLocked set_lockedPrevView
    w_heap w_env w_trace ] in *.


(** ** The vault *)

Section VaultProperties.
Context `{GoRuntime} `{Widgets}.

Lemma zeroBytes_spec (l : loc) (buf : list byte) (w : World) :
  w_heap w !! l = Some buf →
  ∃ w', zeroBytes (Some l) w = Some (tt, w')
        ∧ w_heap w' !! l = Some (replicate (length buf) x00)
        ∧ (∀ l', l' ≠ l → w_heap w' !! l' = w_heap w !! l')
        ∧ w_env w' = w_env w ∧ w_trace w' = w_trace w.
Proof.
  intros Hl. unfold_M. eexists. split; [reflexivity|]. simpl.
  repeat split.
  - rewrite lookup_alter_eq, Hl. reflexivity.
  - intros l' Hne. by rewrite lookup_alter_ne.
Qed.

(** C8. After [clearRevealedValue], every byte of the buffer the vault
    held is zero (the buffer keeps its length), the vault holds nothing,
    and [getRevealedValueString] then returns the empty string. *)
Theorem clear_zeroes_buffer_and_string_is_empty
    (m : Model) (w : World) (l : loc) (buf : list byte) :
  revealedValue m = Some l →
  w_heap w !! l = Some buf →
  ∃ m' w' buf',
    clearRevealedValue m w = Some (m', w')
    ∧ w_heap w' !! l = Some buf'
    ∧ length buf' = length buf
    ∧ Forall (λ b, b = x00) buf'
    ∧ revealedValue m' = None
    ∧ getRevealedValueString m' w' = Some (""%string, w').
Proof.
  intros Hm Hl.
  destruct (zeroBytes_spec l buf w Hl) as (w' & Hz & Hl' & _).
  exists (set_revealedValue None m), w', (replicate (length buf) x00).
  unfold clearRevealedValue. rewrite Hm. unfold bind at 1. rewrite Hz.
  repeat split; try done.
  - by rewrite length_replicate.
  - apply Forall_forall. intros b Hb. by apply elem_of_replicate in Hb as [-> _].
Qed.

(** An empty vault stays empty, and its display string is empty. *)
Lemma clear_of_empty_vault (m : Model) (w : World) :
  revealedValue m = None →
  clearRevealedValue m w = Some (m, w)
  ∧ getRevealedValueString m w = Some (""%string, w).
Proof.
  intros Hm. unfold clearRevealedValue, getRevealedValueString. by rewrite Hm.
Qed.

End VaultProperties.

Lemma clear_zeroes_buffer_witness :
  ∃ m' w' buf',
    clearRevealedValue vaultModel vaultWorld = Some (m', w')
    ∧ w_heap w' !! 1%positive = Some buf'
    ∧ length buf' = 3%nat
    ∧ Forall (λ b, b = x00) buf'
    ∧ revealedValue m' = None
    ∧ getRevealedValueString m' w' = Some (""%string, w').
Proof.
  apply (clear_zeroes_buffer_and_string_is_empty vaultModel vaultWorld 1%positive
           [x61; x62; x63]); reflexivity.
Defined.

(** ** The audit journal *)

Section AuditProperties.
Context `{GoRuntime}.

Lemma rotate_runs (l : Logger) (w : World) :
  ∃ l' e w' calls, rotate l w = Some ((l', e), w') ∧ extends w w' calls.
Proof.
  unfold rotate, extends. destruct (file l) as [f|]; unfold_M.
  - simpl.
    repeat match goal with
           | |- context [match r_err ?r with _ => _ end] => destruct (r_err r)
           end; simpl; eexists _, _, _, _; (split; [reflexivity|]); simpl;
      rewrite <- ?app_assoc; repeat split; reflexivity.
  - eexists _, _, _, []. split; [reflexivity|]. by rewrite app_nil_r.
Qed.

Lemma rotateIfNeeded_runs (l : Logger) (w : World) :
  ∃ l' e w' calls, rotateIfNeeded l w = Some ((l', e), w') ∧ extends w w' calls.
Proof.
  unfold rotateIfNeeded. destruct (file l) as [f|] eqn:Hf.
  - unfold bind at 1. unfold call at 1. simpl.
    destruct (r_err _).
    + eexists _, _, _, [_]. split; [reflexivity|]. by repeat split.
    + destruct (_ <? _)%Z.
      * eexists _, _, _, [_]. split; [reflexivity|]. by repeat split.
      * edestruct rotate_runs as (l' & e & w' & calls & Hr & Ht & Hh & He).
        rewrite Hr. eexists _, _, _, (_ :: calls). split; [reflexivity|].
        unfold extends. simpl in *. rewrite Ht, Hh, He, <- app_assoc. by repeat split.
  - eexists _, _, _, []. split; [reflexivity|]. unfold extends. by rewrite app_nil_r.
Qed.

Lemma Log_runs (l : Logger) (event : Event) (w : World) :
  ∃ l' e w' calls, Log l event w = Some ((l', e), w') ∧ extends w w' calls.
Proof.
  assert (Hnone : ∀ (l0 : Logger) (e0 : error), ∃ l' e w' calls,
             ret (l0, e0) w = Some ((l', e), w') ∧ extends w w' calls).
  { intros l0 e0. eexists _, _, _, []. split; [reflexivity|].
    unfold extends. by rewrite app_nil_r. }
  unfold Log. destruct (negb (enabled l) || bool_decide (file l = None)); [apply Hnone|].
  destruct (file l) as [f|]; [|apply Hnone].
  assert (Hrest : ∀ (ev : Event) (w0 : World) (pre : list Call), extends w w0 pre →
    ∃ l' e w' calls,
      (let event0 :=
         if bool_decide (User ev = ""%string) && negb (bool_decide (userEmail l = ""%string))
         then set_User (userEmail l) ev else ev in
       let '(data, err) := json_Marshal event0 in
       match err with
       | Some e => ret (l, Some ("failed to marshal audit event: " +:+ e)%string)
       | None =>
           let* r := call (File_Write f (data +:+ GoStrings.newline)%string) in
           match r_err r with
           | Some e => ret (l, Some ("failed to write audit event: " +:+ e)%string)
           | None =>
               let* r := call (File_Sync f) in
               match r_err r with
               | Some e => ret (l, Some ("failed to sync audit log: " +:+ e)%string)
               | None =>
                   let* '(l, err) := rotateIfNeeded l in
                   match err with
                   | Some e =>
                       call (Fprintf_Stderr
                               ("audit: rotation failed: " +:+ e +:+ GoStrings.newline)%string);;
                       ret (l, None)
                   | None => ret (l, None)
                   end
               end
           end
       end) w0 = Some ((l', e), w') ∧ extends w w' calls).
  { intros ev w0 pre (Ht & Hh & He). cbv zeta.
    destruct (json_Marshal _) as [data [e|]].
    { eexists _, _, _, pre. split; [reflexivity|]. done. }
    unfold bind at 1. unfold call at 1.
    destruct (r_err _).
    { eexists _, _, _, (pre ++ [_]). split; [reflexivity|].
      unfold extends. cbn. rewrite Ht, app_assoc. done. }
    unfold bind at 1. unfold call at 1.
    destruct (r_err _).
    { eexists _, _, _, (pre ++ [_; _]). split; [reflexivity|].
      unfold extends. cbn. rewrite Ht, <- !app_assoc. done. }
    unfold bind at 1.
    edestruct rotateIfNeeded_runs as (l' & e & w' & calls & Hr & Ht' & Hh' & He').
    rewrite Hr. cbn in Ht', Hh', He'.
    destruct e as [e|]; unfold_M.
    - eexists _, _, _, (pre ++ [_; _] ++ calls ++ [_]). split; [reflexivity|].
      unfold extends. cbn. rewrite Ht', Hh', He', Ht, <- !app_assoc. done.
    - eexists _, _, _, (pre ++ [_; _] ++ calls). split; [reflexivity|].
      unfold extends. cbn. rewrite Ht', Hh', He', Ht, <- !app_assoc. done. }
  destruct (bool_decide (Timestamp event = ""%string)).
  - unfold bind at 1. unfold bind at 1. unfold call at 1. unfold ret at 1.
    apply (Hrest _ _ [time_Now]). by repeat split.
  - unfold bind at 1. unfold ret at 1. apply (Hrest _ _ []).
    unfold extends. by rewrite app_nil_r.
Qed.

Lemma logEvent_runs (l : Logger) (event : Event) (w : World) :
  ∃ l' w' calls, logEvent l event w = Some (l', w') ∧ extends w w' calls.
Proof.
  unfold logEvent, bind.
  destruct (Log_runs l event w) as (l' & e & w' & calls & Hr & Hext).
  rewrite Hr. by eexists _, _, _.
Qed.



End AuditProperties.



(** ** The namespace tree *)

Section TreeProperties.
Context `{Widgets}.

Lemma folderTree_buildFolderTree (m : Model) :
  folderTree (buildFolderTree m) = treeOf (FolderSeparator (config m)) (secrets m).
Proof. reflexivity. Qed.

Lemma sameMarking_refl a : sameMarking a a.
Proof. by repeat split. Qed.

Lemma sameMarking_trans a b c : sameMarking a b → sameMarking b c → sameMarking a c.
Proof. unfold sameMarking. intuition congruence. Qed.

(** Inserting the parts of a name never changes the marking of a node
    that is already there. *)
Lemma insertParts_keeps sep s parts rest :
  ∀ j cur path n,
    walkPath path cur = Some n →
    ∃ n', walkPath path (insertParts sep s parts j rest cur) = Some n'
          ∧ sameMarking n n'.
Proof.
  induction rest as [|part rest IH]; intros j cur path n Hwalk; simpl.
  - exists n. split; [done | apply sameMarking_refl].
  - case_bool_decide as Hpart; [by apply IH|].
    destruct path as [|p path]; simpl in *.
    + injection Hwalk as <-. eexists. split; [done|]. by repeat split.
    + destruct (Children cur !! p) as [c|] eqn:Hc; [|done].
      destruct (decide (part = p)) as [->|Hne].
      * rewrite lookup_insert_eq, Hc. by apply IH.
      * rewrite lookup_insert_ne, Hc by done. exists n. split; [done | apply sameMarking_refl].
Qed.

Lemma insertSecret_keeps sep s tree path n :
  walkPath path tree = Some n →
  ∃ n', walkPath path (insertSecret sep tree s) = Some n' ∧ sameMarking n n'.
Proof. apply insertParts_keeps. Qed.

Lemma fold_insertSecret_keeps sep l : ∀ tree path n,
  walkPath path tree = Some n →
  ∃ n', walkPath path (fold_left (insertSecret sep) l tree) = Some n' ∧ sameMarking n n'.
Proof.
  induction l as [|s l IH]; intros tree path n Hwalk; simpl.
  - exists n. split; [done | apply sameMarking_refl].
  - destruct (insertSecret_keeps sep s tree path n Hwalk) as (n1 & H1 & Hs1).
    destruct (IH _ _ _ H1) as (n2 & H2 & Hs2).
    exists n2. split; [done | by eapply sameMarking_trans].
Qed.

Lemma walkPath_newItem sep s parts j part p path :
  walkPath (p :: path) (newItem sep s parts j part) = None.
Proof. simpl. by rewrite lookup_empty. Qed.

(** The part at index [k] of what is left to insert gets a node; when
    there was none, the node is the one [newItem] makes for it. *)
Lemma insertParts_creates sep s parts rest :
  ∀ j cur k part,
    rest !! k = Some part → part ≠ ""%string →
    walkPath (segments (take (S k) rest)) cur = None →
    ∃ n, walkPath (segments (take (S k) rest)) (insertParts sep s parts j rest cur) = Some n
         ∧ sameMarking (newItem sep s parts (j + k) part) n.
Proof.
  unfold segments.
  induction rest as [|part0 rest IH]; intros j cur k part Hk Hpart Hnone; [done|].
  simpl insertParts. rewrite firstn_cons, filter_cons in *.
  case_bool_decide as Hp0.
  - subst part0. destruct k as [|k]; [simpl in Hk; congruence|].
    destruct (decide (""%string ≠ ""%string)) as [?|_]; [done|].
    simpl in Hk. replace (j + S k)%nat with (S j + k)%nat by lia. by apply IH.
  - destruct (decide (part0 ≠ ""%string)) as [_|?]; [|done].
    destruct k as [|k].
    + simpl in Hk. injection Hk as ->. rewrite take_0, filter_nil in *. simpl in *.
      rewrite lookup_insert_eq.
      destruct (Children cur !! part) as [c|] eqn:Hc; [done|].
      replace (j + 0)%nat with j by lia.
      destruct (insertParts_keeps sep s parts rest (S j) (newItem sep s parts j part) []
                  (newItem sep s parts j part) eq_refl) as (n' & Hn' & Hs).
      simpl in Hn'. exists n'. split; [by rewrite Hn' | done].
    + simpl in Hk. simpl walkPath in *. rewrite lookup_insert_eq.
      replace (j + S k)%nat with (S j + k)%nat by lia.
      apply IH; [done..|].
      destruct (Children cur !! part0) as [c|] eqn:Hc; [done|].
      destruct (filter (λ p, p ≠ ""%string) (take (S k) rest)) as [|p path] eqn:Hf.
      * exfalso. assert (Hin : part ∈ filter (λ p, p ≠ ""%string) (take (S k) rest)).
        { apply list_elem_of_filter. split; [done|].
          apply list_elem_of_lookup. exists k. rewrite lookup_take_lt by lia. done. }
        rewrite Hf in Hin. by apply not_elem_of_nil in Hin.
      * apply walkPath_newItem.
Qed.

(** The first secret that reaches a path decides the marking of the
    node there: the node is a folder exactly when the name goes on after
    that part, a leaf carrying the secret otherwise.  Secrets inserted
    later leave the marking alone. *)
Lemma first_secret_decides sep (before after : list gcp_Secret) (s : gcp_Secret)
    (k : nat) (part : string) :
  let parts := GoStrings.Split (Secret_Name s) sep in
  let path := segments (take (S k) parts) in
  parts !! k = Some part → part ≠ ""%string →
  walkPath path (treeOf sep before) = None →
  ∃ n, walkPath path (treeOf sep (before ++ s :: after)) = Some n
       ∧ Name n = part
       ∧ IsFolder n = (Z.of_nat k <? len parts - 1)%Z
       ∧ Secret n = (if (Z.of_nat k <? len parts - 1)%Z then None else Some s).
Proof.
  intros parts path Hk Hpart Hnone. unfold treeOf in *.
  rewrite fold_left_app. simpl.
  destruct (insertParts_creates sep s parts parts 0 (fold_left (insertSecret sep) before emptyRoot)
              k part Hk Hpart Hnone) as (n1 & H1 & Hs1).
  destruct (fold_insertSecret_keeps sep after _ _ _ H1) as (n2 & H2 & Hs2).
  exists n2. split; [exact H2|].
  destruct (sameMarking_trans _ _ _ Hs1 Hs2) as (Hname & _ & Hfolder & Hsecret & _).
  simpl in *. by rewrite <- Hname, <- Hfolder, <- Hsecret.
Qed.

(** After the parts of a name have been inserted, the path of the name
    leads to a node. *)
Lemma insertParts_reaches sep s parts rest :
  ∀ j cur, is_Some (walkPath (segments rest) (insertParts sep s parts j rest cur)).
Proof.
  unfold segments.
  induction rest as [|part rest IH]; intros j cur; simpl insertParts; [by eexists|].
  rewrite filter_cons. case_bool_decide as Hpart.
  - subst part. destruct (decide (""%string ≠ ""%string)) as [?|_]; [done|]. apply IH.
  - destruct (decide (part ≠ ""%string)) as [_|?]; [|done].
    simpl. rewrite lookup_insert_eq. apply IH.
Qed.

Lemma segments_app (a b : list string) : segments (a ++ b) = segments a ++ segments b.
Proof. apply filter_app. Qed.

(** A secret in the list has a node at the end of its path. *)
Lemma secret_has_node sep (before after : list gcp_Secret) (s : gcp_Secret) :
  is_Some (walkPath (segments (GoStrings.Split (Secret_Name s) sep))
             (treeOf sep (before ++ s :: after))).
Proof.
  unfold treeOf. rewrite fold_left_app. simpl.
  destruct (insertParts_reaches sep s (GoStrings.Split (Secret_Name s) sep)
              (GoStrings.Split (Secret_Name s) sep) 0
              (fold_left (insertSecret sep) before emptyRoot)) as (n & Hn).
  destruct (fold_insertSecret_keeps sep after _ _ _ Hn) as (n' & Hn' & _).
  by exists n'.
Qed.

(** C5 (as the code has it). The name of [p] is a strict prefix, at a
    segment boundary, of the name of [q], and no secret before them in the
    list reaches the shared name.  The shared name then has the one node
    that [walkPath] finds at its path, and the first of the two in the list
    decides its marking: when [q] comes first, the node is a folder without
    a secret, and the leaf marking of [p] is skipped; when [p] comes first,
    the node stays a leaf carrying [p], and the remaining segments of [q]
    are added below it. *)
Theorem first_to_reach_decides_marking
    (m : Model) (p q : gcp_Secret) (stem ext : list string) (last : string)
    (l1 l2 l3 : list gcp_Secret) :
  let sep := FolderSeparator (config m) in
  let path := segments (stem ++ [last]) in
  let qFirst := folderTree (buildFolderTree (set_secrets (l1 ++ q :: l2 ++ p :: l3) m)) in
  let pFirst := folderTree (buildFolderTree (set_secrets (l1 ++ p :: l2 ++ q :: l3) m)) in
  GoStrings.Split (Secret_Name p) sep = stem ++ [last] →
  GoStrings.Split (Secret_Name q) sep = stem ++ [last] ++ ext →
  last ≠ ""%string →
  ext ≠ [] →
  walkPath path (treeOf sep l1) = None →
  (∃ n, walkPath path qFirst = Some n ∧ IsFolder n = true ∧ Secret n = None)
  ∧ (∃ n, walkPath path pFirst = Some n ∧ IsFolder n = false ∧ Secret n = Some p
          ∧ is_Some (walkPath (path ++ segments ext) pFirst)).
Proof.
  intros sep path qFirst pFirst Hp Hq Hlast Hext Hnone. subst qFirst pFirst.
  rewrite !folderTree_buildFolderTree. change (config (set_secrets _ m)) with (config m).
  change (secrets (set_secrets ?l m)) with l. fold sep.
  assert (Htake : ∀ tail, take (S (length stem)) (stem ++ [last] ++ tail) = stem ++ [last]).
  { intros tail. rewrite app_assoc.
    rewrite take_app_le by (rewrite length_app; simpl; lia).
    apply take_ge. rewrite length_app. simpl. lia. }
  split.
  - destruct (first_secret_decides sep l1 (l2 ++ p :: l3) q (length stem) last)
      as (n & Hn & _ & Hfolder & Hsecret).
    + rewrite Hq. by rewrite lookup_app_r, Nat.sub_diag by lia.
    + done.
    + rewrite Hq, Htake. exact Hnone.
    + rewrite Hq, Htake in Hn. exists n. split; [exact Hn|].
      assert (Hlt : (Z.of_nat (length stem)
                     <? len (GoStrings.Split (Secret_Name q) sep) - 1)%Z = true).
      { rewrite Hq. unfold len. rewrite !length_app. simpl.
        destruct ext; [done|]. simpl. apply Z.ltb_lt. lia. }
      rewrite Hlt in Hfolder, Hsecret. done.
  - destruct (first_secret_decides sep l1 (l2 ++ q :: l3) p (length stem) last)
      as (n & Hn & _ & Hfolder & Hsecret).
    + rewrite Hp. by rewrite lookup_app_r, Nat.sub_diag by lia.
    + done.
    + rewrite Hp. replace (stem ++ [last]) with (stem ++ [last] ++ []) by done.
      rewrite Htake. exact Hnone.
    + rewrite Hp in Hn. replace (stem ++ [last]) with (stem ++ [last] ++ []) in Hn by done.
      rewrite Htake in Hn. exists n. split; [exact Hn|].
      assert (Hlt : (Z.of_nat (length stem)
                     <? len (GoStrings.Split (Secret_Name p) sep) - 1)%Z = false).
      { rewrite Hp. unfold len. rewrite length_app. simpl. apply Z.ltb_ge. lia. }
      rewrite Hlt in Hfolder, Hsecret. repeat (split; [done|]).
      pose proof (secret_has_node sep (l1 ++ p :: l2) l3 q) as Hq_node.
      rewrite Hq, <- app_assoc in Hq_node. simpl in Hq_node.
      unfold path. by rewrite <- segments_app, <- app_assoc.
Qed.

End TreeProperties.

Lemma first_to_reach_decides_marking_witness :
  (∃ n, walkPath ["db"%string]
          (folderTree (buildFolderTree
             (set_secrets ([] ++ secretNamed "db-password" :: [] ++ secretNamed "db" :: [])
                hyphenModel)))
        = Some n ∧ IsFolder n = true ∧ Secret n = None)
  ∧ (∃ n, walkPath ["db"%string]
            (folderTree (buildFolderTree
               (set_secrets ([] ++ secretNamed "db" :: [] ++ secretNamed "db-password" :: [])
                  hyphenModel)))
          = Some n ∧ IsFolder n = false ∧ Secret n = Some (secretNamed "db")
          ∧ is_Some (walkPath (["db"%string] ++ ["password"%string])
                       (folderTree (buildFolderTree
                          (set_secrets
                             ([] ++ secretNamed "db" :: [] ++ secretNamed "db-password" :: [])
                             hyphenModel))))).
Proof.
  apply (first_to_reach_decides_marking hyphenModel (secretNamed "db") (secretNamed "db-password")
           [] ["password"%string] "db" [] [] []); try reflexivity; discriminate.
Defined.

(** With the separator ["-"] and the secrets ["db"] and ["db-password"]
    listed in this order, the node of the shared name ["db"] is not marked
    as a folder: it is the leaf of the secret ["db"], with the node of
    ["password"] below it. *)
Lemma leaf_listed_first_is_not_folder :
  ∃ n, walkPath ["db"%string]
         (folderTree (buildFolderTree
            (set_secrets [secretNamed "db"; secretNamed "db-password"] hyphenModel))) = Some n
       ∧ IsFolder n = false
       ∧ Secret n = Some (secretNamed "db")
       ∧ is_Some (Children n !! "password"%string).
Proof.
  eexists. split; [vm_compute; reflexivity|].
  repeat split. vm_compute. eexists. reflexivity.
Qed.

(** ** The displayed list *)

Section DisplayList.
Context `{Widgets}.

Local Open Scope Z_scope.

(** When the current path leads to a node, [updateDisplayItems] leaves the
    cursor on an item of the list (at 0 when the list is empty) and the
    scroll offset at 0. *)
Lemma updateDisplayItems_clamps (m : Model) (current : FolderItem) :
  walkPath (currentPath m) (folderTree m) = Some current →
  let m' := updateDisplayItems m in
  listOffset m' = 0
  ∧ (displayItems m' = [] → cursor m' = 0)
  ∧ (displayItems m' ≠ [] → 0 ≤ cursor m' ≤ len (displayItems m') - 1).
Proof.
  intros Hwalk. unfold updateDisplayItems. simpl. rewrite Hwalk.
  set (items := sortSlice itemLess _). simpl.
  assert (Hlen : 0 ≤ len items) by (unfold len; lia).
  split; [reflexivity|].
  destruct (len items <=? cursor m) eqn:Hc; simpl;
    [apply Z.leb_le in Hc | apply Z.leb_gt in Hc].
  - destruct (len items - 1 <? 0) eqn:Hneg; simpl;
      [apply Z.ltb_lt in Hneg | apply Z.ltb_ge in Hneg].
    + split; [done|]. intros Hne. destruct items; [done|]. unfold len in *. simpl in *. lia.
    + split; [|lia]. intros ->. unfold len in *. simpl in *. lia.
  - destruct (cursor m <? 0) eqn:Hneg; simpl;
      [apply Z.ltb_lt in Hneg | apply Z.ltb_ge in Hneg].
    + split; [done|]. intros Hne. destruct items; [done|]. unfold len in *. simpl in *. lia.
    + split; [|lia]. intros ->. unfold len in *. simpl in *. lia.
Qed.

(** When the current path leads nowhere, [updateDisplayItems] returns as
    soon as it has emptied the list: the cursor and the scroll offset keep
    the values they had. *)
Lemma updateDisplayItems_lost_path (m : Model) :
  walkPath (currentPath m) (folderTree m) = None →
  let m' := updateDisplayItems m in
  displayItems m' = [] ∧ cursor m' = cursor m ∧ listOffset m' = listOffset m.
Proof. intros Hwalk. unfold updateDisplayItems. simpl. by rewrite Hwalk. Qed.

End DisplayList.


(** ** The controller *)

Section ControllerProperties.
Context `{GoRuntime} `{Widgets} (screens : Screens).

Local Open Scope Z_scope.

Lemma key_or_not (msg : Msg) : (∃ k, msg = tea_KeyMsg k) ∨ (∀ k, msg ≠ tea_KeyMsg k).
Proof. destruct msg; [left; by eexists | right; intros ? [=] ..]. Qed.

(** C7. While the session is locked, a key other than the unlock keys
    (enter and space) changes no field of the state but [lastActivity],
    which takes the reading of the clock; nothing else happens in the world
    than this reading. *)
Theorem locked_key_only_touches_lastActivity (m : Model) (w : World) (msg : KeyMsg) :
  sessionLocked m = true →
  KeyMsg_String msg ≠ "enter"%string →
  KeyMsg_String msg ≠ " "%string →
  ∃ cmd,
    Update screens m (tea_KeyMsg msg) w
    = Some ((set_lastActivity (r_time (reply w 0)) m, cmd), after w [time_Now])
    ∧ (cmd = tea_Quit ∨ cmd = CmdNil).
Proof.
  intros Hlocked Henter Hspace.
  cbv beta iota zeta delta [Update trackActivity bind ret Now call reply after].
  rewrite Nat.add_0_r.
  case_bool_decide as Hquit.
  - exists tea_Quit. split; [reflexivity | by left].
  - change (sessionLocked (set_lastActivity _ m)) with (sessionLocked m). rewrite Hlocked.
    unfold updateLocked, keyIn. cbn [existsb].
    rewrite (proj2 (String.eqb_neq _ _) Henter), (proj2 (String.eqb_neq _ _) Hspace).
    cbn [orb].
    destruct (KeyMsg_String msg =? "q")%string.
    + exists tea_Quit. split; [reflexivity | by left].
    + exists CmdNil. split; [reflexivity | by right].
Qed.

Lemma set_auditLogger_id (m : Model) : set_auditLogger (auditLogger m) m = m.
Proof. by destruct m. Qed.

(** Writing to the journal changes the journal only. *)
Lemma audit_runs (m : Model) (logIt : Logger → M Logger) (w : World) :
  (∀ l w0, ∃ l' w' calls, logIt l w0 = Some (l', w') ∧ extends w0 w' calls) →
  ∃ lg w' calls, audit m logIt w = Some (set_auditLogger lg m, w') ∧ extends w w' calls.
Proof.
  intros Hlog. unfold audit. destruct (auditLogger m) as [l|] eqn:Hl.
  - destruct (Hlog l w) as (l' & w' & calls & Hrun & Hext).
    unfold bind, ret. rewrite Hrun. by eexists _, _, _.
  - exists None, w, []. rewrite <- Hl, set_auditLogger_id. split; [done|].
    unfold extends. by rewrite app_nil_r.
Qed.

Ltac run_audit :=
  match goal with
  | |- context [audit ?m ?f ?w] =>
      let lg := fresh "lg" in let w' := fresh "w'" in let calls := fresh "calls" in
      let Hrun := fresh "Hrun" in let Hext := fresh "Hext" in
      destruct (audit_runs m f w) as (lg & w' & calls & Hrun & Hext);
      [intros; apply logEvent_runs | rewrite Hrun]
  end.

(** C6. A completion message that carries an error sets the error status,
    whose text ends with the error, hands back no task and leaves the view
    as it was. *)
Theorem failed_completion_keeps_view (m : Model) (w : World) (msg : Msg) (e : string) :
  completionError msg = Some e →
  ∃ m' w' calls,
    Update screens m msg w = Some ((m', CmdNil), w')
    ∧ extends w w' calls
    ∧ statusErr m' = true
    ∧ (∃ prefix, statusMsg m' = (prefix +:+ e)%string)
    ∧ view m' = view m.
Proof.
  intros Herr.
  destruct msg; simpl in Herr; try discriminate; subst;
    cbv beta iota zeta delta [Update trackActivity bind ret stay];
    try destruct (selectedSecret _); try run_audit;
    eexists _, _, _; (split; [reflexivity|]); (split; [eassumption || (unfold extends; by rewrite app_nil_r) |]);
    (split; [reflexivity|]); (split; [by eexists | reflexivity]).
Qed.

Lemma World_eta (w : World) : withHeap (w_heap w) w = w.
Proof. by destruct w. Qed.

Lemma set_clipboardActive_id (m : Model) : set_clipboardActive (clipboardActive m) m = m.
Proof. by destruct m. Qed.

Lemma set_revealedValue_id (m : Model) : set_revealedValue (revealedValue m) m = m.
Proof. by destruct m. Qed.

Lemma zeroBytes_runs (b : slice) (w : World) :
  zeroBytes b w = Some (tt, withHeap (zeroedHeap b (w_heap w)) w).
Proof. destruct b; [reflexivity|]. simpl. by rewrite World_eta. Qed.

Lemma clearRevealedValue_runs (m : Model) (w : World) :
  clearRevealedValue m w
  = Some (set_revealedValue None m, withHeap (zeroedHeap (revealedValue m) (w_heap w)) w).
Proof.
  unfold clearRevealedValue. destruct (revealedValue m) as [l|] eqn:Hl.
  - unfold bind. by rewrite zeroBytes_runs.
  - simpl. by rewrite World_eta, <- Hl, set_revealedValue_id.
Qed.

Lemma zeroedHeap_lookup (l : loc) (buf : list byte) (h : gmap loc (list byte)) :
  h !! l = Some buf →
  zeroedHeap (Some l) h !! l = Some (replicate (length buf) x00).
Proof. intros Hl. simpl. by rewrite lookup_alter_eq, Hl. Qed.

(** The comparison of the session check, [time.Since(lastActivity) >
    timeout]: it holds as soon as more than the configured minutes have
    passed, whatever the wrap-around of the product. *)
Lemma lock_condition (minutes : Z) (now last : Time) :
  0 < minutes →
  minutes * Minute < now - last →
  (mulDuration minutes Minute <? Sub now last) = true.
Proof.
  intros Hpos Hgt. apply Z.ltb_lt.
  unfold mulDuration, wrap64, Sub, minInt64, maxInt64, Minute, Second in *.
  pose proof (Z.div_mod (minutes * (60 * 1000000000) + 2 ^ 63) (2 ^ 64) ltac:(lia)) as Hdm.
  pose proof (Z.mod_pos_bound (minutes * (60 * 1000000000) + 2 ^ 63) (2 ^ 64) ltac:(lia)) as Hb.
  set (q := (minutes * (60 * 1000000000) + 2 ^ 63) `div` 2 ^ 64) in *.
  set (r := (minutes * (60 * 1000000000) + 2 ^ 63) `mod` 2 ^ 64) in *.
  change (2 ^ 63) with 9223372036854775808 in *.
  change (2 ^ 64) with 18446744073709551616 in *.
  lia.
Qed.

(** A session check on a locked session reads the clock at most once and
    changes nothing else. *)
Lemma locked_check_is_idle (m : Model) (w : World) (t : Time) :
  sessionLocked m = true →
  ∃ clock, Update screens m (sessionTimeoutMsg t) w
           = Some ((m, tea_Batch [sessionTimeoutTickCmd]), after w clock)
           ∧ (clock = [] ∨ clock = [time_Now]).
Proof.
  intros Hlocked.
  cbv beta iota zeta delta [Update trackActivity bind ret Now call].
  destruct (_ && _).
  - rewrite Hlocked, andb_false_r. exists [time_Now]. split; [reflexivity | by right].
  - exists []. split; [|by left]. unfold after. rewrite app_nil_r. by destruct w.
Qed.

Lemma locked_checks_are_idle (m : Model) (ts : list Time) : ∀ w,
  sessionLocked m = true →
  ∃ w', handleAll screens m (sessionTimeoutMsg <$> ts) w
        = Some ((m, (λ _, tea_Batch [sessionTimeoutTickCmd]) <$> ts), w')
        ∧ w_heap w' = w_heap w
        ∧ ∃ clock, w_trace w' = w_trace w ++ clock ∧ Forall (λ c, c = time_Now) clock.
Proof.
  induction ts as [|t ts IH]; intros w Hlocked; rewrite ?fmap_cons; cbn [handleAll].
  - exists w. split; [reflexivity|]. split; [reflexivity|].
    exists []. by rewrite app_nil_r.
  - destruct (locked_check_is_idle m w t Hlocked) as (clock & Hrun & Hclock).
    destruct (IH (after w clock) Hlocked) as (w' & Hrest & Hheap & clock' & Htrace & Hall).
    unfold bind at 1. rewrite Hrun. cbv beta iota. unfold bind at 1. rewrite Hrest.
    exists w'. split; [reflexivity|]. split; [by rewrite Hheap|].
    exists (clock ++ clock'). split.
    + rewrite Htrace. simpl. by rewrite app_assoc.
    + apply Forall_app. split; [|done]. destruct Hclock as [-> | ->]; by repeat constructor.
Qed.

(** C2 (as the code has it). With an inactivity timeout of [minutes > 0]
    and lock-on-timeout on, a session check that finds more than [minutes]
    minutes since the last activity of a session that is not locked: moves
    to the locked view, records the view it leaves, zeroes and drops the
    revealed buffer, clears the clipboard when a copy is pending, and, when
    a journal is attached, has it log the session lock; without a journal
    nothing is logged.  The checks that follow while the session is locked
    leave the state as it is and only read the clock. *)
Theorem inactivity_locks_once (m : Model) (w : World) (t : Time) :
  let minutes := InactivityTimeout (Session (config m)) in
  let now := r_time (reply w 0) in
  let w1 := {| w_heap := zeroedHeap (revealedValue m) (w_heap w);
               w_env := w_env w;
               w_trace := w_trace w ++ [time_Now]
                            ++ (if clipboardActive m then [clipboard_Clear] else []) |} in
  0 < minutes →
  LockOnTimeout (Session (config m)) = true →
  minutes * Minute < now - lastActivity m →
  sessionLocked m = false →
  ∃ m' w',
    Update screens m (sessionTimeoutMsg t) w
    = Some ((m', tea_Batch [sessionTimeoutTickCmd]), w')
    ∧ view m' = ViewLocked
    ∧ sessionLocked m' = true
    ∧ lockedPrevView m' = view m
    ∧ revealedValue m' = None
    ∧ (∀ l buf, revealedValue m = Some l → w_heap w !! l = Some buf →
         w_heap w' !! l = Some (replicate (length buf) x00))
    ∧ clipboardActive m' = false
    ∧ match auditLogger m with
      | Some lg =>
          ∃ lg', LogSessionLock lg (ProjectID (config m)) "inactivity_timeout" w1
                 = Some (lg', w')
                 ∧ auditLogger m' = Some lg'
      | None => w' = w1 ∧ auditLogger m' = None
      end
    ∧ (∀ (ts : list Time) (w2 : World),
         ∃ w3, handleAll screens m' (sessionTimeoutMsg <$> ts) w2
               = Some ((m', (λ _, tea_Batch [sessionTimeoutTickCmd]) <$> ts), w3)
               ∧ w_heap w3 = w_heap w2
               ∧ ∃ clock, w_trace w3 = w_trace w2 ++ clock ∧ Forall (λ c, c = time_Now) clock).
Proof.
  intros minutes now w1 Hpos Hlock Hidle Hunlocked.
  assert (Hcond : (mulDuration minutes Minute <? Sub now (lastActivity m)) = true)
    by (by apply lock_condition).
  set (locked := set_clipboardActive false
                   (set_revealedValue None
                      (set_view ViewLocked
                         (set_lockedPrevView (view m) (set_sessionLocked true m))))).
  assert (Hrun : Update screens m (sessionTimeoutMsg t) w
                 = (let* m1 := audit locked
                                 (λ l, LogSessionLock l (ProjectID (config m)) "inactivity_timeout") in
                    ret (m1, tea_Batch [sessionTimeoutTickCmd])) w1).
  { cbv beta iota zeta delta [Update trackActivity bind ret Now call].
    apply Z.ltb_lt in Hpos. fold minutes. rewrite Hpos, Hlock. cbn [andb].
    subst now. unfold reply in Hcond. rewrite Nat.add_0_r in Hcond. rewrite Hcond, Hunlocked.
    cbn [negb andb]. rewrite clearRevealedValue_runs. unfold withHeap. fields.
    subst w1 locked.
    destruct (clipboardActive m) eqn:Hclip; fields;
      rewrite <- ?app_assoc, ?app_nil_r; cbn [app]; [reflexivity|].
    set (m1 := set_revealedValue _ _).
    rewrite <- (set_clipboardActive_id m1) at 1 2. subst m1. fields. by rewrite Hclip. }
  rewrite Hrun. unfold audit. change (auditLogger locked) with (auditLogger m).
  destruct (auditLogger m) as [lg|] eqn:Hlg.
  - destruct (logEvent_runs lg
                (mkEvent EventSessionLock ResultSuccess (ProjectID (config m)) "" ""
                   {[ "reason"%string := "inactivity_timeout"%string ]} "") w1)
      as (lg' & w' & calls & Hlog & Hext).
    exists (set_auditLogger (Some lg') locked), w'.
    unfold LogSessionLock in *. cbv beta iota zeta delta [bind ret]. rewrite Hlog.
    split; [reflexivity|]. subst locked. fields.
    repeat (split; [reflexivity|]).
    split.
    { intros l buf Hl Hbuf. destruct Hext as (_ & Hheap & _). rewrite Hheap. subst w1. fields.
      rewrite Hl. by apply zeroedHeap_lookup. }
    split; [reflexivity|]. split; [by exists lg'|].
    intros ts w2. by apply locked_checks_are_idle.
  - exists locked, w1. cbv beta iota zeta delta [bind ret].
    split; [reflexivity|]. subst locked. fields.
    repeat (split; [reflexivity|]).
    split.
    { intros l buf Hl Hbuf. subst w1. fields. rewrite Hl. by apply zeroedHeap_lookup. }
    split; [reflexivity|]. split; [done|].
    intros ts w2. by apply locked_checks_are_idle.
Qed.

Ltac split_key key :=
  unfold keyIn; cbn [existsb];
  repeat match goal with
         | |- context [String.eqb key ?lit] =>
             destruct (String.eqb_spec key lit) as [->|?]; cbn [orb andb negb existsb String.eqb Ascii.eqb Bool.eqb]
         end.

Lemma key_step_on_vault (m : Model) (w : World) (k : KeyMsg) (l : loc) (buf : list byte)
    (m' : Model) (cmd : Cmd) (w' : World) :
  revealedValue m = Some l →
  w_heap w !! l = Some buf →
  view m = ViewReveal ∨ view m = ViewDetail →
  Update screens m (tea_KeyMsg k) w = Some ((m', cmd), w') →
  if releases m (tea_KeyMsg k) w
  then revealedValue m' = None ∧ w_heap w' !! l = Some (replicate (length buf) x00)
  else revealedValue m' = Some l ∧ w_heap w' !! l = Some buf.
Proof.
  intros Hl Hbuf Hview.
  cbv beta iota zeta delta [Update trackActivity bind ret Now call releases].
  fields.
  case_bool_decide as Hquit; cbn [negb andb].
  { intros [= <- <- <-]. fields. done. }
  remember (KeyMsg_String k) as key eqn:Hkey.
  destruct (sessionLocked m) eqn:Hlocked; cbn [negb andb].
  { unfold updateLocked. rewrite <- Hkey. fields.
    cbv beta iota zeta delta [bind ret Now call stay].
    split_key key; try (intros [= <- <- <-]; fields; done).
    all: run_audit; destruct Hext as (_ & Hheap & _);
      intros [= <- <- <-]; fields; split; congruence. }
  destruct (bool_decide (key = "ctrl+p"%string) && _ && _ && _) eqn:Hswitch.
  { intros [= <- <- <-]. fields.
    apply andb_prop in Hswitch as [Hswitch _]. apply andb_prop in Hswitch as [Hswitch _].
    apply andb_prop in Hswitch as [Hswitch _]. apply bool_decide_eq_true in Hswitch. rewrite Hswitch.
    destruct Hview as [-> | ->]; cbn; rewrite ?andb_false_r; done. }
  clear Hswitch. unfold updateView. fields.
  destruct Hview as [Hview | Hview]; rewrite Hview.
  - unfold updateReveal. rewrite <- Hkey. fields.
    cbv beta iota zeta delta [bind ret Now call stay lenBytes readBytes getHeap].
    rewrite Hl. fields. rewrite ?zeroBytes_runs. unfold withHeap. fields. rewrite ?Hbuf. cbn [default].
    split_key key;
      repeat match goal with
             | |- context [if ?b then _ else _] => destruct b
             | |- context [match r_err ?r with _ => _ end] => destruct (r_err r)
             end;
      intros [= <- <- <-]; fields; rewrite ?Hl; try done;
      (split; [done | by apply zeroedHeap_lookup]).
  - unfold updateDetail. rewrite <- Hkey. fields.
    destruct (loading m); cbn [negb andb].
    { cbv beta iota zeta delta [stay ret]. intros [= <- <- <-]. fields. done. }
    cbv beta iota zeta delta [bind ret Now call stay index deref panic].
    fields. rewrite ?zeroBytes_runs. unfold withHeap. fields.
    split_key key;
      repeat match goal with
             | |- context [if ?b then _ else _] => destruct b
             | |- context [match ?l !! ?i with _ => _ end] => destruct (l !! i)
             | |- context [match selectedSecret ?x with _ => _ end] => destruct (selectedSecret x)
             end;
      try discriminate;
      rewrite ?zeroBytes_runs; unfold withHeap; fields;
      intros [= <- <- <-]; fields; rewrite ?Hl; try done;
      (split; [done | by apply zeroedHeap_lookup]).
Qed.

Lemma zeroedHeap_lookup_again (b : slice) (l : loc) (n : nat) (h : gmap loc (list byte)) :
  h !! l = Some (replicate n x00) →
  zeroedHeap b h !! l = Some (replicate n x00).
Proof.
  intros Hl. destruct b as [v|]; [|done]. simpl.
  destruct (decide (v = l)) as [->|Hne].
  - rewrite lookup_alter_eq, Hl. simpl. by rewrite length_replicate.
  - by rewrite lookup_alter_ne.
Qed.

(** A new value replaces the one in the vault: the old buffer is zeroed,
    and the new one is a fresh buffer. *)
Lemma setRevealedValue_replaces (m : Model) (w : World) (value : slice) (l : loc)
    (buf : list byte) :
  revealedValue m = Some l →
  w_heap w !! l = Some buf →
  ∃ l' w', setRevealedValue value m w = Some (set_revealedValue (Some l') m, w')
           ∧ l' ≠ l
           ∧ w_heap w' !! l = Some (replicate (length buf) x00)
           ∧ w_env w' = w_env w ∧ w_trace w' = w_trace w.
Proof.
  intros Hl Hbuf. unfold setRevealedValue.
  unfold bind at 1. rewrite clearRevealedValue_runs, Hl.
  cbv beta iota zeta delta [bind ret readBytes getHeap putHeap set_heap withHeap]. fields.
  set (h1 := zeroedHeap (Some l) (w_heap w)).
  assert (Hz : h1 !! l = Some (replicate (length buf) x00)) by (by apply zeroedHeap_lookup).
  assert (Hfresh : fresh (dom h1) ≠ l).
  { intros Heq. apply (is_fresh (dom h1)). rewrite Heq. apply elem_of_dom. by eexists. }
  destruct value as [v|]; fields;
    eexists _, _; (split; [f_equal; f_equal; by destruct m|]);
    fields; (split; [done|]); (split; [|done]); by rewrite lookup_insert_ne.
Qed.

(** [updateDisplayItems] assigns the displayed list, the cursor and the
    scroll offset, and nothing else. *)
Lemma updateDisplayItems_frame (m : Model) :
  ∃ d c o, updateDisplayItems m = set_listOffset o (set_cursor c (set_displayItems d m)).
Proof.
  exists (displayItems (updateDisplayItems m)), (cursor (updateDisplayItems m)),
    (listOffset (updateDisplayItems m)).
  unfold updateDisplayItems. fields.
  destruct (walkPath _ _); [|by destruct m].
  repeat match goal with |- context [if ?b then _ else _] => destruct b end;
    by destruct m.
Qed.

Ltac crunch :=
  repeat first
    [ progress fields
    | progress unfold buildFolderTree, LogSessionStart
    | match goal with
      | |- context [updateDisplayItems ?x] =>
          let d := fresh "d" in let c := fresh "c" in let o := fresh "o" in
          destruct (updateDisplayItems_frame x) as (d & c & o & ->)
      | |- context [audit ?m ?f ?w] =>
          let lg := fresh "lg" in let w' := fresh "w'" in let calls := fresh "calls" in
          let Hrun := fresh "Hrun" in let Hheap := fresh "Hheap" in
          destruct (audit_runs m f w) as (lg & w' & calls & Hrun & _ & Hheap & _);
          [intros; apply logEvent_runs | rewrite Hrun; clear Hrun]
      | |- context [logEvent ?l ?e ?w] =>
          let lg := fresh "lg" in let w' := fresh "w'" in let calls := fresh "calls" in
          let Hrun := fresh "Hrun" in let Hheap := fresh "Hheap" in
          destruct (logEvent_runs l e w) as (lg & w' & calls & Hrun & _ & Hheap & _);
          rewrite Hrun; clear Hrun
      | |- context [match ?x with Some _ => _ | None => _ end] =>
          first [ is_var x
                | match x with
                  | auditLogger _ => idtac
                  | selectedSecret _ => idtac
                  | r_err _ => idtac
                  end ];
          destruct x eqn:?
      | |- context [if ?b then _ else _] => destruct b eqn:?
      end ].

Lemma message_step_on_vault (m : Model) (w : World) (msg : Msg) (l : loc) (buf : list byte)
    (m' : Model) (cmd : Cmd) (w' : World) :
  revealedValue m = Some l →
  w_heap w !! l = Some buf →
  (∀ k, msg ≠ tea_KeyMsg k) →
  Update screens m msg w = Some ((m', cmd), w') →
  if releases m msg w
  then revealedValue m' ≠ Some l ∧ w_heap w' !! l = Some (replicate (length buf) x00)
  else revealedValue m' = Some l ∧ w_heap w' !! l = Some buf.
Proof.
  intros Hl Hbuf Hnokey.
  destruct msg as [k| | | |loaded err|? err|? err|? err|? err|? value ? err|? ? err| | | |];
    [by destruct (Hnokey k)|..].
  4: { (* the list of secrets: the rebuilt list is named before the handler
          is unfolded *)
    destruct err as [e|];
      cbv beta iota zeta delta [Update trackActivity bind ret releases stay].
    - crunch. all: intros [= <- <- <-]; fields; split; congruence.
    - destruct (updateDisplayItems_frame
                  (buildFolderTree (set_secrets loaded (set_loading false m))))
        as (d & c & o & Hfr).
      rewrite Hfr. unfold buildFolderTree. fields. crunch.
      all: intros [= <- <- <-]; fields; split; congruence. }
  12: { (* the session check *)
    cbv beta iota zeta delta [Update trackActivity bind ret Now call releases lockDue].
    unfold reply. rewrite Nat.add_0_r.
    destruct (0 <? _); destruct (LockOnTimeout _); cbn [andb];
      try (intros [= <- <- <-]; fields; done).
    destruct (mulDuration _ _ <? _); destruct (sessionLocked m) eqn:Hlocked; cbn [andb negb];
      try (intros [= <- <- <-]; fields; done).
    rewrite clearRevealedValue_runs. unfold LogSessionLock, withHeap. crunch.
    all: intros [= <- <- <-]; fields; (split; [congruence|]).
    all: rewrite Hheap; fields; rewrite Hl; by apply zeroedHeap_lookup. }
  8: { (* a new value *)
    destruct err as [e|].
    - cbv beta iota zeta delta [Update trackActivity bind ret releases stay deref panic].
      crunch. intros [= <- <- <-]. fields. split; congruence.
    - cbv beta iota zeta delta [Update trackActivity releases]. unfold bind at 1, ret at 1.
      unfold bind at 1.
      destruct (setRevealedValue_replaces (set_loading false m) w value l buf Hl Hbuf)
        as (l' & w1 & Hset & Hne & Hz & _).
      rewrite Hset. unfold bind at 1. rewrite zeroBytes_runs.
      cbv beta iota zeta delta [bind ret]. crunch.
      intros [= <- <- <-]. fields. split; [congruence|].
      rewrite Hheap. unfold withHeap. fields. by apply zeroedHeap_lookup_again. }
  all: cbv beta iota zeta delta
         [Update trackActivity bind ret Now call releases lockDue stay deref panic].
  all: crunch; try discriminate.
  all: intros [= <- <- <-]; fields; split; congruence.
Qed.


(** The releasing events run to their end. *)
Lemma key_release_runs (m : Model) (w : World) (k : KeyMsg) (l : loc) (buf : list byte) :
  revealedValue m = Some l →
  w_heap w !! l = Some buf →
  releases m (tea_KeyMsg k) w = true →
  is_Some (Update screens m (tea_KeyMsg k) w).
Proof.
  intros Hl Hbuf.
  cbv beta iota zeta delta [Update trackActivity bind ret Now call releases].
  fields.
  case_bool_decide as Hquit; cbn [negb andb]; [done|].
  remember (KeyMsg_String k) as key eqn:Hkey.
  destruct (sessionLocked m) eqn:Hlocked; cbn [negb andb]; [done|].
  destruct (bool_decide (key = "ctrl+p"%string) && _ && _ && _); [intros _; by eexists|].
  unfold updateView. fields.
  destruct (view m) eqn:Hview; try done.
  - unfold updateDetail. rewrite <- Hkey. fields.
    destruct (loading m); cbn [negb andb]; [done|].
    cbv beta iota zeta delta [bind ret Now call stay index deref panic].
    fields. rewrite ?zeroBytes_runs. unfold withHeap. fields.
    split_key key; intros Hrel; try discriminate Hrel;
      rewrite ?zeroBytes_runs; by eexists.
  - unfold updateReveal. rewrite <- Hkey. fields.
    cbv beta iota zeta delta [bind ret Now call stay lenBytes readBytes getHeap].
    rewrite Hl. fields. rewrite ?zeroBytes_runs. unfold withHeap. fields.
    split_key key; intros Hrel; try discriminate Hrel;
      rewrite ?zeroBytes_runs; by eexists.
Qed.

Lemma message_release_runs (m : Model) (w : World) (msg : Msg) (l : loc) (buf : list byte) :
  revealedValue m = Some l →
  w_heap w !! l = Some buf →
  (∀ k, msg ≠ tea_KeyMsg k) →
  releases m msg w = true →
  is_Some (Update screens m msg w).
Proof.
  intros Hl Hbuf Hnokey.
  destruct msg as [k| | | |loaded err|? err|? err|? err|? err|? value ? err|? ? err| | | |];
    [by destruct (Hnokey k)|..]; try discriminate.
  - (* a new value *)
    destruct err as [e|]; [discriminate|]. intros _.
    cbv beta iota zeta delta [Update trackActivity]. unfold bind at 1, ret at 1.
    unfold bind at 1.
    destruct (setRevealedValue_replaces (set_loading false m) w value l buf Hl Hbuf)
      as (l' & w1 & Hset & _).
    rewrite Hset. unfold bind at 1. rewrite zeroBytes_runs.
    cbv beta iota zeta delta [bind ret]. crunch. all: by eexists.
  - (* the session check *)
    cbv beta iota zeta delta [Update trackActivity bind ret Now call releases lockDue].
    unfold reply. rewrite Nat.add_0_r. intros Hdue.
    apply andb_prop in Hdue as [Hdue Hunlocked]. apply andb_prop in Hdue as [Hdue Hcond].
    apply andb_prop in Hdue as [Hpos Hlock].
    rewrite Hpos, Hlock. cbn [andb]. rewrite Hcond, Hunlocked. cbn [andb].
    rewrite clearRevealedValue_runs. unfold LogSessionLock, withHeap. crunch.
    all: by eexists.
Qed.

(** C1 (as the code has it). For a state that holds a revealed buffer, in
    the reveal or the detail view when the event is a key: the events in
    [releases] (a new value, the session lock, the back keys of the reveal
    and detail views) are handled to their end, leave every byte of the
    buffer zero, and the vault no longer refers to it; every other event,
    the project-switch combination among them, leaves the buffer and the
    reference to it as they were. *)
Theorem vault_zeroed_when_released (m : Model) (w : World) (msg : Msg) (l : loc)
    (buf : list byte) :
  revealedValue m = Some l →
  w_heap w !! l = Some buf →
  (∀ k, msg = tea_KeyMsg k → view m = ViewReveal ∨ view m = ViewDetail) →
  (releases m msg w = true → is_Some (Update screens m msg w))
  ∧ ∀ (m' : Model) (cmd : Cmd) (w' : World),
      Update screens m msg w = Some ((m', cmd), w') →
      if releases m msg w
      then revealedValue m' ≠ Some l ∧ w_heap w' !! l = Some (replicate (length buf) x00)
      else revealedValue m' = Some l ∧ w_heap w' !! l = Some buf.
Proof.
  intros Hl Hbuf Hview.
  destruct (key_or_not msg) as [[k ->]|Hnokey].
  - split; [by apply (key_release_runs m w k l buf)|].
    intros m' cmd w' Hrun.
    pose proof (key_step_on_vault m w k l buf m' cmd w' Hl Hbuf (Hview k eq_refl) Hrun) as Hstep.
    destruct (releases m (tea_KeyMsg k) w); [|done].
    destruct Hstep as [-> ?]. done.
  - split; [by apply (message_release_runs m w msg l buf)|].
    intros m' cmd w'. by apply (message_step_on_vault m w msg l buf m' cmd w').
Qed.

(** A copy that completed with auto-clear on: the deadline becomes the
    clock's reading plus the timeout, whatever it was before, and one tick
    task is handed back, whether or not a timer was already running. *)
Lemma copy_sets_deadline (m : Model) (w : World) (name version : string) :
  AutoClear (Clipboard (config m)) = true →
  0 < TimeoutSeconds (Clipboard (config m)) →
  ∃ m' w' t0,
    Update screens m (secretCopiedMsg name version None) w
    = Some ((m', clipboardTickCmd), w')
    ∧ lastReading w w' t0
    ∧ clipboardActive m' = true
    ∧ clipboardClearAt m' = Add t0 (mulDuration (TimeoutSeconds (Clipboard (config m))) Second)
    ∧ config m' = config m
    ∧ w_env w' = w_env w.
Proof.
  intros Hauto Hpos. apply Z.ltb_lt in Hpos.
  cbv beta iota zeta delta [Update trackActivity bind ret Now call].
  destruct (audit_runs (set_loading false m)
              (λ l, LogSecretCopy l (ProjectID (config (set_loading false m))) name version
                      ResultSuccess "") w) as (lg & w1 & calls & Hrun & Htrace & Hheap & Henv).
  { intros. apply logEvent_runs. }
  rewrite Hrun. fields. rewrite Hauto, Hpos. cbn [andb].
  eexists _, _, _. split; [reflexivity|]. fields.
  split; [|done]. exists calls. fields. rewrite Htrace, Henv, app_assoc. done.
Qed.

(** A tick while a timer is running: the clear task is handed back once
    the clock has reached the deadline, another tick before that; the
    deadline stays. *)
Lemma tick_checks_deadline (m : Model) (w : World) (t : Time) :
  clipboardActive m = true →
  let now := r_time (reply w 0) in
  ∃ m' cmd,
    Update screens m (clipboardTickMsg t) w = Some ((m', cmd), after w [time_Now])
    ∧ (cmd = clearClipboardCmd ∧ clipboardClearAt m ≤ now
       ∨ cmd = clipboardTickCmd ∧ now < clipboardClearAt m)
    ∧ clipboardActive m' = true
    ∧ clipboardClearAt m' = clipboardClearAt m
    ∧ config m' = config m.
Proof.
  intros Hactive now. subst now. unfold reply. rewrite Nat.add_0_r.
  cbv beta iota zeta delta [Update trackActivity bind ret Now call stay after].
  rewrite Hactive. cbn [negb].
  destruct (Sub _ _ <=? 0) eqn:Hsub; [apply Z.leb_le in Hsub | apply Z.leb_gt in Hsub];
    eexists _, _; (split; [reflexivity|]); fields; (split; [|done]);
    unfold Sub, minInt64, maxInt64 in Hsub; [left | right]; (split; [done|]); lia.
Qed.



(** Before the deadline a tick is answered by another tick. *)
Lemma early_tick_ticks_again (m : Model) (w : World) (t : Time) :
  clipboardActive m = true →
  r_time (reply w 0) < clipboardClearAt m →
  ∃ m', Update screens m (clipboardTickMsg t) w
        = Some ((m', clipboardTickCmd), after w [time_Now])
        ∧ clipboardActive m' = true
        ∧ clipboardClearAt m' = clipboardClearAt m.
Proof.
  intros Hactive Hearly.
  destruct (tick_checks_deadline m w t Hactive) as (m' & cmd & Hrun & Hcmd & Ha & Hd & _).
  destruct Hcmd as [[_ Hdue] | [-> _]]; [lia|]. by exists m'.
Qed.

(** C4 (as the code has it). With auto-clear on and a positive timeout,
    whether or not a timer is already running: the completions of [n > 0]
    copies in a row hand back [n] tick tasks, one each, none being
    cancelled, and leave one deadline, that of the last copy; and as long as
    this deadline stands and has not been reached, every tick delivered is
    answered by another tick task. *)
Theorem copies_share_deadline_and_stack_ticks (copies : list (string * string)) :
  ∀ (m : Model) (w : World),
    AutoClear (Clipboard (config m)) = true →
    0 < TimeoutSeconds (Clipboard (config m)) →
    copies ≠ [] →
    ∃ m' w' t0,
      handleAll screens m (copiesCompleted copies) w
      = Some ((m', replicate (length copies) clipboardTickCmd), w')
      ∧ lastReading w w' t0
      ∧ clipboardActive m' = true
      ∧ clipboardClearAt m'
        = Add t0 (mulDuration (TimeoutSeconds (Clipboard (config m))) Second)
      ∧ config m' = config m
      ∧ w_env w' = w_env w
      ∧ ∀ (m2 : Model) (w2 : World) (t : Time),
          clipboardActive m2 = true →
          clipboardClearAt m2 = clipboardClearAt m' →
          r_time (reply w2 0) < clipboardClearAt m' →
          ∃ m3, Update screens m2 (clipboardTickMsg t) w2
                = Some ((m3, clipboardTickCmd), after w2 [time_Now])
                ∧ clipboardActive m3 = true
                ∧ clipboardClearAt m3 = clipboardClearAt m'.
Proof.
  assert (Hticks : ∀ m' : Model,
            ∀ (m2 : Model) (w2 : World) (t : Time),
              clipboardActive m2 = true →
              clipboardClearAt m2 = clipboardClearAt m' →
              r_time (reply w2 0) < clipboardClearAt m' →
              ∃ m3, Update screens m2 (clipboardTickMsg t) w2
                    = Some ((m3, clipboardTickCmd), after w2 [time_Now])
                    ∧ clipboardActive m3 = true
                    ∧ clipboardClearAt m3 = clipboardClearAt m').
  { intros m' m2 w2 t Hactive Hsame Hearly. rewrite <- Hsame in *.
    by apply early_tick_ticks_again. }
  induction copies as [|[name version] rest IH]; intros m w Hauto Hpos Hne; [done|].
  unfold copiesCompleted. rewrite fmap_cons. cbn [handleAll fst snd length replicate].
  destruct (copy_sets_deadline m w name version Hauto Hpos)
    as (m1 & w1 & t1 & Hrun1 & (pre1 & Htrace1 & Ht1) & Hactive1 & Hdeadline1 & Hconfig1 & Henv1).
  unfold bind at 1. rewrite Hrun1. cbv beta iota.
  destruct rest as [|c rest].
  - cbn [fmap list_fmap handleAll length replicate]. cbv beta iota zeta delta [bind ret].
    exists m1, w1, t1. split; [done|]. split; [by exists pre1|].
    repeat (split; [done|]). apply Hticks.
  - destruct (IH m1 w1) as (m' & w' & t0 & Hrun & (pre & Htrace & Ht0) & Hactive & Hdeadline
                              & Hconfig & Henv & _); [by rewrite Hconfig1..|done|].
    unfold copiesCompleted in Hrun. unfold bind at 1. rewrite Hrun.
    cbv beta iota zeta delta [ret].
    exists m', w', t0. split; [done|]. split.
    { exists (pre1 ++ [time_Now] ++ pre). split.
      - rewrite Htrace, Htrace1. by rewrite <- !app_assoc.
      - rewrite Ht0, Henv1, Htrace1. by rewrite <- !app_assoc. }
    split; [done|]. split; [by rewrite Hdeadline, Hconfig1|].
    split; [by rewrite Hconfig|]. split; [by rewrite Henv|]. apply Hticks.
Qed.

(** *** No handler but the tick hands back the clear task *)



















(** *** Further properties of the controller *)

(** The quit combination ends the program from every state, locked or
    not: the state changes in [lastActivity] only, so a revealed buffer
    keeps its bytes. *)
Theorem quit_leaves_the_vault (m : Model) (w : World) (k : KeyMsg) :
  KeyMsg_String k = "ctrl+c"%string →
  Update screens m (tea_KeyMsg k) w
  = Some ((set_lastActivity (r_time (reply w 0)) m, tea_Quit), after w [time_Now])
  ∧ revealedValue (set_lastActivity (r_time (reply w 0)) m) = revealedValue m
  ∧ w_heap (after w [time_Now]) = w_heap w.
Proof.
  intros Hkey.
  cbv beta iota zeta delta [Update trackActivity bind ret Now call reply after].
  rewrite Nat.add_0_r, bool_decide_eq_true_2 by done. by repeat split.
Qed.

(** A pointer event refreshes [lastActivity], also while the session is
    locked, and changes nothing else; a message of another type changes
    nothing at all. *)
Theorem pointer_only_touches_lastActivity (m : Model) (w : World) :
  (∀ p : MouseMsg,
     Update screens m (tea_MouseMsg p) w
     = Some ((set_lastActivity (r_time (reply w 0)) m, tea_Batch []), after w [time_Now]))
  ∧ (∀ o : OtherMsg, Update screens m (tea_OtherMsg o) w = Some ((m, tea_Batch []), w)).
Proof.
  split; intros ?;
    cbv beta iota zeta delta [Update trackActivity bind ret Now call reply after];
    by rewrite ?Nat.add_0_r.
Qed.

(** The unlock keys: the session is unlocked, the view recorded at the
    lock comes back, the clock is read twice and its second reading becomes
    [lastActivity], and the journal, when there is one, logs the unlock.  The
    vault is left as it is. *)
Theorem unlock_restores_view (m : Model) (w : World) (k : KeyMsg) :
  sessionLocked m = true →
  KeyMsg_String k = "enter"%string ∨ KeyMsg_String k = " "%string →
  ∃ m' w',
    Update screens m (tea_KeyMsg k) w = Some ((m', CmdNil), w')
    ∧ sessionLocked m' = false
    ∧ view m' = lockedPrevView m
    ∧ lastActivity m' = r_time (reply w 1)
    ∧ statusMsg m' = statusUnlocked
    ∧ statusErr m' = false
    ∧ revealedValue m' = revealedValue m
    ∧ match auditLogger m with
      | Some lg =>
          ∃ lg', LogSessionUnlock lg (ProjectID (config m)) (after w [time_Now; time_Now])
                 = Some (lg', w')
                 ∧ auditLogger m' = Some lg'
      | None => w' = after w [time_Now; time_Now] ∧ auditLogger m' = None
      end.
Proof.
  intros Hlocked Hkey.
  assert (Hquit : KeyMsg_String k ≠ "ctrl+c"%string) by (destruct Hkey as [-> | ->]; discriminate).
  assert (Hin : keyIn (KeyMsg_String k) ["enter"; " "]%string = true)
    by (destruct Hkey as [-> | ->]; reflexivity).
  cbv beta iota zeta delta [Update trackActivity bind ret Now call reply after].
  rewrite bool_decide_eq_false_2 by done. fields. rewrite Hlocked.
  unfold updateLocked. rewrite Hin.
  cbv beta iota zeta delta [bind ret Now call stay]. fields.
  rewrite <- app_assoc. cbn [app]. rewrite length_app. cbn [length].
  unfold audit. fields.
  destruct (auditLogger m) as [lg|] eqn:Hlg.
  - unfold LogSessionUnlock.
    destruct (logEvent_runs lg
                (mkEvent EventSessionUnlock ResultSuccess (ProjectID (config m)) "" "" ∅ "")
                {| w_heap := w_heap w; w_env := w_env w;
                   w_trace := w_trace w ++ [time_Now; time_Now] |})
      as (lg' & w' & calls & Hlog & Hext).
    cbv beta iota zeta delta [bind ret]. rewrite Hlog.
    eexists _, _. split; [reflexivity|]. fields. repeat (split; [reflexivity|]).
    by exists lg'.
  - cbv beta iota zeta delta [bind ret].
    eexists _, _. split; [reflexivity|]. fields. by repeat split.
Qed.

(** A session check that is switched off, by a timeout of zero or less or
    by the lock flag, never locks: it changes neither the state nor the
    world, and does not even read the clock. *)
Theorem disabled_check_never_locks (m : Model) (w : World) (t : Time) :
  InactivityTimeout (Session (config m)) ≤ 0 ∨ LockOnTimeout (Session (config m)) = false →
  Update screens m (sessionTimeoutMsg t) w = Some ((m, tea_Batch [sessionTimeoutTickCmd]), w).
Proof.
  intros Hoff.
  cbv beta iota zeta delta [Update trackActivity bind ret Now call].
  destruct Hoff as [Hle | Hflag].
  - apply Z.ltb_ge in Hle. by rewrite Hle.
  - by rewrite Hflag, andb_false_r.
Qed.

(** The clear message ends the timer: it switches the timer off and keeps
    the deadline; a tick that arrives afterwards changes nothing, reads no
    clock and hands back no task, so the chain of ticks it belongs to
    ends. *)
Theorem clear_message_ends_timer (m : Model) (w : World) :
  ∃ m' w',
    Update screens m clipboardClearMsg w = Some ((m', tea_Batch []), w')
    ∧ clipboardActive m' = false
    ∧ clipboardClearAt m' = clipboardClearAt m
    ∧ statusMsg m' = statusCleared
    ∧ w_heap w' = w_heap w
    ∧ ∀ (t : Time) (w2 : World),
        Update screens m' (clipboardTickMsg t) w2 = Some ((m', CmdNil), w2).
Proof.
  cbv beta iota zeta delta [Update trackActivity bind ret].
  destruct (audit_runs
              (set_statusErr false (set_statusMsg statusCleared (set_clipboardActive false m)))
              LogClipboardClear w) as (lg & w' & calls & Hrun & _ & Hheap & _).
  { intros. apply logEvent_runs. }
  rewrite Hrun. eexists _, _. split; [reflexivity|]. fields.
  repeat (split; [done|]).
  intros t w2. cbv beta iota zeta delta [Update trackActivity bind ret stay]. by fields.
Qed.

(** A new value is copied into a buffer of the vault's own, and the buffer
    it came in is zeroed: the vault shows the value, and does not share
    memory with the message. *)
Theorem revealed_value_is_private_copy (m : Model) (w : World) (name version : string)
    (v : loc) (bytes : list byte) :
  w_heap w !! v = Some bytes →
  revealedValue m ≠ Some v →
  ∃ m' w' l',
    Update screens m (secretValueMsg name (Some v) version None) w
    = Some ((m', tea_Batch []), w')
    ∧ view m' = ViewReveal
    ∧ revealVersion m' = version
    ∧ loading m' = false
    ∧ revealedValue m' = Some l'
    ∧ l' ≠ v
    ∧ w_heap w' !! l' = Some bytes
    ∧ w_heap w' !! v = Some (replicate (length bytes) x00)
    ∧ getRevealedValueString m' w' = Some (string_of_list_byte bytes, w').
Proof.
  intros Hv Hold.
  cbv beta iota zeta delta [Update trackActivity]. unfold bind at 1, ret at 1.
  unfold bind at 1. unfold setRevealedValue.
  unfold bind at 1. rewrite clearRevealedValue_runs. fields.
  set (h1 := zeroedHeap (revealedValue m) (w_heap w)).
  assert (Hv1 : h1 !! v = Some bytes).
  { subst h1. destruct (revealedValue m) as [l|]; [|done]. simpl.
    rewrite lookup_alter_ne; [done | congruence]. }
  assert (Hfresh : fresh (dom h1) ≠ v).
  { intros Heq. apply (is_fresh (dom h1)). rewrite Heq. apply elem_of_dom. by eexists. }
  cbv beta iota zeta delta [bind ret readBytes getHeap putHeap set_heap withHeap zeroBytes].
  fields. rewrite Hv1. cbn [default].
  set (h2 := <[fresh (dom h1) := _]> h1).
  match goal with
  | |- context [audit ?m0 ?f ?w0] =>
      destruct (audit_runs m0 f w0) as (lg & w' & calls & Hrun & _ & Hheap & _);
      [intros; apply logEvent_runs | rewrite Hrun]
  end.
  eexists _, w', (fresh (dom h1)). split; [reflexivity|]. fields.
  repeat (split; [done|]).
  assert (Hcopy : w_heap w' !! fresh (dom h1) = Some bytes).
  { rewrite Hheap. fields. rewrite lookup_alter_ne by done. subst h2.
    rewrite lookup_insert_eq. unfold copyBytes.
    rewrite length_replicate, take_ge, drop_ge by (rewrite ?length_replicate; lia).
    by rewrite app_nil_r. }
  split; [done|]. split.
  { rewrite Hheap. fields. rewrite lookup_alter_eq. subst h2.
    by rewrite lookup_insert_ne, Hv1 by done. }
  unfold getRevealedValueString. fields.
  cbv beta iota zeta delta [bind ret readBytes getHeap]. by rewrite Hcopy.
Qed.

(** The copy key of the reveal view with a value in the vault: the value
    goes to the clipboard; with auto-clear on and a positive timeout the
    deadline is set from a fresh reading of the clock and a tick task is
    handed back, whether or not a timer is already running.  The vault
    keeps its buffer. *)
Theorem reveal_copy_starts_timer (m : Model) (w : World) (k : KeyMsg) (l : loc)
    (b : byte) (bytes : list byte) :
  view m = ViewReveal →
  sessionLocked m = false →
  KeyMsg_String k = "c"%string ∨ KeyMsg_String k = "y"%string →
  revealedValue m = Some l →
  w_heap w !! l = Some (b :: bytes) →
  r_err (reply w 1) = None →
  AutoClear (Clipboard (config m)) = true →
  0 < TimeoutSeconds (Clipboard (config m)) →
  ∃ m',
    Update screens m (tea_KeyMsg k) w
    = Some ((m', clipboardTickCmd),
            after w [time_Now; clipboard_WriteText (string_of_list_byte (b :: bytes)); time_Now])
    ∧ clipboardActive m' = true
    ∧ clipboardClearAt m'
      = Add (r_time (reply w 2)) (mulDuration (TimeoutSeconds (Clipboard (config m))) Second)
    ∧ revealedValue m' = Some l
    ∧ view m' = ViewReveal.
Proof.
  intros Hview Hunlocked Hkey Hl Hbuf Hwrite Hauto Hpos. apply Z.ltb_lt in Hpos.
  assert (Hquit : KeyMsg_String k ≠ "ctrl+c"%string) by (destruct Hkey as [-> | ->]; discriminate).
  assert (Hswitch : KeyMsg_String k ≠ "ctrl+p"%string)
    by (destruct Hkey as [-> | ->]; discriminate).
  assert (Hback : keyIn (KeyMsg_String k) ["esc"; "backspace"; "enter"; "r"]%string = false)
    by (destruct Hkey as [-> | ->]; reflexivity).
  assert (Hcopy : keyIn (KeyMsg_String k) ["c"; "y"]%string = true)
    by (destruct Hkey as [-> | ->]; reflexivity).
  unfold reply in *.
  cbv beta iota zeta delta [Update trackActivity bind ret Now call after].
  rewrite !bool_decide_eq_false_2 by done. fields. rewrite Hunlocked. cbn [andb].
  unfold updateView. fields. rewrite Hview.
  unfold updateReveal. rewrite Hback, Hcopy.
  cbv beta iota zeta delta [bind ret Now call stay lenBytes readBytes getHeap].
  fields. rewrite Hl. cbv beta iota. fields. rewrite Hbuf. cbn [default]. unfold id.
  assert (Hlen : (0 <? len (b :: bytes)) = true)
    by (apply Z.ltb_lt; unfold len; cbn [length]; lia).
  rewrite Hlen. cbv beta iota. fields. rewrite Hbuf. cbn [default]. unfold id.
  rewrite length_app. cbn [length]. rewrite Hwrite. cbv beta iota. fields.
  rewrite Hauto, Hpos. cbn [andb]. cbv beta iota. fields.
  eexists. split; [by rewrite <- !app_assoc|]. fields.
  rewrite !length_app. cbn [length Nat.add]. done.
Qed.

(** The copy key of the generate view starts the timer whenever auto-clear
    is on: the timeout is not required to be positive there, so a timeout
    of zero or less gives a deadline that has already passed. *)
Theorem generate_copy_ignores_timeout_sign (m : Model) (w : World) (k : KeyMsg) :
  view m = ViewGenerate →
  sessionLocked m = false →
  KeyMsg_String k = "c"%string ∨ KeyMsg_String k = "y"%string →
  generatedCode m ≠ ""%string →
  r_err (reply w 1) = None →
  AutoClear (Clipboard (config m)) = true →
  ∃ m',
    Update screens m (tea_KeyMsg k) w
    = Some ((m', clipboardTickCmd),
            after w [time_Now; clipboard_WriteText (generatedCode m); time_Now])
    ∧ clipboardActive m' = true
    ∧ clipboardClearAt m'
      = Add (r_time (reply w 2)) (mulDuration (TimeoutSeconds (Clipboard (config m))) Second)
    ∧ (TimeoutSeconds (Clipboard (config m)) ≤ 0 →
       - maxInt64 ≤ TimeoutSeconds (Clipboard (config m)) * Second →
       clipboardClearAt m' ≤ r_time (reply w 2)).
Proof.
  intros Hview Hunlocked Hkey Hcode Hwrite Hauto.
  assert (Hquit : KeyMsg_String k ≠ "ctrl+c"%string) by (destruct Hkey as [-> | ->]; discriminate).
  assert (Hswitch : KeyMsg_String k ≠ "ctrl+p"%string)
    by (destruct Hkey as [-> | ->]; discriminate).
  assert (Hup : keyIn (KeyMsg_String k) ["up"; "k"]%string = false)
    by (destruct Hkey as [-> | ->]; reflexivity).
  assert (Hdown : keyIn (KeyMsg_String k) ["down"; "j"]%string = false)
    by (destruct Hkey as [-> | ->]; reflexivity).
  assert (Henter : keyIn (KeyMsg_String k) ["enter"]%string = false)
    by (destruct Hkey as [-> | ->]; reflexivity).
  assert (Hcopy : keyIn (KeyMsg_String k) ["c"; "y"]%string = true)
    by (destruct Hkey as [-> | ->]; reflexivity).
  unfold reply in *.
  cbv beta iota zeta delta [Update trackActivity bind ret Now call after].
  rewrite !bool_decide_eq_false_2 by done. fields. rewrite Hunlocked. cbn [andb].
  unfold updateView. fields. rewrite Hview.
  unfold updateGenerate. rewrite Hup, Hdown, Henter, Hcopy. fields.
  rewrite bool_decide_eq_true_2 by done.
  cbv beta iota zeta delta [bind ret Now call stay]. fields.
  rewrite length_app. cbn [length]. rewrite Hwrite. cbv beta iota. fields.
  rewrite Hauto. cbv beta iota. fields.
  eexists. split; [by rewrite <- !app_assoc|]. fields.
  rewrite !length_app. cbn [length Nat.add].
  repeat (split; [done|]).
  intros Hle Hfits. unfold Add, mulDuration, wrap64, maxInt64, Second in *.
  rewrite Z.mod_small by lia. lia.
Qed.

(** Indexing within bounds returns the element. *)
Lemma index_in_bounds {A} (l : list A) (i : Z) :
  0 ≤ i < len l → ∃ x, index l i = ret x ∧ l !! Z.to_nat i = Some x.
Proof.
  intros [Hlo Hhi]. unfold index.
  replace (i <? 0) with false by (symmetry; apply Z.ltb_ge; lia).
  replace (len l <=? i) with false by (symmetry; apply Z.leb_gt; lia).
  cbn [orb].
  destruct (l !! Z.to_nat i) as [x|] eqn:Hx; [by exists x|].
  apply lookup_ge_None in Hx. unfold len in Hhi. lia.
Qed.

Lemma updateAt_head {A} (l : list A) (f : A → A) :
  l ≠ [] → ∃ l', updateAt l 0 f = ret l' ∧ l' ≠ [].
Proof. destruct l as [|x l]; [done|]. intros _. by eexists. Qed.

(** The list view never indexes out of range: when the cursor is on an
    item of a non-empty list (or the list is empty, whatever the cursor),
    and the create form has its first input, every key is handled without a
    panic. *)
Theorem updateList_never_panics (m : Model) (k : KeyMsg) (w : World) :
  (displayItems m ≠ [] → 0 ≤ cursor m < len (displayItems m)) →
  createInputs m ≠ [] →
  is_Some (updateList m k w).
Proof.
  intros Hcursor Hinputs.
  assert (Hidx : (0 <? len (displayItems m)) = true →
                 ∃ item, index (displayItems m) (cursor m) = ret item).
  { intros Hlen. apply Z.ltb_lt in Hlen.
    destruct (index_in_bounds (displayItems m) (cursor m)) as (item & Hitem & _).
    - apply Hcursor. intros Hnil. rewrite Hnil in Hlen. unfold len in Hlen. simpl in Hlen. lia.
    - by exists item. }
  unfold updateList. destruct (loading m); [by eexists|]. cbv zeta.
  repeat match goal with
         | |- context [if keyIn ?key ?cases then _ else _] => destruct (keyIn key cases)
         end.
  all: try (destruct (0 <? len (displayItems m)) eqn:Hlen;
            [destruct (Hidx eq_refl) as (item & Hitem) | by eexists];
            fields; rewrite ?Hitem; cbv beta iota zeta delta [bind ret stay]).
  all: repeat match goal with
         | |- is_Some (Some _) => by eexists
         | |- context [if ?b then _ else _] => destruct b
         | |- context [match Secret ?i with _ => _ end] => destruct (Secret i)
         end.
  all: try (cbv beta iota zeta delta [stay ret]; by eexists).
  (* the key that opens the create form *)
  fields. cbv beta iota zeta delta [bind ret stay]. fields.
  destruct (updateAt_head (createInputs m)
              (textinput_SetValue (GoStrings.Join (currentPath m) (FolderSeparator (config m))))
              Hinputs) as (l1 & Hl1 & Hne1).
  rewrite Hl1. cbv beta iota zeta delta [ret]. fields.
  destruct (0 <? len (currentPath m)).
  - destruct l1 as [|x1 l1]; [done|].
    cbv beta iota zeta delta [bind ret index updateAt len]. cbn. by eexists.
  - destruct l1 as [|x1 l1]; [done|].
    cbv beta iota zeta delta [bind ret index updateAt len]. cbn.
    destruct (0 <? _); by eexists.
Qed.


End ControllerProperties.

(** *** The properties on the sample states *)

Lemma locked_key_witness :
  ∃ cmd,
    Update sampleScreens lockedModel (tea_KeyMsg "j"%string) (sampleWorld ∅)
    = Some ((set_lastActivity (r_time (reply (sampleWorld ∅) 0)) lockedModel, cmd),
            after (sampleWorld ∅) [time_Now])
    ∧ (cmd = tea_Quit ∨ cmd = CmdNil).
Proof.
  apply (locked_key_only_touches_lastActivity sampleScreens lockedModel (sampleWorld ∅)
           "j"%string); [reflexivity | discriminate | discriminate].
Defined.

Lemma failed_completion_witness :
  ∃ m' w' calls,
    Update sampleScreens sampleModel (secretsLoadedMsg [] (Some "permission denied"%string))
      (sampleWorld ∅)
    = Some ((m', CmdNil), w')
    ∧ extends (sampleWorld ∅) w' calls
    ∧ statusErr m' = true
    ∧ (∃ prefix, statusMsg m' = (prefix +:+ "permission denied")%string)
    ∧ view m' = view sampleModel.
Proof.
  apply (failed_completion_keeps_view sampleScreens sampleModel (sampleWorld ∅)
           (secretsLoadedMsg [] (Some "permission denied"%string)) "permission denied"%string).
  reflexivity.
Defined.

Lemma inactivity_locks_once_witness :
  ∃ m' w',
    Update sampleScreens idleVault (sessionTimeoutMsg 0) idleWorld
    = Some ((m', tea_Batch [sessionTimeoutTickCmd]), w')
    ∧ view m' = ViewLocked
    ∧ sessionLocked m' = true
    ∧ lockedPrevView m' = ViewReveal
    ∧ revealedValue m' = None
    ∧ w_heap w' !! 1%positive = Some [x00; x00; x00]
    ∧ clipboardActive m' = false
    ∧ (∃ lg', LogSessionLock sampleLogger "demo-project" "inactivity_timeout"
                {| w_heap := zeroedHeap (Some 1%positive) (w_heap idleWorld);
                   w_env := lateEnv;
                   w_trace := [time_Now; clipboard_Clear] |}
              = Some (lg', w')
              ∧ auditLogger m' = Some lg').
Proof.
  destruct (inactivity_locks_once sampleScreens idleVault idleWorld 0)
    as (m' & w' & Hrun & Hview & Hlocked & Hprev & Hvault & Hzero & Hclip & Hlog & _);
    [reflexivity..|].
  exists m', w'. repeat (split; [assumption|]).
  split; [apply (Hzero 1%positive [x61; x62; x63]); reflexivity|].
  split; assumption.
Defined.

(** Without a journal the session locks and nothing is logged: the only
    call is the reading of the clock. *)
Lemma lock_without_journal_logs_nothing :
  ∃ m', Update sampleScreens silentModel (sessionTimeoutMsg 0) (lateWorld ∅)
        = Some ((m', tea_Batch [sessionTimeoutTickCmd]), after (lateWorld ∅) [time_Now])
        ∧ view m' = ViewLocked
        ∧ sessionLocked m' = true.
Proof. eexists. split; [vm_compute; reflexivity|]. by split. Qed.

Lemma vault_zeroed_witness :
  (releases vaultModel escKey vaultWorld = true →
   is_Some (Update sampleScreens vaultModel escKey vaultWorld))
  ∧ ∀ (m' : Model) (cmd : Cmd) (w' : World),
      Update sampleScreens vaultModel escKey vaultWorld = Some ((m', cmd), w') →
      revealedValue m' ≠ Some 1%positive
      ∧ w_heap w' !! 1%positive = Some [x00; x00; x00].
Proof.
  apply (vault_zeroed_when_released sampleScreens vaultModel vaultWorld escKey 1%positive
           [x61; x62; x63]);
    [reflexivity | reflexivity | intros k _; by left].
Defined.

(** The project-switch combination in the reveal view: the view is left
    for the project switch, and the vault still holds the buffer with its
    bytes. *)
Lemma project_switch_keeps_buffer :
  ∃ m' w',
    Update sampleScreens vaultModel ctrlP vaultWorld = Some ((m', textinput_Blink), w')
    ∧ view vaultModel = ViewReveal
    ∧ view m' = ViewProjectSwitch
    ∧ revealedValue m' = Some 1%positive
    ∧ w_heap w' !! 1%positive = Some [x61; x62; x63].
Proof. eexists _, _. split; [vm_compute; reflexivity|]. by repeat split. Qed.

Lemma copies_share_deadline_witness :
  ∃ m' w' t0,
    handleAll sampleScreens sampleModel
      (copiesCompleted [("db-password", "1"); ("db-user", "1")]%string) (sampleWorld ∅)
    = Some ((m', replicate 2 clipboardTickCmd), w')
    ∧ lastReading (sampleWorld ∅) w' t0
    ∧ clipboardActive m' = true
    ∧ clipboardClearAt m' = Add t0 (mulDuration 30 Second)
    ∧ config m' = sampleConfig
    ∧ w_env w' = calmEnv
    ∧ ∀ (m2 : Model) (w2 : World) (t : Time),
        clipboardActive m2 = true →
        clipboardClearAt m2 = clipboardClearAt m' →
        r_time (reply w2 0) < clipboardClearAt m' →
        ∃ m3, Update sampleScreens m2 (clipboardTickMsg t) w2
              = Some ((m3, clipboardTickCmd), after w2 [time_Now])
              ∧ clipboardActive m3 = true
              ∧ clipboardClearAt m3 = clipboardClearAt m'.
Proof.
  apply (copies_share_deadline_and_stack_ticks sampleScreens
           [("db-password", "1"); ("db-user", "1")]%string sampleModel (sampleWorld ∅));
    [reflexivity | reflexivity | discriminate].
Defined.

(** Two copies complete one after the other: each is answered by a tick
    task, and each of the two ticks, once delivered, by a tick task again.
    Two tick tasks are live after the copies, and two still are after both
    have fired. *)
Lemma two_copies_two_live_ticks :
  ∃ m' w',
    handleAll sampleScreens sampleModel twoCopies (sampleWorld ∅)
    = Some ((m', [clipboardTickCmd; clipboardTickCmd; clipboardTickCmd; clipboardTickCmd]), w')
    ∧ liveTicks (take 2 twoCopies) [clipboardTickCmd; clipboardTickCmd] = 2
    ∧ liveTicks twoCopies
        [clipboardTickCmd; clipboardTickCmd; clipboardTickCmd; clipboardTickCmd] = 2.
Proof. eexists _, _. split; [vm_compute; reflexivity|]. by split. Qed.



(** * Further properties *)

(** ** The list of recent projects *)

(** [AddRecentProject] with a project name: the project comes first, it
    occurs once, the other projects are kept in their order, and nothing
    else in the configuration changes; with the empty name nothing changes
    at all. *)
Theorem AddRecentProject_moves_to_front (c : Config) (projectID : string) :
  (projectID = ""%string → AddRecentProject c projectID = c)
  ∧ (projectID ≠ ""%string →
     ∃ others,
       RecentProjects (AddRecentProject c projectID) = projectID :: others
       ∧ (projectID ∉ others)
       ∧ others = filter (λ p, p ≠ projectID) (RecentProjects c)
       ∧ (∀ q, (q ∈ RecentProjects (AddRecentProject c projectID))
               ↔ (q = projectID ∨ q ∈ RecentProjects c))
       ∧ (NoDup (RecentProjects c) → NoDup (RecentProjects (AddRecentProject c projectID)))
       ∧ set_RecentProjects (RecentProjects c) (AddRecentProject c projectID) = c).
Proof.
  unfold AddRecentProject. split.
  - intros ->. by rewrite bool_decide_eq_true_2.
  - intros Hne. rewrite bool_decide_eq_false_2 by done. cbv zeta. simpl.
    eexists. split; [reflexivity|].
    assert (Hnotin : projectID ∉ filter (λ p, p ≠ projectID) (RecentProjects c)).
    { rewrite list_elem_of_filter. by intros [? _]. }
    split; [done|]. split; [done|]. split.
    { intros q. rewrite elem_of_cons, list_elem_of_filter.
      destruct (decide (q = projectID)) as [->|Hq]; [by split; intros; left|].
      split; [intros [?|[_ ?]]; [by left | by right] | intros [?|?]; [by left | by right]]. }
    split.
    { intros Hnd. apply NoDup_cons. split; [done|]. by apply NoDup_filter. }
    by destruct c.
Qed.

Lemma AddRecentProject_witness :
  ∃ others,
    RecentProjects (AddRecentProject threeProjects
                      "beta")
    = "beta"%string :: others
    ∧ ("beta"%string ∉ others)
    ∧ others = filter (λ p, p ≠ "beta"%string) ["alpha"; "beta"; "gamma"]%string
    ∧ (∀ q, (q ∈ RecentProjects
                   (AddRecentProject
                      threeProjects "beta"))
            ↔ (q = "beta"%string ∨ q ∈ ["alpha"; "beta"; "gamma"]%string))
    ∧ (NoDup ["alpha"; "beta"; "gamma"]%string
       → NoDup (RecentProjects
                  (AddRecentProject
                     threeProjects "beta")))
    ∧ set_RecentProjects ["alpha"; "beta"; "gamma"]%string
        (AddRecentProject threeProjects
           "beta")
      = threeProjects.
Proof.
  apply (proj2 (AddRecentProject_moves_to_front
                  threeProjects "beta")).
  discriminate.
Defined.

(** Adding a project twice is adding it once, and removing a project
    that was just added is removing it from the list as it was. *)
Theorem AddRecentProject_RemoveProject_laws (c : Config) (projectID : string) :
  AddRecentProject (AddRecentProject c projectID) projectID = AddRecentProject c projectID
  ∧ RemoveProject (AddRecentProject c projectID) projectID = RemoveProject c projectID
  ∧ RemoveProject (RemoveProject c projectID) projectID = RemoveProject c projectID
  ∧ (projectID ∉ RecentProjects (RemoveProject c projectID))
  ∧ (∀ q, q ≠ projectID →
          (q ∈ RecentProjects (RemoveProject c projectID)) ↔ (q ∈ RecentProjects c))
  ∧ RecentProjects (RemoveProject c projectID) `sublist_of` RecentProjects c.
Proof.
  assert (Hidem : ∀ l : list string,
            filter (λ p, p ≠ projectID) (filter (λ p, p ≠ projectID) l)
            = filter (λ p, p ≠ projectID) l).
  { intros l. induction l as [|x l IH]; [done|].
    rewrite !filter_cons. destruct (decide (x ≠ projectID)) as [Hx|Hx]; [|done].
    rewrite filter_cons. destruct (decide (x ≠ projectID)); [|done]. by rewrite IH. }
  assert (Hself : ∀ l : list string,
            filter (λ p, p ≠ projectID) (projectID :: l) = filter (λ p, p ≠ projectID) l).
  { intros l. rewrite filter_cons. by destruct (decide (projectID ≠ projectID)). }
  unfold AddRecentProject, RemoveProject. cbv zeta.
  destruct (decide (projectID = ""%string)) as [Hp|Hp].
  - rewrite !bool_decide_eq_true_2 by done.
    split; [done|]. split; [done|]. unfold set_RecentProjects. simpl. rewrite Hidem.
    split; [done|]. split; [rewrite list_elem_of_filter; by intros [? _]|].
    split; [|apply sublist_filter].
    intros q Hq. rewrite list_elem_of_filter. split; [by intros [_ ?] | done].
  - rewrite !bool_decide_eq_false_2 by done. unfold set_RecentProjects. simpl.
    rewrite ?bool_decide_eq_false_2 by done. simpl. rewrite ?Hself, ?Hidem.
    repeat (split; [done|]).
    split; [rewrite list_elem_of_filter; by intros [? _]|].
    split; [|apply sublist_filter].
    intros q Hq. rewrite list_elem_of_filter. split; [by intros [_ ?] | done].
Qed.

Section ProjectSwitchProperties.
Context `{GoRuntime} `{Widgets}.


End ProjectSwitchProperties.

(** ** Rotation of the journal *)

Section RotationProperties.
Context `{GoRuntime}.

Ltac next_call :=
  unfold bind at 1; unfold call at 1; cbn [w_env w_trace w_heap];
  rewrite ?length_app; cbn [length]; rewrite <- ?Nat.add_assoc; cbn [Nat.add].

(** While the file is smaller than the limit, [rotateIfNeeded] asks for
    its size and does nothing else. *)
Theorem small_file_is_not_rotated (l : Logger) (w : World) (f : File) :
  file l = Some f →
  r_err (reply w 0) = None →
  0 ≤ maxSizeMB l * 1048576 ≤ maxInt64 →
  r_size (reply w 0) < maxSizeMB l * 1048576 →
  rotateIfNeeded l w = Some ((l, None), after w [File_Stat f]).
Proof.
  intros Hfile Hstat Hfits Hsmall. unfold reply in *. rewrite Nat.add_0_r in *.
  unfold rotateIfNeeded. rewrite Hfile.
  unfold bind at 1. unfold call at 1. cbn [w_env w_trace w_heap]. rewrite Hstat.
  assert (Hmax : wrap64 (wrap64 (maxSizeMB l * 1024) * 1024) = maxSizeMB l * 1048576).
  { unfold wrap64, maxInt64 in *. rewrite (Z.mod_small (maxSizeMB l * 1024 + 2 ^ 63)) by lia.
    replace ((maxSizeMB l * 1024 + 2 ^ 63 - 2 ^ 63) * 1024) with (maxSizeMB l * 1048576) by lia.
    rewrite Z.mod_small by lia. lia. }
  rewrite Hmax. apply Z.ltb_lt in Hsmall. by rewrite Hsmall.
Qed.

(** Once the file has reached the limit it is rotated: closed, renamed
    with the stamp of the clock's reading, and a new file is opened under
    the old name, which the journal writes to from then on; the old logs are
    then cleaned up. *)
Theorem full_file_is_rotated (l : Logger) (w : World) (f : File) :
  file l = Some f →
  r_err (reply w 0) = None →
  r_err (reply w 1) = None →
  r_err (reply w 3) = None →
  r_err (reply w 4) = None →
  0 ≤ maxSizeMB l * 1048576 ≤ maxInt64 →
  maxSizeMB l * 1048576 ≤ r_size (reply w 0) →
  rotateIfNeeded l w
  = Some ((set_file (Some (r_file (reply w 4))) l, None),
          after w [File_Stat f; File_Close f; time_Now;
                   os_Rename (filePath l)
                     (filePath l +:+ "." +:+ format_stamp (r_time (reply w 2)));
                   os_OpenFile (filePath l);
                   go_cleanupOldLogs (filePath l) (maxAgeDays l)]).
Proof.
  intros Hfile Hstat Hclose Hrename Hopen Hfits Hfull.
  unfold reply in *. rewrite Nat.add_0_r in *.
  unfold rotateIfNeeded. rewrite Hfile.
  unfold bind at 1. unfold call at 1. cbn [w_env w_trace w_heap]. rewrite Hstat.
  assert (Hmax : wrap64 (wrap64 (maxSizeMB l * 1024) * 1024) = maxSizeMB l * 1048576).
  { unfold wrap64, maxInt64 in *. rewrite (Z.mod_small (maxSizeMB l * 1024 + 2 ^ 63)) by lia.
    replace ((maxSizeMB l * 1024 + 2 ^ 63 - 2 ^ 63) * 1024) with (maxSizeMB l * 1048576) by lia.
    rewrite Z.mod_small by lia. lia. }
  rewrite Hmax. apply Z.ltb_ge in Hfull. rewrite Hfull.
  unfold rotate. rewrite Hfile.
  next_call. rewrite Hclose. next_call. cbv zeta. next_call. rewrite Hrename.
  next_call. rewrite Hopen. cbv zeta. next_call.
  unfold ret, after. cbn [filePath maxAgeDays set_file]. by rewrite <- !app_assoc.
Qed.

(** When the rename of a rotation fails, the error comes back and the
    journal still holds the handle of the file it has just closed. *)
Theorem failed_rename_leaves_closed_file (l : Logger) (w : World) (f : File) (e : string) :
  file l = Some f →
  r_err (reply w 0) = None →
  r_err (reply w 1) = None →
  r_err (reply w 3) = Some e →
  0 ≤ maxSizeMB l * 1048576 ≤ maxInt64 →
  maxSizeMB l * 1048576 ≤ r_size (reply w 0) →
  ∃ l',
    rotateIfNeeded l w
    = Some ((l', Some e),
            after w [File_Stat f; File_Close f; time_Now;
                     os_Rename (filePath l)
                       (filePath l +:+ "." +:+ format_stamp (r_time (reply w 2)))])
    ∧ file l' = Some f.
Proof.
  intros Hfile Hstat Hclose Hrename Hfits Hfull.
  unfold reply in *. rewrite Nat.add_0_r in *.
  unfold rotateIfNeeded. rewrite Hfile.
  unfold bind at 1. unfold call at 1. cbn [w_env w_trace w_heap]. rewrite Hstat.
  assert (Hmax : wrap64 (wrap64 (maxSizeMB l * 1024) * 1024) = maxSizeMB l * 1048576).
  { unfold wrap64, maxInt64 in *. rewrite (Z.mod_small (maxSizeMB l * 1024 + 2 ^ 63)) by lia.
    replace ((maxSizeMB l * 1024 + 2 ^ 63 - 2 ^ 63) * 1024) with (maxSizeMB l * 1048576) by lia.
    rewrite Z.mod_small by lia. lia. }
  rewrite Hmax. apply Z.ltb_ge in Hfull. rewrite Hfull.
  unfold rotate. rewrite Hfile.
  next_call. rewrite Hclose. next_call. cbv zeta. next_call. rewrite Hrename.
  exists l. unfold ret, after. by rewrite <- !app_assoc.
Qed.

End RotationProperties.

(** ** The namespace tree, further *)

Section MoreTreeProperties.
Context `{Widgets}.

(** Every secret of the list has a node at the end of its path. *)
Theorem every_secret_has_node (m : Model) (s : gcp_Secret) :
  s ∈ secrets m →
  is_Some (walkPath (segments (GoStrings.Split (Secret_Name s) (FolderSeparator (config m))))
             (folderTree (buildFolderTree m))).
Proof.
  intros Hin. apply list_elem_of_split in Hin as (l1 & l2 & Heq).
  rewrite folderTree_buildFolderTree, Heq. apply secret_has_node.
Qed.

(** Secrets added at the end of the list leave the marking of every node
    that is already there: its name, full path, folder flag, secret and
    depth. *)
Theorem later_secrets_keep_marking (m : Model) (more : list gcp_Secret)
    (path : list string) (n : FolderItem) :
  walkPath path (folderTree (buildFolderTree m)) = Some n →
  ∃ n', walkPath path (folderTree (buildFolderTree (set_secrets (secrets m ++ more) m)))
        = Some n'
        ∧ sameMarking n n'.
Proof.
  rewrite !folderTree_buildFolderTree. intros Hwalk.
  change (config (set_secrets _ m)) with (config m).
  change (secrets (set_secrets ?l m)) with l.
  unfold treeOf in *. rewrite fold_left_app. by apply fold_insertSecret_keeps.
Qed.

(** A secret whose full path no earlier secret has reached gets a leaf
    there, which carries it, whatever comes later in the list. *)
Theorem unreached_name_becomes_leaf (m : Model) (before after : list gcp_Secret)
    (s : gcp_Secret) (stem : list string) (last : string) :
  let sep := FolderSeparator (config m) in
  let path := segments (stem ++ [last]) in
  GoStrings.Split (Secret_Name s) sep = stem ++ [last] →
  last ≠ ""%string →
  walkPath path (treeOf sep before) = None →
  ∃ n, walkPath path (folderTree (buildFolderTree (set_secrets (before ++ s :: after) m)))
       = Some n
       ∧ Name n = last
       ∧ IsFolder n = false
       ∧ Secret n = Some s.
Proof.
  intros sep path Hsplit Hlast Hnone.
  rewrite folderTree_buildFolderTree. change (config (set_secrets _ m)) with (config m).
  change (secrets (set_secrets ?l m)) with l. fold sep.
  destruct (first_secret_decides sep before after s (length stem) last)
    as (n & Hn & Hname & Hfolder & Hsecret).
  - rewrite Hsplit. by rewrite lookup_app_r, Nat.sub_diag by lia.
  - done.
  - rewrite Hsplit, take_ge by (rewrite length_app; simpl; lia). exact Hnone.
  - rewrite Hsplit, take_ge in Hn by (rewrite length_app; simpl; lia).
    exists n. split; [exact Hn|]. split; [done|].
    assert (Hlt : (Z.of_nat (length stem)
                   <? len (GoStrings.Split (Secret_Name s) sep) - 1)%Z = false).
    { rewrite Hsplit. unfold len. rewrite length_app. simpl. apply Z.ltb_ge. lia. }
    rewrite Hlt in Hfolder, Hsecret. done.
Qed.

End MoreTreeProperties.

(** ** The further properties on the sample states *)

Lemma quit_leaves_the_vault_witness :
  Update sampleScreens vaultModel ctrlC vaultWorld
  = Some ((set_lastActivity (r_time (reply vaultWorld 0)) vaultModel, tea_Quit),
          after vaultWorld [time_Now])
  ∧ revealedValue (set_lastActivity (r_time (reply vaultWorld 0)) vaultModel)
    = revealedValue vaultModel
  ∧ w_heap (after vaultWorld [time_Now]) = w_heap vaultWorld.
Proof.
  apply (quit_leaves_the_vault sampleScreens vaultModel vaultWorld "ctrl+c"%string).
  reflexivity.
Defined.

Lemma unlock_restores_view_witness :
  ∃ m' w',
    Update sampleScreens lockedModel enterKey (sampleWorld ∅) = Some ((m', CmdNil), w')
    ∧ sessionLocked m' = false
    ∧ view m' = ViewList
    ∧ lastActivity m' = 1000000000
    ∧ revealedValue m' = None.
Proof.
  destruct (unlock_restores_view sampleScreens lockedModel (sampleWorld ∅) "enter"%string)
    as (m' & w' & Hrun & Hunlocked & Hview & Hactivity & _ & _ & Hvault & _);
    [reflexivity | by left |].
  exists m', w'. repeat (split; [assumption|]). assumption.
Defined.

Lemma disabled_check_witness :
  Update sampleScreens noTimeoutModel (sessionTimeoutMsg 0) (lateWorld ∅)
  = Some ((noTimeoutModel, tea_Batch [sessionTimeoutTickCmd]), lateWorld ∅).
Proof.
  apply (disabled_check_never_locks sampleScreens noTimeoutModel (lateWorld ∅) 0).
  left. reflexivity.
Defined.

Lemma revealed_value_witness :
  ∃ m' w' l',
    Update sampleScreens sampleModel (secretValueMsg "db-password" (Some 7%positive) "3" None)
      valueWorld
    = Some ((m', tea_Batch []), w')
    ∧ view m' = ViewReveal
    ∧ revealedValue m' = Some l'
    ∧ l' ≠ 7%positive
    ∧ w_heap w' !! l' = Some [x73; x33; x63]
    ∧ w_heap w' !! 7%positive = Some [x00; x00; x00]
    ∧ getRevealedValueString m' w' = Some ("s3c"%string, w').
Proof.
  destruct (revealed_value_is_private_copy sampleScreens sampleModel valueWorld
              "db-password"%string "3"%string 7%positive [x73; x33; x63])
    as (m' & w' & l' & Hrun & Hview & _ & _ & Hvault & Hfresh & Hcopy & Hzero & Hshow);
    [reflexivity | discriminate |].
  exists m', w', l'. repeat (split; [assumption|]). assumption.
Defined.

Lemma reveal_copy_witness :
  ∃ m',
    Update sampleScreens vaultModel copyKey vaultWorld
    = Some ((m', clipboardTickCmd),
            after vaultWorld [time_Now; clipboard_WriteText "abc"; time_Now])
    ∧ clipboardActive m' = true
    ∧ clipboardClearAt m' = 32 * Second
    ∧ revealedValue m' = Some 1%positive.
Proof.
  destruct (reveal_copy_starts_timer sampleScreens vaultModel vaultWorld "c"%string 1%positive
              x61 [x62; x63])
    as (m' & Hrun & Hactive & Hdeadline & Hvault & _);
    [reflexivity | reflexivity | by left | reflexivity.. |].
  exists m'. repeat (split; [assumption|]). assumption.
Defined.

Lemma generate_copy_witness :
  ∃ m',
    Update sampleScreens generateModel copyKey (sampleWorld ∅)
    = Some ((m', clipboardTickCmd),
            after (sampleWorld ∅)
              [time_Now;
               clipboard_WriteText "gcloud secrets versions access latest --secret=db-password";
               time_Now])
    ∧ clipboardActive m' = true
    ∧ clipboardClearAt m' = 32 * Second.
Proof.
  destruct (generate_copy_ignores_timeout_sign sampleScreens generateModel (sampleWorld ∅)
              "c"%string)
    as (m' & Hrun & Hactive & Hdeadline & _);
    [reflexivity | reflexivity | by left | discriminate | reflexivity | reflexivity |].
  exists m'. repeat (split; [assumption|]). assumption.
Defined.

Lemma updateList_never_panics_witness :
  is_Some (updateList twoSecrets "enter"%string (sampleWorld ∅)).
Proof.
  apply (updateList_never_panics twoSecrets "enter"%string (sampleWorld ∅)).
  - intros _. by vm_compute.
  - vm_compute. discriminate.
Defined.


Lemma updateDisplayItems_clamps_witness :
  listOffset (updateDisplayItems (set_cursor 9 twoSecrets)) = 0
  ∧ (displayItems (updateDisplayItems (set_cursor 9 twoSecrets)) = []
     → cursor (updateDisplayItems (set_cursor 9 twoSecrets)) = 0)
  ∧ (displayItems (updateDisplayItems (set_cursor 9 twoSecrets)) ≠ []
     → 0 ≤ cursor (updateDisplayItems (set_cursor 9 twoSecrets))
         ≤ len (displayItems (updateDisplayItems (set_cursor 9 twoSecrets))) - 1).
Proof.
  apply (updateDisplayItems_clamps (set_cursor 9 twoSecrets) (folderTree twoSecrets)).
  vm_compute. reflexivity.
Defined.

Lemma small_file_witness :
  rotateIfNeeded sampleLogger (sampleWorld ∅)
  = Some ((sampleLogger, None), after (sampleWorld ∅) [File_Stat 3%positive]).
Proof.
  apply (small_file_is_not_rotated sampleLogger (sampleWorld ∅) 3%positive);
    [reflexivity | reflexivity | by vm_compute | reflexivity].
Defined.

Lemma full_file_witness :
  rotateIfNeeded sampleLogger {| w_heap := ∅; w_env := bigFileEnv; w_trace := [] |}
  = Some ((set_file (Some 4%positive) sampleLogger, None),
          after {| w_heap := ∅; w_env := bigFileEnv; w_trace := [] |}
            [File_Stat 3%positive; File_Close 3%positive; time_Now;
             os_Rename "/var/log/audit.log" ("/var/log/audit.log" +:+ "." +:+ format_stamp 2000000000);
             os_OpenFile "/var/log/audit.log";
             go_cleanupOldLogs "/var/log/audit.log" 90]).
Proof.
  apply (full_file_is_rotated sampleLogger {| w_heap := ∅; w_env := bigFileEnv; w_trace := [] |}
           3%positive); try reflexivity; by vm_compute.
Defined.

Lemma failed_rename_witness :
  ∃ l',
    rotateIfNeeded sampleLogger {| w_heap := ∅; w_env := renameFailsEnv; w_trace := [] |}
    = Some ((l', Some "permission denied"%string),
            after {| w_heap := ∅; w_env := renameFailsEnv; w_trace := [] |}
              [File_Stat 3%positive; File_Close 3%positive; time_Now;
               os_Rename "/var/log/audit.log" ("/var/log/audit.log" +:+ "." +:+ format_stamp 2000000000)])
    ∧ file l' = Some 3%positive.
Proof.
  apply (failed_rename_leaves_closed_file sampleLogger
           {| w_heap := ∅; w_env := renameFailsEnv; w_trace := [] |} 3%positive
           "permission denied"%string); try reflexivity; by vm_compute.
Defined.

Lemma every_secret_has_node_witness :
  is_Some (walkPath (segments (GoStrings.Split "db-password" "-"))
             (folderTree (buildFolderTree
                (set_secrets [secretNamed "db"; secretNamed "db-password"] hyphenModel)))).
Proof.
  apply (every_secret_has_node
           (set_secrets [secretNamed "db"; secretNamed "db-password"] hyphenModel)
           (secretNamed "db-password")).
  repeat constructor.
Defined.

Lemma later_secrets_witness :
  ∃ n', walkPath ["db"%string]
          (folderTree (buildFolderTree
             (set_secrets ([secretNamed "db"] ++ [secretNamed "db-password"])
                (set_secrets [secretNamed "db"] hyphenModel))))
        = Some n'
        ∧ sameMarking (newItem "-" (secretNamed "db") ["db"%string] 0 "db") n'.
Proof.
  apply (later_secrets_keep_marking (set_secrets [secretNamed "db"] hyphenModel)
           [secretNamed "db-password"] ["db"%string]
           (newItem "-" (secretNamed "db") ["db"%string] 0 "db")).
  reflexivity.
Defined.

Lemma unreached_name_witness :
  ∃ n, walkPath ["db"; "password"]%string
         (folderTree (buildFolderTree
            (set_secrets ([secretNamed "db"] ++ secretNamed "db-password" :: []) hyphenModel)))
       = Some n
       ∧ Name n = "password"%string
       ∧ IsFolder n = false
       ∧ Secret n = Some (secretNamed "db-password").
Proof.
  apply (unreached_name_becomes_leaf hyphenModel [secretNamed "db"] []
           (secretNamed "db-password") ["db"%string] "password");
    [reflexivity | discriminate | reflexivity].
Defined.

Lemma clear_of_empty_vault_witness :
  clearRevealedValue sampleModel (sampleWorld ∅) = Some (sampleModel, sampleWorld ∅)
  ∧ getRevealedValueString sampleModel (sampleWorld ∅) = Some (""%string, sampleWorld ∅).
Proof. apply (clear_of_empty_vault sampleModel (sampleWorld ∅)). reflexivity. Defined.

Lemma lost_path_witness :
  displayItems (updateDisplayItems (set_cursor 6 (set_currentPath ["app"%string] twoSecrets))) = []
  ∧ cursor (updateDisplayItems (set_cursor 6 (set_currentPath ["app"%string] twoSecrets)))
    = cursor (set_cursor 6 (set_currentPath ["app"%string] twoSecrets))
  ∧ listOffset (updateDisplayItems (set_cursor 6 (set_currentPath ["app"%string] twoSecrets)))
    = listOffset (set_cursor 6 (set_currentPath ["app"%string] twoSecrets)).
Proof.
  apply (updateDisplayItems_lost_path (set_cursor 6 (set_currentPath ["app"%string] twoSecrets))).
  vm_compute. reflexivity.
Defined.
